(** * WSI DeepZoom viewer backend: conversion requests, progress and tile cache

    Shallow embedding of the request handlers of [app.py] that drive slide
    conversion ([convert_slide], [update_progress], [get_progress]), serve
    tiles ([serve_tile]) and delete slides ([delete_slide]), together with the
    state they read and write: the process-wide dictionary
    [conversion_progress] and the files below the upload and cache folders.
    The handlers for uploads and listings ([allowed_file], [upload_file],
    [list_slides], [get_slide_info], [serve_dzi]) and for the storage bucket
    ([download_gcs_file], [proxy_gcs_file], [list_gcs_files],
    [get_gcs_status], [get_gcs_signed_url]) follow. *)

From Stdlib Require Import ZArith QArith Qabs Ascii PrimFloat Uint63 SpecFloat.
From Stdlib Require FloatOps.
From stdpp Require Import gmap strings list fin_maps pretty.

Open Scope Z_scope.
Open Scope string_scope.

(** ** Python values *)

Module Py.

(** The exceptions that arithmetic on numbers raises. *)
Inductive exception := ZeroDivisionError | OverflowError.

Inductive outcome (A : Type) :=
| Normal (a : A)
| Raise (e : exception).
Arguments Normal {A} a.
Arguments Raise {A} e.

(** *** Floats

    A [float] is held as the standard library's [spec_float]: a signed
    zero, a signed infinity, NaN, or [S754_finite s m e], which is the
    number [m * 2^e], negated when [s] is set, with [m] below 2^53 and [e]
    from -1074 to 971. Arithmetic takes the exact result to the nearest of
    these numbers, to the one with the even mantissa when two are equally
    near; a result of magnitude 2^1024 or more after rounding is out of
    range. *)
Definition float := spec_float.

(** [x * 2^e] when [e] is positive, [x] otherwise; the quotient of
    [shl n (- e)] by [shl d e] is [n / d / 2^e] for every integer [e]. *)
Definition shl (x e : Z) : Z := x * 2 ^ Z.max 0 e.

(** The integer nearest to [n / d], the even one of two equally near. *)
Definition rne (n d : Z) : Z :=
  let q := n / d in
  let r := n mod d in
  if decide (2 * r < d)%Z then q
  else if decide (d < 2 * r)%Z then q + 1
  else if Z.even q then q else q + 1.

(** The exponent of the last place of [n / d], for positive [n] and [d]:
    the [e] for which [n / d / 2^e] lies from 2^52 up to 2^53, but no less
    than -1074, the exponent of the subnormal numbers. The logarithms
    place [n / d / 2^k] between 2^52 and 2^54. *)
Definition exponent (n d : Z) : Z :=
  let k := Z.log2 n - Z.log2 d - 53 in
  Z.max (-1074)
    (if decide (2 ^ 53 * shl d k ≤ shl n (- k))%Z then k + 1 else k).

(** The float of mantissa [m] and exponent [e], an infinity when it is
    out of range. *)
Definition finite (s : bool) (m e : Z) : float :=
  if decide (e ≤ 971)%Z then S754_finite s (Z.to_pos m) e else S754_infinity s.

(** The float nearest to [n / d], for [n] at least 0 and positive [d],
    with the sign [s]. A mantissa that rounds up to 2^53 moves to the next
    exponent. *)
Definition nearest (s : bool) (n d : Z) : float :=
  let e := exponent n d in
  let m := rne (shl n (- e)) (shl d e) in
  if decide (m = 0) then S754_zero s
  else if decide (m = 2 ^ 53) then finite s (2 ^ 52) (e + 1)
  else finite s m e.

Definition sign (x : float) : bool :=
  match x with
  | S754_zero s | S754_infinity s | S754_finite s _ _ => s
  | S754_nan => false
  end.

(** The magnitude of a zero or finite float is [num x / den x]. *)
Definition num (x : float) : Z :=
  match x with
  | S754_finite _ m e => shl (Zpos m) e
  | _ => 0
  end.

Definition den (x : float) : Z :=
  match x with
  | S754_finite _ m e => shl 1 (- e)
  | _ => 1
  end.

Definition is_finite (x : float) : bool :=
  match x with
  | S754_zero _ | S754_finite _ _ _ => true
  | _ => false
  end.

(** The number that a zero or finite float stands for. *)
Definition to_Q (x : float) : Q :=
  (if sign x then - num x else num x) # Z.to_pos (den x).

(** A float literal of the source. *)
Definition literal (f : PrimFloat.float) : float := FloatOps.Prim2SF f.

(** [float(n)] for an int, which is also how an int operand of a float
    operation is converted: the nearest float, OverflowError when that is
    out of range. *)
Definition float_of_int (n : Z) : outcome float :=
  match nearest (bool_decide (n < 0)%Z) (Z.abs n) 1 with
  | S754_infinity _ => Raise OverflowError
  | x => Normal x
  end.

(** [a / b] on two ints: true division. A zero divisor raises
    ZeroDivisionError; otherwise the result is the float nearest to the
    exact quotient (the operands are not converted first), of the sign of
    [a] against [b] also when it is zero, and OverflowError is raised when
    that float is out of range. *)
Definition truediv (a b : Z) : outcome float :=
  if decide (b = 0) then Raise ZeroDivisionError
  else
    match nearest (xorb (bool_decide (a < 0)%Z) (bool_decide (b < 0)%Z))
                  (Z.abs a) (Z.abs b) with
    | S754_infinity _ => Raise OverflowError
    | x => Normal x
    end.

(** [x * y] on two floats, which raises nothing: a product out of range is
    an infinity. *)
Definition mul (x y : float) : float :=
  match x, y with
  | S754_nan, _ | _, S754_nan => S754_nan
  | S754_infinity _, S754_zero _ | S754_zero _, S754_infinity _ => S754_nan
  | S754_infinity sx, _ => S754_infinity (xorb sx (sign y))
  | _, S754_infinity sy => S754_infinity (xorb (sign x) sy)
  | _, _ => nearest (xorb (sign x) (sign y)) (num x * num y) (den x * den y)
  end.

(** [x * n] for a float [x] and an int [n]. *)
Definition mul_int (x : float) (n : Z) : outcome float :=
  match float_of_int n with
  | Normal y => Normal (mul x y)
  | Raise e => Raise e
  end.

(** [x < n] for a float [x] and an int [n]: the two numbers are compared
    exactly. *)
Definition lt_int (x : float) (n : Z) : bool :=
  match x with
  | S754_nan => false
  | S754_infinity s => s
  | _ => bool_decide ((if sign x then - num x else num x) < n * den x)%Z
  end.

(** [n / d < 2^j] *)
Definition below (n d j : Z) : Prop := (shl n (- j) < shl d j)%Z.

(** *** Values

    The values stored in the dictionaries the handlers build. [int] is
    unbounded, [float] is an IEEE 754 binary64 number. *)
Inductive value :=
| Bool (b : bool)
| Int (z : Z)
| Float (f : float)
| Str (s : string).

(** A dictionary literal, in insertion order. *)
Definition dict := list (string * value).

(** [d[key]] *)
Fixpoint item (key : string) (d : dict) : option value :=
  match d with
  | [] => None
  | (k, v) :: d' => if String.eqb k key then Some v else item key d'
  end.

(** [str(n)] for an int. *)
Definition str (n : Z) : string := pretty n.

(** The characters that [str] of an int is made of: a sign and digits. *)
Definition numeric_char (c : ascii) : bool :=
  existsb (Ascii.eqb c)
    ["-"; "0"; "1"; "2"; "3"; "4"; "5"; "6"; "7"; "8"; "9"]%char.

Fixpoint numeric (s : string) : bool :=
  match s with
  | EmptyString => true
  | String c s' => numeric_char c && numeric s'
  end.

(** [c.lower()] on one character. Strings are byte strings: only the
    ASCII letters have another case. *)
Definition lower_char (c : ascii) : ascii :=
  let n := nat_of_ascii c in
  if ((65 <=? n) && (n <=? 90))%nat then ascii_of_nat (n + 32) else c.

(** [s.lower()] *)
Fixpoint lower (s : string) : string :=
  match s with
  | EmptyString => EmptyString
  | String c s' => String (lower_char c) (lower s')
  end.

(** [sep in s], for a separator of one character. *)
Fixpoint contains (sep : ascii) (s : string) : bool :=
  match s with
  | EmptyString => false
  | String c s' => Ascii.eqb c sep || contains sep s'
  end.

(** The text before and the text after the last [sep] of [s], if there is
    one: [s.rpartition(sep)] without its middle. *)
Fixpoint rcut (sep : ascii) (s : string) : option (string * string) :=
  match s with
  | EmptyString => None
  | String c s' =>
      match rcut sep s' with
      | Some (a, b) => Some (String c a, b)
      | None => if Ascii.eqb c sep then Some (EmptyString, s') else None
      end
  end.

(** [s.rsplit(sep, 1)] *)
Definition rsplit1 (sep : ascii) (s : string) : list string :=
  match rcut sep s with
  | Some (a, b) => [a; b]
  | None => [s]
  end.

(** [s.startswith(prefix)] *)
Definition startswith (prefix s : string) : bool := String.prefix prefix s.

(** [sub in s] *)
Fixpoint has (sub s : string) : bool :=
  String.prefix sub s ||
  match s with
  | EmptyString => false
  | String _ s' => has sub s'
  end.

(** [s[n:]] *)
Fixpoint drop (n : nat) (s : string) : string :=
  match n, s with
  | S n', String _ s' => drop n' s'
  | _, _ => s
  end.

(** [s.split(sep)] for a separator that is not empty: [s] is cut at the
    occurrences of [sep], found from the left and not overlapping. [skip]
    counts the characters of a separator just found that are still to be
    passed over. *)
Fixpoint split_go (sep : string) (skip : nat) (s : string) : list string :=
  match s with
  | EmptyString => [EmptyString]
  | String c s' =>
      match skip with
      | S k => split_go sep k s'
      | O =>
          if String.prefix sep s then
            EmptyString :: split_go sep (String.length sep - 1) s'
          else
            match split_go sep 0 s' with
            | part :: parts => String c part :: parts
            | [] => [String c EmptyString]
            end
      end
  end.

Definition split (sep s : string) : list string := split_go sep 0 s.

End Py.

(** Float literals are written as they stand in the source. *)
Coercion Py.literal : PrimFloat.float >-> Py.float.
Bind Scope float_scope with Py.float.

#[global] Instance float_eq_dec : EqDecision Py.float.
Proof. unfold Py.float. solve_decision. Defined.

#[global] Instance exception_eq_dec : EqDecision Py.exception.
Proof. solve_decision. Defined.

#[global] Instance outcome_eq_dec {A : Type} `{EqDecision A} :
  EqDecision (Py.outcome A).
Proof. solve_decision. Defined.

(** ** The file system

    Only regular files are recorded: a map from the path of each file (its
    components, relative to the working directory of the server) to its
    content. A directory exists implicitly when a file lies below it. *)

Module Fs.

(** [Path(dir) / name] *)
Definition div (dir : list string) (name : string) : list string :=
  (dir ++ [name])%list.

(** [path.exists()], asked of file paths. *)
Definition exists_ (p : list string) (fs : gmap (list string) string) : bool :=
  bool_decide (is_Some (fs !! p)).

(** [child_name dir p] is [Some name] when [p] is the entry [name] lying
    directly in [dir]. *)
Fixpoint child_name (dir p : list string) : option string :=
  match dir, p with
  | [], [name] => Some name
  | d :: dir', c :: p' => if decide (d = c) then child_name dir' p' else None
  | _, _ => None
  end.

(** [below dir p]: the file [p] lies somewhere below the directory [dir]. *)
Fixpoint below (dir p : list string) : bool :=
  match dir, p with
  | [], _ :: _ => true
  | d :: dir', c :: p' => bool_decide (d = c) && below dir' p'
  | _, _ => false
  end.

(** [path.unlink()] *)
Definition unlink (p : list string) (fs : gmap (list string) string)
  : gmap (list string) string := delete p fs.

(** [dir.glob(pattern)] for a pattern without a directory separator: the
    entries directly in [dir] whose name matches. The matching of one
    name against a pattern is the argument [fnmatch]. *)
Definition glob (fnmatch : string → string → bool)
    (dir : list string) (pattern : string) (fs : gmap (list string) string)
  : list (list string) :=
  List.filter
    (λ p, match child_name dir p with
          | Some name => fnmatch pattern name
          | None => false
          end)
    (map_to_list fs).*1.

(** Shell-style matching with the wildcards [*] (any run of characters)
    and [?] (any one character); every other character stands for
    itself. This is what pathlib does with patterns free of bracket
    classes, and the matcher the sample runs below use. *)
Fixpoint wildcard (pattern name : string) : bool :=
  match pattern with
  | EmptyString => match name with EmptyString => true | _ => false end
  | String c pattern' =>
      if Ascii.eqb c "*"%char then
        (fix star (n : string) : bool :=
           wildcard pattern' n ||
           match n with
           | EmptyString => false
           | String _ n' => star n'
           end) name
      else
        match name with
        | EmptyString => false
        | String d name' =>
            (Ascii.eqb c "?"%char || Ascii.eqb c d) && wildcard pattern' name'
        end
  end.

(** [Path(name).stem] and [Path(name).suffix] of a file name (pathlib of
    Python 3.8 to 3.13): the name is cut at its last dot, unless that dot
    comes first or last. *)
Definition stem (name : string) : string :=
  match Py.rcut "." name with
  | Some (String c a, String d b) => String c a
  | _ => name
  end.

Definition suffix (name : string) : string :=
  match Py.rcut "." name with
  | Some (String c a, String d b) => String "." (String d b)
  | _ => EmptyString
  end.

(** [dir.iterdir()], files only: the names and contents of the files lying
    directly in [dir]. *)
Definition iterdir (dir : list string) (fs : gmap (list string) string)
  : list (string * string) :=
  omap (λ kv, (λ name, (name, kv.2)) <$> child_name dir kv.1) (map_to_list fs).

(** A name free of the characters that are special in a glob pattern. *)
Definition plain (s : string) : bool :=
  negb (Py.contains "*" s) && negb (Py.contains "?" s) && negb (Py.contains "[" s).

(** [Path(dir) / name] for any single component [name]: pathlib drops an
    empty component and a lone dot. *)
Definition child (dir : list string) (name : string) : list string :=
  if bool_decide (name = "") || bool_decide (name = ".") then dir
  else div dir name.

(** [str(path)] *)
Fixpoint str (p : list string) : string :=
  match p with
  | [] => "."
  | [name] => name
  | name :: p' => name +:+ "/" +:+ str p'
  end.

(** [path.exists()] for a path that may also be a directory: a file is
    recorded at [p], or some file lies below [p]. *)
Definition exists_entry (p : list string) (fs : gmap (list string) string) : bool :=
  exists_ p fs || bool_decide (map_Exists (λ q _, below p q = true) fs).

End Fs.

(** ** Configuration *)

Definition UPLOAD_FOLDER : string := "uploads".
Definition CACHE_FOLDER : string := "cache".

(** ** The converter *)

Module WSIConverter.

(** The descriptor of a slide, [cache/<slide_name>.dzi] (the file that
    [serve_dzi] hands out for the [dzi_url] of the slide), and the
    directory of its tiles, [cache/<slide_name>_files] (where [serve_tile]
    looks tiles up). *)
Definition descriptor (slide_name : string) : list string :=
  Fs.div [CACHE_FOLDER] (slide_name +:+ ".dzi").
Definition tiles_dir (slide_name : string) : list string :=
  Fs.div [CACHE_FOLDER] (slide_name +:+ "_files").

(** Modelled from the spec: [converter.py] ([WSIConverter.is_converted]) is
    not among the sources. The descriptor's existence is the authoritative
    "is converted" predicate. *)
Definition is_converted (slide_name : string) (fs : gmap (list string) string) : bool :=
  Fs.exists_ (descriptor slide_name) fs.

(** Modelled from the spec: [converter.py] ([WSIConverter.is_viewable]) is
    not among the sources. [hasAny]: true if at least one tile file exists
    for the slide. *)
Definition is_viewable (slide_name : string) (fs : gmap (list string) string) : bool :=
  bool_decide (map_Exists (λ p _, Fs.below (tiles_dir slide_name) p = true) fs).

(** The files the cache holds for one slide: its descriptor and everything
    below its tile directory. *)
Definition cached_for (slide_name : string) (p : list string) : bool :=
  bool_decide (p = descriptor slide_name) || Fs.below (tiles_dir slide_name) p.

(** Modelled from the spec: [converter.py] ([WSIConverter.cleanup_cache]) is
    not among the sources. [invalidate]: recursively removes every tile and
    the descriptor for that slide. *)
Definition cleanup_cache (slide_name : string) (fs : gmap (list string) string)
  : gmap (list string) string :=
  filter (λ kv, cached_for slide_name kv.1 = false) fs.

End WSIConverter.

(** ** Server state and responses *)

(** The files on disk and the global [conversion_progress] dictionary. *)
Record server := Server {
  disk : gmap (list string) string;
  conversion_progress : gmap string Py.dict
}.

(** What a handler hands back: the returned body, or a raised
    [HTTPException(status_code, detail)]. *)
Inductive response (A : Type) :=
| Return (body : A)
| HTTPException (status_code : Z) (detail : string).
Arguments Return {A} body.
Arguments HTTPException {A} status_code detail.

(** [FileResponse(path, media_type=...)]; the body sent is the content of
    the file at [path]. *)
Record FileResponse := {
  path : list string;
  media_type : string
}.

Definition body_sent (r : FileResponse) (fs : gmap (list string) string) : option string :=
  fs !! path r.

(** A task queued with [background_tasks.add_task]: a call of
    [converter.convert_to_deepzoom(slide_path, progress_callback=...)], where
    the callback closes over [slide_name]. *)
Record task := {
  slide_path : list string;
  callback_slide : string
}.

(** ** The handlers *)

(** [conversion_progress[slide_name] = entry] *)
Definition set_progress (slide_name : string) (entry : Py.dict) (st : server) : server :=
  {| disk := disk st;
     conversion_progress := <[slide_name := entry]> (conversion_progress st) |}.

Definition update_progress (slide_name : string) (current total : Z) (st : server)
  : Py.outcome server :=
  match Py.truediv current total with
  | Py.Raise e => Py.Raise e
  | Py.Normal q =>
      match Py.mul_int q 100 with
      | Py.Raise e => Py.Raise e
      | Py.Normal percentage =>
          Py.Normal
            (set_progress slide_name
               [("progress", Py.Float percentage);
                ("status", Py.Str (if Py.lt_int percentage 100
                                   then "converting" else "complete"))]
               st)
      end
  end.

(** The closure [progress_callback] that [convert_slide] defines. *)
Definition progress_callback (slide_name : string) (current total : Z) (st : server)
  : Py.outcome server :=
  update_progress slide_name current total st.

(** The same percentage computed with the floats of the machine, for
    counts that a machine integer holds. *)
Definition machine_percentage (current total : Z) : Py.float :=
  Py.literal
    (PrimFloat.mul
       (PrimFloat.div (PrimFloat.of_uint63 (Uint63.of_Z current))
                      (PrimFloat.of_uint63 (Uint63.of_Z total)))
       100).

Section Handlers.

(** pathlib's matching of a file name against a glob pattern. The handlers
    only look at whether and what [glob] finds, so it is left open here. *)
Variable fnmatch : string → string → bool.

Definition slide_files (slide_name : string) (st : server) : list (list string) :=
  Fs.glob fnmatch [UPLOAD_FOLDER] (slide_name +:+ ".*") (disk st).

Definition convert_slide (slide_name : string) (background_tasks : list task)
    (st : server) : response Py.dict * list task * server :=
  match slide_files slide_name st with
  | [] => (HTTPException 404 "Slide not found", background_tasks, st)
  | slide_path :: _ =>
      if WSIConverter.is_converted slide_name (disk st) then
        (Return [("success", Py.Bool true);
                 ("message", Py.Str "Slide already converted");
                 ("dzi_url", Py.Str ("/api/dzi/" +:+ slide_name +:+ ".dzi"));
                 ("status", Py.Str "complete")],
         background_tasks, st)
      else
        let st' :=
          set_progress slide_name
            [("progress", Py.Int 0); ("status", Py.Str "starting")] st in
        let background_tasks' :=
          (background_tasks ++
             [{| slide_path := slide_path; callback_slide := slide_name |}])%list in
        (Return [("success", Py.Bool true);
                 ("message", Py.Str "Conversion started");
                 ("dzi_url", Py.Str ("/api/dzi/" +:+ slide_name +:+ ".dzi"));
                 ("status", Py.Str "converting")],
         background_tasks', st')
  end.

Definition get_progress (slide_name : string) (st : server) : Py.dict :=
  match conversion_progress st !! slide_name with
  | Some entry => entry
  | None =>
      if WSIConverter.is_converted slide_name (disk st) then
        [("progress", Py.Int 100); ("status", Py.Str "complete")]
      else if WSIConverter.is_viewable slide_name (disk st) then
        [("progress", Py.Int 50); ("status", Py.Str "converting")]
      else
        [("progress", Py.Int 0); ("status", Py.Str "idle")]
  end.

Definition tile_path (slide_name : string) (level col row : Z) (format : string)
  : list string :=
  let tiles_dir := Fs.div [CACHE_FOLDER] (slide_name +:+ "_files") in
  Fs.div (Fs.div tiles_dir (Py.str level))
         (Py.str col +:+ "_" +:+ Py.str row +:+ "." +:+ format).

Definition serve_tile (slide_name : string) (level col row : Z) (format : string)
    (st : server) : response FileResponse :=
  let tile_path := tile_path slide_name level col row format in
  if negb (Fs.exists_ tile_path (disk st)) then
    HTTPException 404 "Tile not found"
  else
    Return {| path := tile_path; media_type := "image/" +:+ format |}.

Definition delete_slide (slide_name : string) (st : server)
  : response Py.dict * server :=
  match slide_files slide_name st with
  | [] => (HTTPException 404 "Slide not found", st)
  | found =>
      let fs := foldl (λ fs slide_file, Fs.unlink slide_file fs) (disk st) found in
      let fs := WSIConverter.cleanup_cache slide_name fs in
      (Return [("success", Py.Bool true); ("message", Py.Str "Slide deleted")],
       {| disk := fs; conversion_progress := conversion_progress st |})
  end.

End Handlers.

(** ** Uploads and the slide list *)

Definition ALLOWED_EXTENSIONS : gset string :=
  list_to_set
    ["svs"; "tif"; "tiff"; "vms"; "vmu"; "ndpi"; "scn"; "mrxs"; "svslide"; "bif"].

(** The index [1] is only taken when the name has a dot, so that the list
    has two elements. *)
Definition allowed_file (filename : string) : bool :=
  Py.contains "." filename &&
  match Py.rsplit1 "." filename !! 1%nat with
  | Some ext => bool_decide (Py.lower ext ∈ ALLOWED_EXTENSIONS)
  | None => false
  end.

(** The body of [list_slides] is [{"slides": slides}]; the list [slides] is
    what this returns, one dictionary per allowed file of the upload folder
    (an upload folder that does not exist gives the empty list as well). *)
Definition list_slides (st : server) : response (list Py.dict) :=
  Return
    (omap
       (λ file,
          if allowed_file file.1 then
            Some [("name", Py.Str (Fs.stem file.1));
                  ("filename", Py.Str file.1);
                  ("size", Py.Int (Z.of_nat (String.length file.2)));
                  ("converted",
                   Py.Bool (WSIConverter.is_converted (Fs.stem file.1) (disk st)));
                  ("viewable",
                   Py.Bool (WSIConverter.is_viewable (Fs.stem file.1) (disk st)))]
          else None)
       (Fs.iterdir [UPLOAD_FOLDER] (disk st))).

(** The reply of a successful upload: its scalar fields and the dictionary
    under ['info']. *)
Record upload_reply := {
  fields : Py.dict;
  info : Py.dict
}.

Section SlideInfo.

(** [converter.get_slide_info(path)], which opens the slide with the
    external decoder: the metadata dictionary, or the message of the
    exception it raises. *)
Variable slide_info : list string → gmap (list string) string → string + Py.dict.

(** [upload_file], for a [file.filename] that is a single path component
    (no directory separator) and not the name of a directory of the upload
    folder. *)
Definition upload_file (filename content : string) (st : server)
  : response upload_reply * server :=
  if bool_decide (filename = "") then
    (HTTPException 400 "No file selected", st)
  else if negb (allowed_file filename) then
    (HTTPException 400 "File type not supported", st)
  else
    let file_path := Fs.div [UPLOAD_FOLDER] filename in
    let st' :=
      {| disk := <[file_path := content]> (disk st);
         conversion_progress := conversion_progress st |} in
    match slide_info file_path (disk st') with
    | inl e => (HTTPException 500 e, st')
    | inr details =>
        (Return {| fields := [("success", Py.Bool true);
                              ("filename", Py.Str filename);
                              ("name", Py.Str (Fs.stem filename))];
                   info := details |},
         st')
    end.

Variable fnmatch : string → string → bool.

Definition get_slide_info (slide_name : string) (st : server) : response Py.dict :=
  match slide_files fnmatch slide_name st with
  | [] => HTTPException 404 "Slide not found"
  | slide_path :: _ =>
      match slide_info slide_path (disk st) with
      | inl e => HTTPException 500 e
      | inr details => Return details
      end
  end.

End SlideInfo.

(** [serve_dzi], for a [filename] that is a single path component: the
    path of the file handed to [FileResponse] (the media type is left to the
    framework). *)
Definition serve_dzi (filename : string) (st : server) : response (list string) :=
  let file_path := Fs.div [CACHE_FOLDER] filename in
  if negb (Fs.exists_ file_path (disk st)) then
    HTTPException 404 "DZI file not found"
  else
    Return file_path.

(** ** Google Cloud Storage paths *)

Section BlobPath.

(** The configured bucket name ([GCS_BUCKET_NAME], read from the
    environment). *)
Variable GCS_BUCKET_NAME : string.

(** What [download_gcs_file] and [proxy_gcs_file] make of their [blob_path]
    argument before they look the blob up: a full URL is cut down to what
    follows the bucket name, then a leading bucket name is removed. *)
Definition resolve_blob_path (blob_path : string) : string :=
  let blob_path :=
    if Py.startswith "http" blob_path then
      if Py.has "storage.cloud.google.com" blob_path ||
         Py.has "storage.googleapis.com" blob_path then
        let parts := Py.split (GCS_BUCKET_NAME +:+ "/") blob_path in
        if (1 <? length parts)%nat then default blob_path (parts !! 1%nat)
        else blob_path
      else blob_path
    else blob_path in
  if Py.startswith (GCS_BUCKET_NAME +:+ "/") blob_path then
    Py.drop (String.length (GCS_BUCKET_NAME +:+ "/")) blob_path
  else blob_path.

(** The same lines as [get_gcs_signed_url] has them, with one more branch
    for a URL that does not split. *)
Definition resolve_blob_path_signed (blob_path : string) : string :=
  let blob_path :=
    if Py.startswith "http" blob_path then
      if Py.has "storage.cloud.google.com" blob_path ||
         Py.has "storage.googleapis.com" blob_path then
        let parts := Py.split (GCS_BUCKET_NAME +:+ "/") blob_path in
        if (1 <? length parts)%nat then default blob_path (parts !! 1%nat)
        else
          if Py.has (GCS_BUCKET_NAME +:+ "/") blob_path then
            default blob_path
              (last (Py.split (GCS_BUCKET_NAME +:+ "/") blob_path))
          else blob_path
      else blob_path
    else blob_path in
  if Py.startswith (GCS_BUCKET_NAME +:+ "/") blob_path then
    Py.drop (String.length (GCS_BUCKET_NAME +:+ "/")) blob_path
  else blob_path.

End BlobPath.

(** ** Google Cloud Storage requests *)

Module Gcs.

(** An object of the bucket, as the storage client presents it. *)
Record blob := {
  content : string;
  content_type : option string;
  updated : option string
}.

(** What the module holds about the storage service: whether the client
    library could be imported, the configuration, whether the service
    account file exists at the moment, and the client, which stands for
    the objects of the configured bucket by name once it is initialised. *)
Record state := {
  GCS_AVAILABLE : bool;
  GCS_SERVICE_ACCOUNT_PATH : string;
  GCS_BUCKET_NAME : string;
  credentials_exist : bool;
  gcs_client : option (gmap string blob)
}.

(** The dictionary that [get_gcs_status] returns; [error] is [None] or a
    message. *)
Record status := {
  available : bool;
  library_installed : bool;
  credentials_found : bool;
  client_initialized : bool;
  bucket_name : string;
  error : option string
}.

(** One entry of the list that [list_gcs_files] returns. *)
Record file := {
  name : string;
  path : string;
  size : Z;
  file_updated : option string
}.

(** The [Response] that [proxy_gcs_file] returns. *)
Record proxied := {
  body : string;
  media_type : string;
  headers : list (string * string)
}.

End Gcs.

Definition get_gcs_status (g : Gcs.state) : Gcs.status :=
  let status :=
    {| Gcs.available := false;
       Gcs.library_installed := Gcs.GCS_AVAILABLE g;
       Gcs.credentials_found :=
         if Gcs.GCS_AVAILABLE g then Gcs.credentials_exist g else false;
       Gcs.client_initialized := bool_decide (is_Some (Gcs.gcs_client g));
       Gcs.bucket_name := Gcs.GCS_BUCKET_NAME g;
       Gcs.error := None |} in
  let set_error (message : string) :=
    {| Gcs.available := Gcs.available status;
       Gcs.library_installed := Gcs.library_installed status;
       Gcs.credentials_found := Gcs.credentials_found status;
       Gcs.client_initialized := Gcs.client_initialized status;
       Gcs.bucket_name := Gcs.bucket_name status;
       Gcs.error := Some message |} in
  if negb (Gcs.GCS_AVAILABLE g) then
    set_error
      "google-cloud-storage library not installed. Run: pip install google-cloud-storage"
  else if negb (Gcs.credentials_exist g) then
    set_error
      ("Service account file not found: " +:+ Gcs.GCS_SERVICE_ACCOUNT_PATH g)
  else if bool_decide (Gcs.gcs_client g = None) then
    set_error
      "GCS client failed to initialize. Check service account credentials."
  else
    {| Gcs.available := true;
       Gcs.library_installed := Gcs.library_installed status;
       Gcs.credentials_found := Gcs.credentials_found status;
       Gcs.client_initialized := Gcs.client_initialized status;
       Gcs.bucket_name := Gcs.bucket_name status;
       Gcs.error := Gcs.error status |}.

(** [blob_path.split('/')[-1]] *)
Definition blob_filename (blob_path : string) : string :=
  default "" (last (Py.split "/" blob_path)).

(** [download_gcs_file]. The upload folder has just been created when the
    local path is tested, so that the folder itself and its parent exist. *)
Definition download_gcs_file (blob_path : string) (g : Gcs.state) (st : server)
  : response Py.dict * server :=
  if negb (Gcs.GCS_AVAILABLE g) then
    (HTTPException 503
       "GCS library not installed. Install with: pip install google-cloud-storage",
     st)
  else
    match Gcs.gcs_client g with
    | None =>
        (HTTPException 503
           "GCS client not initialized. Check service account credentials.",
         st)
    | Some bucket =>
        let blob_path := resolve_blob_path (Gcs.GCS_BUCKET_NAME g) blob_path in
        match bucket !! blob_path with
        | None => (HTTPException 404 ("File not found: " +:+ blob_path), st)
        | Some blob =>
            let filename := blob_filename blob_path in
            let slide_name := Fs.stem filename in
            let local_path := Fs.child [UPLOAD_FOLDER] filename in
            if bool_decide (local_path = [UPLOAD_FOLDER]) ||
               bool_decide (filename = "..") ||
               Fs.exists_entry local_path (disk st) then
              (Return [("success", Py.Bool true);
                       ("filename", Py.Str filename);
                       ("name", Py.Str slide_name);
                       ("message", Py.Str "File already exists locally");
                       ("local_path", Py.Str (Fs.str local_path));
                       ("downloaded", Py.Bool false)],
               st)
            else
              let st' :=
                {| disk := <[local_path := Gcs.content blob]> (disk st);
                   conversion_progress := conversion_progress st |} in
              (Return [("success", Py.Bool true);
                       ("filename", Py.Str filename);
                       ("name", Py.Str slide_name);
                       ("size",
                        Py.Int (Z.of_nat (String.length (Gcs.content blob))));
                       ("local_path", Py.Str (Fs.str local_path));
                       ("downloaded", Py.Bool true);
                       ("converted",
                        Py.Bool (WSIConverter.is_converted slide_name (disk st')));
                       ("viewable",
                        Py.Bool (WSIConverter.is_viewable slide_name (disk st')))],
               st')
        end
    end.

Definition proxy_gcs_file (blob_path : string) (g : Gcs.state)
  : response Gcs.proxied :=
  match Gcs.GCS_AVAILABLE g, Gcs.gcs_client g with
  | true, Some bucket =>
      let blob_path := resolve_blob_path (Gcs.GCS_BUCKET_NAME g) blob_path in
      match bucket !! blob_path with
      | None => HTTPException 404 ("File not found: " +:+ blob_path)
      | Some blob =>
          Return
            {| Gcs.body := Gcs.content blob;
               Gcs.media_type :=
                 match Gcs.content_type blob with
                 | Some type =>
                     if bool_decide (type = "") then "application/octet-stream"
                     else type
                 | None => "application/octet-stream"
                 end;
               Gcs.headers :=
                 [("Access-Control-Allow-Origin", "*");
                  ("Access-Control-Allow-Methods", "GET");
                  ("Access-Control-Allow-Headers", "*");
                  ("Content-Disposition",
                   "inline; filename=" +:+ String (ascii_of_nat 34)
                     (blob_filename blob_path +:+ String (ascii_of_nat 34) ""))] |}
      end
  | _, _ => HTTPException 503 "GCS features not available"
  end.

(** [list_gcs_files]: [bucket.list_blobs(prefix=prefix)] yields the objects
    whose name starts with [prefix], all of them when there is none. *)
Definition list_gcs_files (prefix : option string) (g : Gcs.state)
  : response (list Gcs.file) :=
  match Gcs.GCS_AVAILABLE g, Gcs.gcs_client g with
  | true, Some bucket =>
      let blobs :=
        List.filter
          (λ b, match prefix with
                | Some prefix => Py.startswith prefix b.1
                | None => true
                end)
          (map_to_list bucket) in
      Return
        (omap
           (λ b,
              if Py.contains "." b.1 then
                let ext := Py.lower (default "" (Py.rsplit1 "." b.1 !! 1%nat)) in
                if bool_decide (ext ∈ ALLOWED_EXTENSIONS) then
                  Some {| Gcs.name := blob_filename b.1;
                          Gcs.path := b.1;
                          Gcs.size := Z.of_nat (String.length (Gcs.content b.2));
                          Gcs.file_updated := Gcs.updated b.2 |}
                else None
              else None)
           blobs)
  | _, _ => HTTPException 503 "GCS features not available"
  end.

(** The test behind ['is_directly_viewable'] in the reply of
    [get_gcs_signed_url]. *)
Definition is_directly_viewable (filename : string) : bool :=
  bool_decide (Py.lower (Fs.suffix filename) ∈ [".svs"; ".tif"; ".tiff"]).

Section SignedUrl.

(** The clock and the storage client's signer, which are not part of the
    program. [expiration_after hours] is
    [datetime.utcnow() + timedelta(hours=hours)]: a point in time, or the
    message of the OverflowError that the sum raises when it is out of the
    range of dates. [generate_signed_url blob expiration] is the URL that
    the client signs for a blob to expire then, or the message of the
    exception that it raises instead (an expiry that version 4 signing does
    not allow, credentials that cannot sign). *)
Variable datetime : Type.
Variable expiration_after : Z → string + datetime.
Variable isoformat : datetime → string.
Variable generate_signed_url : string → datetime → string + string.

Definition get_gcs_signed_url (blob_path : string) (expiration_hours : Z)
    (g : Gcs.state) : response Py.dict :=
  if negb (Gcs.GCS_AVAILABLE g) then
    HTTPException 503
      "GCS library not installed. Install with: pip install google-cloud-storage"
  else
    match Gcs.gcs_client g with
    | None =>
        HTTPException 503
          "GCS client not initialized. Check service account credentials."
    | Some bucket =>
        let blob_path :=
          resolve_blob_path_signed (Gcs.GCS_BUCKET_NAME g) blob_path in
        match bucket !! blob_path with
        | None => HTTPException 404 ("File not found: " +:+ blob_path)
        | Some _ =>
            match expiration_after expiration_hours with
            | inl e => HTTPException 500 ("Failed to generate signed URL: " +:+ e)
            | inr expiration =>
                match generate_signed_url blob_path expiration with
                | inl e =>
                    HTTPException 500 ("Failed to generate signed URL: " +:+ e)
                | inr signed_url =>
                    let filename := blob_filename blob_path in
                    Return [("success", Py.Bool true);
                            ("signed_url", Py.Str signed_url);
                            ("filename", Py.Str filename);
                            ("name", Py.Str (Fs.stem filename));
                            ("expires_at", Py.Str (isoformat expiration));
                            ("is_directly_viewable",
                             Py.Bool (is_directly_viewable filename))]
                end
            end
        end
    end.

End SignedUrl.

Arguments get_gcs_signed_url {datetime}.

(** A sample of the storage service: the client is initialised and the
    bucket holds a slide, a text file and a folder marker. *)
Module SampleGcs.

Definition slide : Gcs.blob :=
  {| Gcs.content := "slide"; Gcs.content_type := None;
     Gcs.updated := Some "2024-01-01T00:00:00+00:00" |}.

Definition notes : Gcs.blob :=
  {| Gcs.content := "text"; Gcs.content_type := Some "text/plain";
     Gcs.updated := None |}.

Definition ready : Gcs.state :=
  {| Gcs.GCS_AVAILABLE := true;
     Gcs.GCS_SERVICE_ACCOUNT_PATH := "service-account.json";
     Gcs.GCS_BUCKET_NAME := "wsi_bucket53";
     Gcs.credentials_exist := true;
     Gcs.gcs_client :=
       Some {[ "processed/b.svs" := slide; "processed/notes.txt" := notes ]} |}.

End SampleGcs.

(** ** Runs of the server *)

(** One step of the server, as far as the disk and the progress dictionary
    go: a conversion request, a progress callback made by a conversion
    task, or any change of the files on disk (an upload, a delete request,
    the converter writing tiles and descriptors), which leaves the
    dictionary alone. *)
Inductive step (fnmatch : string → string → bool) : server → server → Prop :=
| step_convert slide_name background_tasks reply background_tasks' st st' :
    convert_slide fnmatch slide_name background_tasks st =
      (reply, background_tasks', st') →
    step fnmatch st st'
| step_callback slide_name current total st st' :
    progress_callback slide_name current total st = Py.Normal st' →
    step fnmatch st st'
| step_disk st fs :
    step fnmatch st {| disk := fs; conversion_progress := conversion_progress st |}.

(** The entries that the handlers write into the progress dictionary. *)
Definition tracked (entry : Py.dict) : Prop :=
  ∃ progress status,
    entry = [("progress", progress); ("status", Py.Str status)] ∧
    status ∈ ["starting"; "converting"; "complete"].

(** ** The tile grid *)

(** Modelled from the spec: the planner is part of [converter.py], which is
    not among the sources. A plan lists, per level, the number of tile
    columns and rows; a tile key has col in [0, columnCount) and row in
    [0, rowCount) of its level. *)
Record LevelSpec := {
  levelIndex : Z;
  columnCount : Z;
  rowCount : Z
}.

Definition in_range (plan : list LevelSpec) (level col row : Z) : bool :=
  existsb
    (λ l, (levelIndex l =? level)%Z &&
          (0 <=? col)%Z && (col <? columnCount l)%Z &&
          (0 <=? row)%Z && (row <? rowCount l)%Z)
    plan.

(** Modelled from the spec: [plan(width, height, tileSize, overlap)] of the
    planner in [converter.py], which is not among the sources. The level
    count is ceil(log2(max(width, height))) + 1; the finest level has the
    size of the slide and each coarser level half the size of the next
    finer one, rounded up; a level has ceil(levelWidth / tileSize) columns
    and ceil(levelHeight / tileSize) rows. *)
Definition ceil_div (a b : Z) : Z := (a + b - 1) / b.

Fixpoint levels_to (n : nat) (width height tileSize : Z) : list LevelSpec :=
  let level :=
    {| levelIndex := Z.of_nat n;
       columnCount := ceil_div width tileSize;
       rowCount := ceil_div height tileSize |} in
  match n with
  | O => [level]
  | S n' =>
      (levels_to n' (ceil_div width 2) (ceil_div height 2) tileSize ++ [level])%list
  end.

Definition plan (width height tileSize : Z) : list LevelSpec :=
  levels_to (Z.to_nat (Z.log2_up (Z.max width height))) width height tileSize.

(** ** Sample states *)

Module Sample.

Definition slide_file : list string := ["uploads"; "a.svs"].
Definition tile : list string := ["cache"; "a_files"; "0"; "0_0.jpeg"].

(** A freshly uploaded slide, nothing converted, nothing tracked. *)
Definition uploaded : server :=
  {| disk := {[ slide_file := "slide" ]}; conversion_progress := ∅ |}.

(** The task that a conversion request for slide [a] queues. *)
Definition job : task :=
  {| slide_path := slide_file; callback_slide := "a" |}.

(** Conversion requested and under way: three of eight tiles reported. *)
Definition running : server :=
  {| disk := {[ slide_file := "slide" ]};
     conversion_progress :=
       {[ "a" := [("progress", Py.Float 37.5); ("status", Py.Str "converting")] ]} |}.

(** A second run reports its first tile after the first run has finished
    and written the descriptor. *)
Definition rerunning : server :=
  {| disk := {[ slide_file := "slide"; tile := "jpeg";
                WSIConverter.descriptor "a" := "dzi" ]};
     conversion_progress :=
       {[ "a" := [("progress", Py.Float 12.5); ("status", Py.Str "converting")] ]} |}.

(** Conversion finished: all tiles reported, descriptor written. *)
Definition converted : server :=
  {| disk := {[ slide_file := "slide"; tile := "jpeg";
                WSIConverter.descriptor "a" := "dzi" ]};
     conversion_progress :=
       {[ "a" := [("progress", Py.Float 100); ("status", Py.Str "complete")] ]} |}.

(** The same disk after a restart of the server: nothing is tracked. *)
Definition restarted : server :=
  {| disk := disk converted; conversion_progress := ∅ |}.

(** Tiles on disk but no descriptor, nothing tracked. *)
Definition partial : server :=
  {| disk := {[ slide_file := "slide"; tile := "jpeg" ]};
     conversion_progress := ∅ |}.

(** Cached files of a slide whose upload is gone. *)
Definition orphaned : server :=
  {| disk := {[ tile := "jpeg"; WSIConverter.descriptor "a" := "dzi" ]};
     conversion_progress := ∅ |}.

(** A slide of 300 by 300 pixels, converted with tiles of 254 pixels: its
    finest level, 9, has two columns and two rows; shown are the tile of
    level 0 and the last tile of level 9. *)
Definition last_tile : list string := ["cache"; "a_files"; "9"; "1_1.jpeg"].

Definition earlier : server :=
  {| disk := {[ slide_file := "slide of 300 by 300";
                tile := "jpeg"; last_tile := "jpeg of the last tile";
                WSIConverter.descriptor "a" := "dzi" ]};
     conversion_progress := ∅ |}.

(** The same name uploaded again, now a slide of 200 by 200 pixels, whose
    finest level is 8. *)
Definition reuploaded : server :=
  {| disk := {[ slide_file := "slide of 200 by 200";
                tile := "jpeg"; last_tile := "jpeg of the last tile";
                WSIConverter.descriptor "a" := "dzi" ]};
     conversion_progress := ∅ |}.

End Sample.

(** * Properties *)

(** ** The converter's predicates, read on the disk *)

Lemma is_converted_true (slide_name : string) (fs : gmap (list string) string) :
  WSIConverter.is_converted slide_name fs = true ↔
  is_Some (fs !! WSIConverter.descriptor slide_name).
Proof.
  unfold WSIConverter.is_converted, Fs.exists_. apply bool_decide_eq_true.
Qed.

Lemma is_converted_false (slide_name : string) (fs : gmap (list string) string) :
  WSIConverter.is_converted slide_name fs = false ↔
  fs !! WSIConverter.descriptor slide_name = None.
Proof.
  unfold WSIConverter.is_converted, Fs.exists_.
  rewrite bool_decide_eq_false, eq_None_not_Some. reflexivity.
Qed.

Lemma is_viewable_true (slide_name : string) (fs : gmap (list string) string) :
  WSIConverter.is_viewable slide_name fs = true ↔
  ∃ p content, fs !! p = Some content ∧
               Fs.below (WSIConverter.tiles_dir slide_name) p = true.
Proof.
  unfold WSIConverter.is_viewable. rewrite bool_decide_eq_true.
  apply map_Exists_lookup.
Qed.

Lemma is_viewable_false (slide_name : string) (fs : gmap (list string) string) :
  WSIConverter.is_viewable slide_name fs = false ↔
  ∀ p, Fs.below (WSIConverter.tiles_dir slide_name) p = true → fs !! p = None.
Proof.
  rewrite <- not_true_iff_false, is_viewable_true. split.
  - intros Hno p Hp. destruct (fs !! p) as [content|] eqn:E; [|reflexivity].
    exfalso. apply Hno. exists p, content. auto.
  - intros Hall (p & content & Hl & Hp). rewrite (Hall p Hp) in Hl. discriminate.
Qed.

Lemma cleanup_cache_lookup (slide_name : string) (fs : gmap (list string) string) p :
  WSIConverter.cleanup_cache slide_name fs !! p =
  if WSIConverter.cached_for slide_name p then None else fs !! p.
Proof.
  unfold WSIConverter.cleanup_cache.
  destruct (WSIConverter.cached_for slide_name p) eqn:E.
  - apply map_lookup_filter_None. right. intros content _. simpl. congruence.
  - destruct (fs !! p) as [content|] eqn:L.
    + apply map_lookup_filter_Some. auto.
    + apply map_lookup_filter_None. left. exact L.
Qed.

Lemma cleanup_cache_not_converted (slide_name : string) (fs : gmap (list string) string) :
  WSIConverter.is_converted slide_name (WSIConverter.cleanup_cache slide_name fs) = false.
Proof.
  apply is_converted_false. rewrite cleanup_cache_lookup.
  unfold WSIConverter.cached_for. rewrite bool_decide_eq_true_2 by reflexivity.
  reflexivity.
Qed.

Lemma cleanup_cache_not_viewable (slide_name : string) (fs : gmap (list string) string) :
  WSIConverter.is_viewable slide_name (WSIConverter.cleanup_cache slide_name fs) = false.
Proof.
  apply is_viewable_false. intros p Hp. rewrite cleanup_cache_lookup.
  unfold WSIConverter.cached_for. rewrite Hp, orb_true_r. reflexivity.
Qed.

(** ** Conversion requests *)

Section ConvertSlide.

Variable fnmatch : string → string → bool.

Lemma convert_slide_missing (slide_name : string) (background_tasks : list task) (st : server) :
  slide_files fnmatch slide_name st = [] →
  convert_slide fnmatch slide_name background_tasks st =
    (HTTPException 404 "Slide not found", background_tasks, st).
Proof. intros Hg. unfold convert_slide. rewrite Hg. reflexivity. Qed.

Lemma convert_slide_start (slide_name : string) (background_tasks : list task) (st : server)
    slide_path found :
  slide_files fnmatch slide_name st = slide_path :: found →
  WSIConverter.is_converted slide_name (disk st) = false →
  convert_slide fnmatch slide_name background_tasks st =
    (Return [("success", Py.Bool true);
             ("message", Py.Str "Conversion started");
             ("dzi_url", Py.Str ("/api/dzi/" +:+ slide_name +:+ ".dzi"));
             ("status", Py.Str "converting")],
     (background_tasks ++
        [{| slide_path := slide_path; callback_slide := slide_name |}])%list,
     set_progress slide_name
       [("progress", Py.Int 0); ("status", Py.Str "starting")] st).
Proof. intros Hg Hc. unfold convert_slide. rewrite Hg, Hc. reflexivity. Qed.

End ConvertSlide.

(** C2: a conversion request for a slide whose source file is in the upload
    folder and whose descriptor already exists answers status [complete] at
    once; it queues no background task and leaves the disk and the progress
    dictionary as they were. *)
Theorem convert_slide_already_converted
    (fnmatch : string → string → bool) (slide_name : string)
    (background_tasks : list task) (st : server) :
  slide_files fnmatch slide_name st ≠ [] →
  is_Some (disk st !! WSIConverter.descriptor slide_name) →
  convert_slide fnmatch slide_name background_tasks st =
    (Return [("success", Py.Bool true);
             ("message", Py.Str "Slide already converted");
             ("dzi_url", Py.Str ("/api/dzi/" +:+ slide_name +:+ ".dzi"));
             ("status", Py.Str "complete")],
     background_tasks, st).
Proof.
  intros Hfound Hdzi. apply is_converted_true in Hdzi.
  unfold convert_slide.
  destruct (slide_files fnmatch slide_name st) as [|slide_path found];
    [congruence|].
  rewrite Hdzi. reflexivity.
Qed.

Lemma convert_slide_already_converted_witness :
  convert_slide Fs.wildcard "a" [] Sample.restarted =
    (Return [("success", Py.Bool true);
             ("message", Py.Str "Slide already converted");
             ("dzi_url", Py.Str "/api/dzi/a.dzi");
             ("status", Py.Str "complete")],
     [], Sample.restarted).
Proof.
  apply (convert_slide_already_converted Fs.wildcard "a" [] Sample.restarted).
  - vm_compute. discriminate.
  - vm_compute. eexists. reflexivity.
Defined.

(** How the sample states arise: a first request for the uploaded slide
    queues its job; the job's callback then reports tiles. *)
Example running_reached :
  ∃ reply started,
    convert_slide Fs.wildcard "a" [] Sample.uploaded =
      (reply, [Sample.job], started) ∧
    progress_callback "a" 3 8 started = Py.Normal Sample.running.
Proof. do 2 eexists. split; vm_compute; reflexivity. Qed.

Example rerunning_reached :
  progress_callback "a" 1 8 Sample.converted = Py.Normal Sample.rerunning.
Proof. vm_compute. reflexivity. Qed.

(** C1, as stated, fails: on the sample state in which the job of slide [a]
    is [converting] at 37.5 percent, a further conversion request queues a
    second task next to the first and overwrites the recorded entry with
    progress 0, status [starting]. *)
Lemma convert_slide_in_flight_not_noop :
  conversion_progress Sample.running !! "a" =
    Some [("progress", Py.Float 37.5); ("status", Py.Str "converting")] ∧
  ∃ reply st',
    convert_slide Fs.wildcard "a" [Sample.job] Sample.running =
      (reply, [Sample.job; Sample.job], st') ∧
    conversion_progress st' !! "a" =
      Some [("progress", Py.Int 0); ("status", Py.Str "starting")].
Proof.
  split; [vm_compute; reflexivity|].
  do 2 eexists. split.
  - rewrite (convert_slide_start Fs.wildcard "a" [Sample.job] Sample.running
               Sample.slide_file []) by (vm_compute; reflexivity).
    reflexivity.
  - apply lookup_insert_eq.
Qed.

(** C1, amended: for a slide with an uploaded source file and no descriptor
    that already has a job in state [starting] or [converting], a further
    conversion request is handled like a first one: it appends one more
    conversion task for the first matching source file to the background
    tasks, and replaces the recorded entry by progress 0, status
    [starting]; the entries of other slides and the disk stay as they were. *)
Theorem convert_slide_in_flight_restarts
    (fnmatch : string → string → bool) (slide_name : string)
    (background_tasks : list task) (st : server) (entry : Py.dict) :
  conversion_progress st !! slide_name = Some entry →
  Py.item "status" entry = Some (Py.Str "starting") ∨
  Py.item "status" entry = Some (Py.Str "converting") →
  slide_files fnmatch slide_name st ≠ [] →
  disk st !! WSIConverter.descriptor slide_name = None →
  ∃ slide_path reply st',
    head (slide_files fnmatch slide_name st) = Some slide_path ∧
    convert_slide fnmatch slide_name background_tasks st =
      (Return reply,
       (background_tasks ++
          [{| slide_path := slide_path; callback_slide := slide_name |}])%list,
       st') ∧
    conversion_progress st' !! slide_name =
      Some [("progress", Py.Int 0); ("status", Py.Str "starting")] ∧
    (∀ other, other ≠ slide_name →
       conversion_progress st' !! other = conversion_progress st !! other) ∧
    disk st' = disk st.
Proof.
  intros _ _ Hfound Hdzi. apply is_converted_false in Hdzi.
  destruct (slide_files fnmatch slide_name st) as [|slide_path found] eqn:Hg;
    [congruence|].
  exists slide_path. do 2 eexists. split; [reflexivity|]. split.
  - apply (convert_slide_start _ _ _ _ _ _ Hg Hdzi).
  - simpl. split; [apply lookup_insert_eq|]. split; [|reflexivity].
    intros other Hne. apply lookup_insert_ne. congruence.
Qed.

Lemma convert_slide_in_flight_restarts_witness :
  ∃ slide_path reply st',
    head (slide_files Fs.wildcard "a" Sample.running) = Some slide_path ∧
    convert_slide Fs.wildcard "a" [Sample.job] Sample.running =
      (Return reply,
       ([Sample.job] ++
          [{| slide_path := slide_path; callback_slide := "a" |}])%list,
       st') ∧
    conversion_progress st' !! "a" =
      Some [("progress", Py.Int 0); ("status", Py.Str "starting")] ∧
    (∀ other, other ≠ "a" →
       conversion_progress st' !! other =
       conversion_progress Sample.running !! other) ∧
    disk st' = disk Sample.running.
Proof.
  apply (convert_slide_in_flight_restarts Fs.wildcard "a" [Sample.job]
           Sample.running
           [("progress", Py.Float 37.5); ("status", Py.Str "converting")]).
  - vm_compute. reflexivity.
  - right. vm_compute. reflexivity.
  - vm_compute. discriminate.
  - vm_compute. reflexivity.
Defined.

(** C7, as stated, fails: the reply to the request that creates the job of
    slide [a] says status [converting], while the job it has just recorded
    is in state [starting]. *)
Lemma convert_slide_reply_not_job_state :
  ∃ reply tasks st' entry,
    convert_slide Fs.wildcard "a" [] Sample.uploaded = (Return reply, tasks, st') ∧
    conversion_progress st' !! "a" = Some entry ∧
    Py.item "status" entry = Some (Py.Str "starting") ∧
    Py.item "status" reply = Some (Py.Str "converting") ∧
    Py.item "status" reply ≠ Py.item "status" entry.
Proof.
  do 4 eexists. split.
  - rewrite (convert_slide_start Fs.wildcard "a" [] Sample.uploaded
               Sample.slide_file []) by (vm_compute; reflexivity).
    reflexivity.
  - split; [apply lookup_insert_eq|]. repeat split. discriminate.
Qed.

(** C7, amended: a conversion request for a slide with an uploaded source
    file and no descriptor returns without converting anything: the disk is
    unchanged and one conversion task for the first matching source file is
    appended to the background tasks. The job it records is in state
    [starting] with progress 0, which is what a progress query then reports,
    while the reply itself carries the fixed status [converting]. *)
Theorem convert_slide_dispatches
    (fnmatch : string → string → bool) (slide_name : string)
    (background_tasks : list task) (st : server) :
  slide_files fnmatch slide_name st ≠ [] →
  disk st !! WSIConverter.descriptor slide_name = None →
  ∃ slide_path st',
    head (slide_files fnmatch slide_name st) = Some slide_path ∧
    convert_slide fnmatch slide_name background_tasks st =
      (Return [("success", Py.Bool true);
               ("message", Py.Str "Conversion started");
               ("dzi_url", Py.Str ("/api/dzi/" +:+ slide_name +:+ ".dzi"));
               ("status", Py.Str "converting")],
       (background_tasks ++
          [{| slide_path := slide_path; callback_slide := slide_name |}])%list,
       st') ∧
    disk st' = disk st ∧
    get_progress slide_name st' =
      [("progress", Py.Int 0); ("status", Py.Str "starting")].
Proof.
  intros Hfound Hdzi. apply is_converted_false in Hdzi.
  destruct (slide_files fnmatch slide_name st) as [|slide_path found] eqn:Hg;
    [congruence|].
  exists slide_path. eexists. split; [reflexivity|]. split.
  - apply (convert_slide_start _ _ _ _ _ _ Hg Hdzi).
  - split; [reflexivity|]. unfold get_progress, set_progress. simpl.
    rewrite lookup_insert_eq. reflexivity.
Qed.

Lemma convert_slide_dispatches_witness :
  ∃ slide_path st',
    head (slide_files Fs.wildcard "a" Sample.uploaded) = Some slide_path ∧
    convert_slide Fs.wildcard "a" [] Sample.uploaded =
      (Return [("success", Py.Bool true);
               ("message", Py.Str "Conversion started");
               ("dzi_url", Py.Str ("/api/dzi/" +:+ "a" +:+ ".dzi"));
               ("status", Py.Str "converting")],
       ([] ++ [{| slide_path := slide_path; callback_slide := "a" |}])%list,
       st') ∧
    disk st' = disk Sample.uploaded ∧
    get_progress "a" st' =
      [("progress", Py.Int 0); ("status", Py.Str "starting")].
Proof.
  apply (convert_slide_dispatches Fs.wildcard "a" [] Sample.uploaded).
  - vm_compute. discriminate.
  - vm_compute. reflexivity.
Defined.

(** ** Progress queries *)

Lemma get_progress_tracked (slide_name : string) (st : server) (entry : Py.dict) :
  conversion_progress st !! slide_name = Some entry →
  get_progress slide_name st = entry.
Proof. intros H. unfold get_progress. rewrite H. reflexivity. Qed.

Lemma get_progress_fallback (slide_name : string) (st : server) :
  conversion_progress st !! slide_name = None →
  get_progress slide_name st =
    if WSIConverter.is_converted slide_name (disk st) then
      [("progress", Py.Int 100); ("status", Py.Str "complete")]
    else if WSIConverter.is_viewable slide_name (disk st) then
      [("progress", Py.Int 50); ("status", Py.Str "converting")]
    else
      [("progress", Py.Int 0); ("status", Py.Str "idle")].
Proof. intros H. unfold get_progress. rewrite H. reflexivity. Qed.

(** C3: for a slide that has no entry in the progress dictionary, the
    progress query reports progress 100, status [complete] when the
    descriptor exists; otherwise the placeholder progress 50, status
    [converting] when some tile file of the slide exists; otherwise
    progress 0, status [idle]. *)
Theorem get_progress_untracked (slide_name : string) (st : server) :
  conversion_progress st !! slide_name = None →
  (is_Some (disk st !! WSIConverter.descriptor slide_name) →
   get_progress slide_name st =
     [("progress", Py.Int 100); ("status", Py.Str "complete")]) ∧
  (disk st !! WSIConverter.descriptor slide_name = None →
   (∃ p content, disk st !! p = Some content ∧
                 Fs.below (WSIConverter.tiles_dir slide_name) p = true) →
   get_progress slide_name st =
     [("progress", Py.Int 50); ("status", Py.Str "converting")]) ∧
  (disk st !! WSIConverter.descriptor slide_name = None →
   (∀ p, Fs.below (WSIConverter.tiles_dir slide_name) p = true →
         disk st !! p = None) →
   get_progress slide_name st =
     [("progress", Py.Int 0); ("status", Py.Str "idle")]).
Proof.
  intros Hnone. rewrite (get_progress_fallback _ _ Hnone).
  split; [|split].
  - intros Hdzi. apply is_converted_true in Hdzi. rewrite Hdzi. reflexivity.
  - intros Hdzi Htile. apply is_converted_false in Hdzi.
    apply is_viewable_true in Htile. rewrite Hdzi, Htile. reflexivity.
  - intros Hdzi Htile. apply is_converted_false in Hdzi.
    apply is_viewable_false in Htile. rewrite Hdzi, Htile. reflexivity.
Qed.

Lemma get_progress_untracked_witness :
  get_progress "a" Sample.restarted =
    [("progress", Py.Int 100); ("status", Py.Str "complete")] ∧
  get_progress "a" Sample.partial =
    [("progress", Py.Int 50); ("status", Py.Str "converting")] ∧
  get_progress "a" Sample.uploaded =
    [("progress", Py.Int 0); ("status", Py.Str "idle")].
Proof.
  split; [|split].
  - apply (get_progress_untracked "a" Sample.restarted).
    + vm_compute. reflexivity.
    + vm_compute. eexists. reflexivity.
  - apply (get_progress_untracked "a" Sample.partial).
    + vm_compute. reflexivity.
    + vm_compute. reflexivity.
    + exists Sample.tile, "jpeg". split; vm_compute; reflexivity.
  - apply (get_progress_untracked "a" Sample.uploaded).
    + vm_compute. reflexivity.
    + vm_compute. reflexivity.
    + apply is_viewable_false. vm_compute. reflexivity.
Defined.

(** C5, as stated, fails: on the sample state in which the descriptor of
    slide [a] exists while the dictionary still holds an entry written by a
    running job, the progress query returns that entry, status [converting]
    at 12.5 percent, and not [complete]. *)
Lemma get_progress_trusts_tracker :
  is_Some (disk Sample.rerunning !! WSIConverter.descriptor "a") ∧
  get_progress "a" Sample.rerunning =
    [("progress", Py.Float 12.5); ("status", Py.Str "converting")] ∧
  Py.item "status" (get_progress "a" Sample.rerunning) ≠ Some (Py.Str "complete").
Proof.
  split; [vm_compute; eexists; reflexivity|].
  split; [vm_compute; reflexivity|]. vm_compute. discriminate.
Qed.

(** C5, amended: for every slide whose descriptor exists, the progress query
    reports progress 100, status [complete] when the slide has no entry in
    the progress dictionary; when it has one, the query returns that entry
    as it is, whatever the disk holds. *)
Theorem get_progress_descriptor (slide_name : string) (st : server) :
  is_Some (disk st !! WSIConverter.descriptor slide_name) →
  (conversion_progress st !! slide_name = None →
   get_progress slide_name st =
     [("progress", Py.Int 100); ("status", Py.Str "complete")]) ∧
  (∀ entry, conversion_progress st !! slide_name = Some entry →
            get_progress slide_name st = entry).
Proof.
  intros Hdzi. apply is_converted_true in Hdzi. split.
  - intros Hnone. rewrite (get_progress_fallback _ _ Hnone), Hdzi. reflexivity.
  - intros entry. apply get_progress_tracked.
Qed.

Lemma get_progress_descriptor_witness :
  get_progress "a" Sample.restarted =
    [("progress", Py.Int 100); ("status", Py.Str "complete")] ∧
  get_progress "a" Sample.converted =
    [("progress", Py.Float 100); ("status", Py.Str "complete")].
Proof.
  split.
  - refine (proj1 (get_progress_descriptor "a" Sample.restarted _) _).
    + vm_compute. eexists. reflexivity.
    + vm_compute. reflexivity.
  - refine (proj2 (get_progress_descriptor "a" Sample.converted _) _ _).
    + vm_compute. eexists. reflexivity.
    + vm_compute. reflexivity.
Defined.

(** ** Deleting a slide *)

Section DeleteSlide.

Variable fnmatch : string → string → bool.

Lemma delete_slide_found (slide_name : string) (st : server) :
  slide_files fnmatch slide_name st ≠ [] →
  delete_slide fnmatch slide_name st =
    (Return [("success", Py.Bool true); ("message", Py.Str "Slide deleted")],
     {| disk :=
          WSIConverter.cleanup_cache slide_name
            (foldl (λ fs slide_file, Fs.unlink slide_file fs) (disk st)
                   (slide_files fnmatch slide_name st));
        conversion_progress := conversion_progress st |}).
Proof.
  intros Hfound. unfold delete_slide.
  destruct (slide_files fnmatch slide_name st); [congruence|reflexivity].
Qed.

Lemma delete_slide_returns (slide_name : string) (st st' : server) body :
  delete_slide fnmatch slide_name st = (Return body, st') →
  slide_files fnmatch slide_name st ≠ [].
Proof.
  unfold delete_slide. intros H Hg. rewrite Hg in H. discriminate.
Qed.

End DeleteSlide.

(** C4, as stated, fails: deleting the converted sample slide [a] succeeds,
    yet the progress query that follows still reports the entry left in the
    progress dictionary, progress 100 and status [complete], not [idle]. *)
Lemma delete_slide_stale_progress :
  ∃ body st',
    delete_slide Fs.wildcard "a" Sample.converted = (Return body, st') ∧
    get_progress "a" st' =
      [("progress", Py.Float 100); ("status", Py.Str "complete")] ∧
    Py.item "status" (get_progress "a" st') ≠ Some (Py.Str "idle").
Proof.
  do 2 eexists. split.
  - rewrite delete_slide_found by (vm_compute; discriminate). reflexivity.
  - split; [vm_compute; reflexivity|]. vm_compute. discriminate.
Qed.

(** C4, amended: after a successful delete the descriptor of the slide is
    absent and no tile file of the slide is left; the progress dictionary is
    not touched, and for a slide that has no entry in it a subsequent
    progress query reports progress 0, status [idle]. *)
Theorem delete_slide_clears_cache
    (fnmatch : string → string → bool) (slide_name : string)
    (st st' : server) (body : Py.dict) :
  delete_slide fnmatch slide_name st = (Return body, st') →
  WSIConverter.is_converted slide_name (disk st') = false ∧
  WSIConverter.is_viewable slide_name (disk st') = false ∧
  conversion_progress st' = conversion_progress st ∧
  (conversion_progress st !! slide_name = None →
   get_progress slide_name st' =
     [("progress", Py.Int 0); ("status", Py.Str "idle")]).
Proof.
  intros Hdel. pose proof (delete_slide_returns _ _ _ _ _ Hdel) as Hfound.
  rewrite (delete_slide_found _ _ _ Hfound) in Hdel.
  injection Hdel as _ <-. simpl.
  split; [apply cleanup_cache_not_converted|].
  split; [apply cleanup_cache_not_viewable|].
  split; [reflexivity|].
  intros Hnone. unfold get_progress. simpl. rewrite Hnone.
  rewrite cleanup_cache_not_converted, cleanup_cache_not_viewable. reflexivity.
Qed.

Lemma delete_slide_clears_cache_witness :
  ∃ body st',
    delete_slide Fs.wildcard "a" Sample.restarted = (Return body, st') ∧
    WSIConverter.is_converted "a" (disk st') = false ∧
    WSIConverter.is_viewable "a" (disk st') = false ∧
    conversion_progress st' = conversion_progress Sample.restarted ∧
    get_progress "a" st' = [("progress", Py.Int 0); ("status", Py.Str "idle")].
Proof.
  assert (slide_files Fs.wildcard "a" Sample.restarted ≠ []) as Hfound
    by (vm_compute; discriminate).
  pose proof (delete_slide_found Fs.wildcard "a" Sample.restarted Hfound) as Hdel.
  destruct (delete_slide_clears_cache Fs.wildcard "a" Sample.restarted _ _ Hdel)
    as (Hdzi & Htiles & Hmap & Hidle).
  do 2 eexists. split; [exact Hdel|]. split; [exact Hdzi|].
  split; [exact Htiles|]. split; [exact Hmap|].
  apply Hidle. vm_compute. reflexivity.
Defined.

(** C10: when no file in the upload folder matches the slide name, the delete
    request fails with 404 and leaves the whole state, cached tiles and
    descriptor included, as it was; a delete request that succeeds or that
    changes the state at all had at least one matching upload. *)
Theorem delete_slide_not_found
    (fnmatch : string → string → bool) (slide_name : string) (st : server) :
  (slide_files fnmatch slide_name st = [] →
   delete_slide fnmatch slide_name st =
     (HTTPException 404 "Slide not found", st)) ∧
  (∀ reply st',
     delete_slide fnmatch slide_name st = (reply, st') →
     (∃ body, reply = Return body) ∨ st' ≠ st →
     slide_files fnmatch slide_name st ≠ []).
Proof.
  split.
  - intros Hg. unfold delete_slide. rewrite Hg. reflexivity.
  - intros reply st' Hdel Hchange Hg. unfold delete_slide in Hdel.
    rewrite Hg in Hdel. injection Hdel as <- <-.
    destruct Hchange as [[body Hbody]|Hne]; [discriminate|]. apply Hne. reflexivity.
Qed.

Lemma delete_slide_not_found_witness :
  delete_slide Fs.wildcard "a" Sample.orphaned =
    (HTTPException 404 "Slide not found", Sample.orphaned) ∧
  slide_files Fs.wildcard "a" Sample.converted ≠ [].
Proof.
  split.
  - apply (delete_slide_not_found Fs.wildcard "a" Sample.orphaned).
    vm_compute. reflexivity.
  - apply (proj2 (delete_slide_not_found Fs.wildcard "a" Sample.converted)
             (Return [("success", Py.Bool true); ("message", Py.Str "Slide deleted")])
             (snd (delete_slide Fs.wildcard "a" Sample.converted))).
    + vm_compute. reflexivity.
    + left. eexists. reflexivity.
Defined.

(** ** Tile paths *)

Lemma pretty_N_go_numeric (x : N) (s : string) :
  Py.numeric s = true → Py.numeric (pretty_N_go x s) = true.
Proof.
  revert s. induction (N.lt_wf_0 x) as [x _ IH]. intros s Hs.
  destruct (N.eq_dec x 0%N) as [->|Hpos].
  - rewrite pretty_N_go_0. exact Hs.
  - rewrite pretty_N_go_step by lia. apply IH.
    + apply N.div_lt; lia.
    + simpl. rewrite Hs, andb_true_r.
      unfold pretty_N_char. repeat case_match; reflexivity.
Qed.

Lemma str_numeric (n : Z) : Py.numeric (Py.str n) = true.
Proof.
  unfold Py.str, pretty, pretty_Z, pretty, pretty_positive, pretty, pretty_N.
  destruct n as [|p|p]; simpl; try reflexivity;
    apply pretty_N_go_numeric; reflexivity.
Qed.

(** A string of numeric characters ends at the first other character. *)
Lemma numeric_prefix_unique (sep : ascii) (a a' x y : string) :
  Py.numeric_char sep = false →
  Py.numeric a = true → Py.numeric a' = true →
  a +:+ String sep x = a' +:+ String sep y →
  a = a' ∧ x = y.
Proof.
  intros Hsep. revert a'.
  induction a as [|c a IH]; intros [|c' a'] Ha Ha' Heq; simpl in *.
  - injection Heq as ->. auto.
  - injection Heq as -> _. apply andb_prop in Ha' as [Hc _]. congruence.
  - injection Heq as -> _. apply andb_prop in Ha as [Hc _]. congruence.
  - injection Heq as -> Heq.
    apply andb_prop in Ha as [_ Ha]. apply andb_prop in Ha' as [_ Ha'].
    destruct (IH a' Ha Ha' Heq) as [-> ->]. auto.
Qed.

(** A tile key addresses one file: the tiles of one slide with different
    level, column, row or format lie at different paths. *)
Lemma tile_path_inj (slide_name : string) (level col row level' col' row' : Z)
    (format format' : string) :
  tile_path slide_name level col row format =
  tile_path slide_name level' col' row' format' →
  level = level' ∧ col = col' ∧ row = row' ∧ format = format'.
Proof.
  unfold tile_path, Fs.div. simpl. intros Heq.
  injection Heq as Hlevel Hname.
  apply (inj pretty) in Hlevel.
  apply (numeric_prefix_unique "_") in Hname
    as [Hcol Hname]; [|reflexivity|apply str_numeric..].
  apply (numeric_prefix_unique ".") in Hname
    as [Hrow Hformat]; [|reflexivity|apply str_numeric..].
  apply (inj pretty) in Hcol. apply (inj pretty) in Hrow. auto.
Qed.

(** ** Serving tiles *)

Lemma serve_tile_cases (slide_name : string) (level col row : Z)
    (format : string) (st : server) :
  serve_tile slide_name level col row format st =
    match disk st !! tile_path slide_name level col row format with
    | Some _ =>
        Return {| path := tile_path slide_name level col row format;
                  media_type := "image/" +:+ format |}
    | None => HTTPException 404 "Tile not found"
    end.
Proof.
  unfold serve_tile, Fs.exists_.
  destruct (disk st !! tile_path slide_name level col row format) eqn:E.
  - rewrite bool_decide_eq_true_2 by eauto. reflexivity.
  - rewrite bool_decide_eq_false_2 by (intros [? ?]; discriminate). reflexivity.
Qed.

(** The planner on the scenario of the spec: a slide of 100000 by 80000
    pixels with tiles of 254 has 18 levels, and level 17 has 394 columns
    and 315 rows. *)
Example plan_scenario :
  length (plan 100000 80000 254) = 18%nat ∧
  in_range (plan 100000 80000 254) 17 393 314 = true ∧
  in_range (plan 100000 80000 254) 17 394 0 = false ∧
  in_range (plan 100000 80000 254) 0 0 0 = true ∧
  in_range (plan 100000 80000 254) 0 1 0 = false.
Proof. vm_compute. auto. Qed.

(** C8, as stated, fails: coordinates out of range do not give not-found
    when a file lies at the tile's path. Slide [a] was converted as a slide
    of 300 by 300 pixels and is then uploaded again as a slide of 200 by 200
    pixels, which leaves the cache as it is. The tile (9, 1, 1) is out of
    range for the slide now uploaded, whose finest level is 8, and the
    request for it is answered with the tile of the earlier slide. *)
Lemma serve_tile_out_of_range_served :
  (upload_file (λ _ _, inr []) "a.svs" "slide of 200 by 200" Sample.earlier).2 =
    Sample.reuploaded ∧
  in_range (plan 300 300 254) 9 1 1 = true ∧
  in_range (plan 200 200 254) 9 1 1 = false ∧
  ∃ r, serve_tile "a" 9 1 1 "jpeg" Sample.reuploaded = Return r ∧
       media_type r = "image/jpeg" ∧
       body_sent r (disk Sample.reuploaded) = Some "jpeg of the last tile".
Proof.
  split; [vm_compute; reflexivity|]. split; [reflexivity|].
  split; [reflexivity|]. eexists. split; [vm_compute; reflexivity|].
  split; [reflexivity|]. vm_compute. reflexivity.
Qed.

(** C8, amended: a tile request whose tile file exists in the cache is
    answered with that file, sent whole with content type [image/<format>];
    it is answered with not-found exactly when no file exists at the tile's
    path, as for a tile not generated yet. The coordinates are not compared
    with the levels of the slide. Nothing but the cached file is ever
    sent, and no request fails in another way. *)
Theorem serve_tile_cached_or_not_found
    (slide_name : string) (level col row : Z) (format : string) (st : server) :
  (∀ content,
     disk st !! tile_path slide_name level col row format = Some content →
     ∃ r, serve_tile slide_name level col row format st = Return r ∧
          media_type r = "image/" +:+ format ∧
          body_sent r (disk st) = Some content) ∧
  (disk st !! tile_path slide_name level col row format = None →
   serve_tile slide_name level col row format st =
     HTTPException 404 "Tile not found") ∧
  (∀ status_code detail,
     serve_tile slide_name level col row format st =
       HTTPException status_code detail →
     status_code = 404 ∧ detail = "Tile not found" ∧
     disk st !! tile_path slide_name level col row format = None) ∧
  (∀ r, serve_tile slide_name level col row format st = Return r →
        path r = tile_path slide_name level col row format ∧
        ∃ content,
          disk st !! tile_path slide_name level col row format = Some content ∧
          body_sent r (disk st) = Some content).
Proof.
  rewrite serve_tile_cases. split; [|split; [|split]].
  - intros content Hfile. rewrite Hfile. eexists. split; [reflexivity|].
    split; [reflexivity|exact Hfile].
  - intros Hnone. rewrite Hnone. reflexivity.
  - intros status_code detail.
    destruct (disk st !! tile_path slide_name level col row format) eqn:E;
      [discriminate|].
    intros [= <- <-]. auto.
  - intros r Hr.
    destruct (disk st !! tile_path slide_name level col row format) eqn:E;
      [|discriminate].
    injection Hr as <-. split; [reflexivity|].
    eexists. split; [reflexivity|exact E].
Qed.

Lemma serve_tile_cached_or_not_found_witness :
  (∃ r, serve_tile "a" 0 0 0 "jpeg" Sample.converted = Return r ∧
        media_type r = "image/jpeg" ∧
        body_sent r (disk Sample.converted) = Some "jpeg") ∧
  serve_tile "a" 0 0 0 "jpeg" Sample.uploaded =
    HTTPException 404 "Tile not found" ∧
  serve_tile "a" 0 1 0 "jpeg" Sample.converted =
    HTTPException 404 "Tile not found".
Proof.
  split; [|split].
  - refine (proj1 (serve_tile_cached_or_not_found
                     "a" 0 0 0 "jpeg" Sample.converted) _ _).
    vm_compute. reflexivity.
  - refine (proj1 (proj2 (serve_tile_cached_or_not_found
                            "a" 0 0 0 "jpeg" Sample.uploaded)) _).
    vm_compute. reflexivity.
  - refine (proj1 (proj2 (serve_tile_cached_or_not_found
                            "a" 0 1 0 "jpeg" Sample.converted)) _).
    vm_compute. reflexivity.
Defined.

(** ** Floating-point arithmetic *)

Section Rounding.

#[local] Open Scope Z_scope.

(** *** Rounding to the nearest integer *)

Lemma rne_cases (n d : Z) :
  0 < d → ∃ q r, n = d * q + r ∧ 0 ≤ r < d ∧
    (Py.rne n d = q ∧ 2 * r ≤ d ∨ Py.rne n d = q + 1 ∧ d ≤ 2 * r).
Proof.
  intros Hd. exists (n / d), (n mod d).
  split; [apply Z.div_mod; lia|]. split; [apply Z.mod_pos_bound; lia|].
  unfold Py.rne. repeat case_decide; try (left; split; [reflexivity|lia]);
    try (right; split; [reflexivity|lia]).
  destruct (Z.even (n / d)); [left|right]; split; (reflexivity || lia).
Qed.

Lemma rne_error (n d : Z) :
  0 < d → Z.abs (Py.rne n d * d - n) * 2 ≤ d.
Proof.
  intros Hd. destruct (rne_cases n d Hd) as (q & r & -> & Hr & [[-> H]|[-> H]]); lia.
Qed.

Lemma rne_le (n d k : Z) :
  0 < d → 2 * n < (2 * k + 1) * d → Py.rne n d ≤ k.
Proof.
  intros Hd Hn. destruct (rne_cases n d Hd) as (q & r & -> & Hr & [[-> H]|[-> H]]); nia.
Qed.

Lemma rne_nonneg (n d : Z) : 0 ≤ n → 0 < d → 0 ≤ Py.rne n d.
Proof.
  intros Hn Hd. destruct (rne_cases n d Hd) as (q & r & -> & Hr & [[-> H]|[-> H]]); nia.
Qed.

Lemma rne_exact (k d : Z) : 0 < d → Py.rne (k * d) d = k.
Proof.
  intros Hd. unfold Py.rne. rewrite Z.div_mul, Z.mod_mul by lia.
  rewrite decide_True by lia. reflexivity.
Qed.

(** *** Scaling by powers of two *)

Lemma shl_pos (x e : Z) : 0 < x → 0 < Py.shl x e.
Proof. intros. unfold Py.shl. apply Z.mul_pos_pos; [lia|]. apply Z.pow_pos_nonneg; lia. Qed.

Lemma shl_nonneg (x e : Z) : 0 ≤ x → 0 ≤ Py.shl x e.
Proof. intros. unfold Py.shl. apply Z.mul_nonneg_nonneg; [lia|]. apply Z.pow_nonneg; lia. Qed.

Lemma shl_neg (x e : Z) : e ≤ 0 → Py.shl x e = x.
Proof. intros. unfold Py.shl. rewrite Z.max_l by lia. simpl. lia. Qed.

Lemma shl_nonneg_exp (x e : Z) : 0 ≤ e → Py.shl x e = x * 2 ^ e.
Proof. intros. unfold Py.shl. rewrite Z.max_r by lia. reflexivity. Qed.

Lemma shl_cross (n d j i : Z) :
  0 ≤ i →
  Py.shl n (- j) * Py.shl d (j + i) = Py.shl n (- (j + i)) * Py.shl d j * 2 ^ i.
Proof.
  intros Hi. unfold Py.shl.
  assert (2 ^ Z.max 0 (- j) * 2 ^ Z.max 0 (j + i) =
          2 ^ Z.max 0 (- (j + i)) * 2 ^ Z.max 0 j * 2 ^ i) as H.
  { rewrite <- !Z.pow_add_r by lia. f_equal. lia. }
  transitivity (n * d * (2 ^ Z.max 0 (- j) * 2 ^ Z.max 0 (j + i))); [ring|].
  rewrite H. ring.
Qed.

Lemma below_scaled (n d e i : Z) :
  0 ≤ n → 0 < d → 0 ≤ i →
  Py.shl n (- e) < 2 ^ i * Py.shl d e ↔ Py.below n d (e + i).
Proof.
  intros Hn Hd Hi. unfold Py.below.
  pose proof (shl_cross n d e i Hi) as Hx.
  pose proof (shl_nonneg n (- e) Hn). pose proof (shl_nonneg n (- (e + i)) Hn).
  pose proof (shl_pos d e Hd). pose proof (shl_pos d (e + i) Hd).
  assert (0 < 2 ^ i) by (apply Z.pow_pos_nonneg; lia).
  revert Hx.
  generalize dependent (Py.shl n (- e)). generalize dependent (Py.shl d e).
  generalize dependent (Py.shl n (- (e + i))). generalize dependent (Py.shl d (e + i)).
  generalize dependent (2 ^ i). intros P HP B' HB' A' HA' B HB A HA Hx.
  split; intros Hlt.
  - destruct (Z_lt_le_dec A' B') as [|Hge]; [assumption|]. exfalso.
    assert (B' * (B * P) ≤ A' * (B * P)) by (apply Z.mul_le_mono_nonneg_r; nia).
    assert (A * B' < P * B * B') by (apply Z.mul_lt_mono_pos_r; lia).
    lia.
  - destruct (Z_lt_le_dec A (P * B)) as [|Hge]; [assumption|]. exfalso.
    assert (A' * (B * P) < B' * (B * P)) by (apply Z.mul_lt_mono_pos_r; nia).
    assert (P * B * B' ≤ A * B') by (apply Z.mul_le_mono_nonneg_r; lia).
    lia.
Qed.

Lemma below_mono (n d j j' : Z) :
  0 ≤ n → 0 < d → j ≤ j' → Py.below n d j → Py.below n d j'.
Proof.
  intros Hn Hd Hj Hlt.
  replace j' with (j + (j' - j)) by lia.
  apply below_scaled; [assumption..|lia|].
  unfold Py.below in Hlt.
  assert (1 ≤ 2 ^ (j' - j)) by (apply Z.pow_le_mono_r with (b := 0); lia).
  pose proof (shl_pos d j Hd). nia.
Qed.

Lemma below_log2 (n d : Z) :
  0 < n → 0 < d → Py.below n d (Z.log2 n - Z.log2 d + 1).
Proof.
  intros Hn Hd.
  destruct (Z.log2_spec n Hn) as [_ Hn2]. destruct (Z.log2_spec d Hd) as [Hd1 _].
  pose proof (Z.log2_nonneg n). pose proof (Z.log2_nonneg d).
  unfold Py.below.
  destruct (Z_le_gt_dec 0 (Z.log2 n - Z.log2 d + 1)) as [Hj|Hj].
  - rewrite (shl_neg n), (shl_nonneg_exp d) by lia.
    replace (Z.succ (Z.log2 n)) with (Z.log2 d + (Z.log2 n - Z.log2 d + 1)) in Hn2 by lia.
    rewrite Z.pow_add_r in Hn2 by lia.
    assert (0 < 2 ^ (Z.log2 n - Z.log2 d + 1)) by (apply Z.pow_pos_nonneg; lia).
    nia.
  - rewrite (shl_nonneg_exp n), (shl_neg d) by lia.
    replace (Z.log2 d) with (Z.succ (Z.log2 n) + - (Z.log2 n - Z.log2 d + 1)) in Hd1 by lia.
    rewrite Z.pow_add_r in Hd1 by lia.
    assert (0 < 2 ^ (- (Z.log2 n - Z.log2 d + 1))) by (apply Z.pow_pos_nonneg; lia).
    nia.
Qed.

Lemma not_below_log2 (n d : Z) :
  0 < n → 0 < d → ¬ Py.below n d (Z.log2 n - Z.log2 d - 1).
Proof.
  intros Hn Hd.
  destruct (Z.log2_spec n Hn) as [Hn1 _]. destruct (Z.log2_spec d Hd) as [_ Hd2].
  pose proof (Z.log2_nonneg n). pose proof (Z.log2_nonneg d).
  unfold Py.below. apply Z.le_ngt.
  destruct (Z_le_gt_dec 0 (Z.log2 n - Z.log2 d - 1)) as [Hj|Hj].
  - rewrite (shl_neg n), (shl_nonneg_exp d) by lia.
    replace (Z.log2 n) with (Z.succ (Z.log2 d) + (Z.log2 n - Z.log2 d - 1)) in Hn1 by lia.
    rewrite Z.pow_add_r in Hn1 by lia.
    assert (0 < 2 ^ (Z.log2 n - Z.log2 d - 1)) by (apply Z.pow_pos_nonneg; lia).
    nia.
  - rewrite (shl_nonneg_exp n), (shl_neg d) by lia.
    replace (Z.succ (Z.log2 d)) with (Z.log2 n + - (Z.log2 n - Z.log2 d - 1)) in Hd2 by lia.
    rewrite Z.pow_add_r in Hd2 by lia.
    assert (0 < 2 ^ (- (Z.log2 n - Z.log2 d - 1))) by (apply Z.pow_pos_nonneg; lia).
    nia.
Qed.

(** *** The exponent *)

Lemma exponent_min (n d : Z) : -1074 ≤ Py.exponent n d.
Proof. unfold Py.exponent. apply Z.le_max_l. Qed.

Lemma exponent_below (n d : Z) :
  0 < n → 0 < d → Py.below n d (Py.exponent n d + 53).
Proof.
  intros Hn Hd. unfold Py.exponent.
  set (k := Z.log2 n - Z.log2 d - 53).
  pose proof (below_log2 n d Hn Hd) as Hlog.
  replace (Z.log2 n - Z.log2 d + 1) with (k + 54) in Hlog by (unfold k; lia).
  case_decide as Hc.
  - eapply below_mono; [lia|lia| |exact Hlog]. lia.
  - apply Z.nle_gt in Hc. apply below_scaled in Hc; [|lia..].
    eapply below_mono; [lia|lia| |exact Hc]. lia.
Qed.

Lemma exponent_le (n d E : Z) :
  0 < n → 0 < d → -1074 ≤ E → Py.below n d (E + 53) → Py.exponent n d ≤ E.
Proof.
  intros Hn Hd HE Hlt. unfold Py.exponent.
  set (k := Z.log2 n - Z.log2 d - 53).
  pose proof (not_below_log2 n d Hn Hd) as Hlog.
  replace (Z.log2 n - Z.log2 d - 1) with (k + 52) in Hlog by (unfold k; lia).
  apply Z.max_lub; [assumption|].
  case_decide as Hc.
  - destruct (Z_le_gt_dec (k + 1) E) as [|Hgt]; [assumption|]. exfalso.
    apply Z.le_ngt in Hc. apply Hc. apply below_scaled; [lia..|].
    eapply below_mono; [lia|lia| |exact Hlt]. lia.
  - destruct (Z_le_gt_dec k E) as [|Hgt]; [assumption|]. exfalso.
    apply Hlog. eapply below_mono; [lia|lia| |exact Hlt]. lia.
Qed.

Lemma mantissa_le (n d : Z) :
  0 < n → 0 < d →
  Py.rne (Py.shl n (- Py.exponent n d)) (Py.shl d (Py.exponent n d)) ≤ 2 ^ 53.
Proof.
  intros Hn Hd. pose proof (exponent_below n d Hn Hd) as Hlt.
  apply below_scaled in Hlt; [|lia..].
  pose proof (shl_pos d (Py.exponent n d) Hd).
  apply rne_le; [assumption|]. lia.
Qed.

(** *** The rounded value *)

Lemma num_nonneg (x : Py.float) : 0 ≤ Py.num x.
Proof. destruct x; simpl; try lia. apply shl_nonneg. lia. Qed.

Lemma den_pos (x : Py.float) : 0 < Py.den x.
Proof. destruct x; simpl; try lia. apply shl_pos. lia. Qed.

Lemma nearest_zero (s : bool) (d : Z) : 0 < d → Py.nearest s 0 d = S754_zero s.
Proof.
  intros Hd. unfold Py.nearest.
  assert (Py.shl 0 (- Py.exponent 0 d) = 0) as -> by (unfold Py.shl; lia).
  pose proof (rne_exact 0 _ (shl_pos d (Py.exponent 0 d) Hd)) as H0.
  change (0 * Py.shl d (Py.exponent 0 d)) with 0 in H0. rewrite H0. reflexivity.
Qed.

Lemma finite_value (s : bool) (m e : Z) :
  0 < m → e ≤ 971 →
  Py.is_finite (Py.finite s m e) = true ∧ Py.sign (Py.finite s m e) = s ∧
  Py.num (Py.finite s m e) = Py.shl m e ∧ Py.den (Py.finite s m e) = Py.shl 1 (- e).
Proof.
  intros Hm He. unfold Py.finite. rewrite decide_True by assumption. simpl.
  rewrite Z2Pos.id by assumption. auto.
Qed.

Lemma shl_shl (e : Z) : Py.shl 1 e * Py.shl 1 (- (e + 1)) * 2 = Py.shl 1 (e + 1) * Py.shl 1 (- e).
Proof.
  unfold Py.shl. rewrite !Z.mul_1_l.
  change 2 with (2 ^ 1) at 3. rewrite <- !Z.pow_add_r by lia. f_equal. lia.
Qed.

Lemma shl_mul (x e : Z) : Py.shl x e = x * Py.shl 1 e.
Proof. unfold Py.shl. lia. Qed.

(** The float nearest to [n / d] has the value [m * 2^e], with [e] the
    exponent of [n / d] and [m] the nearest integer to [n / d / 2^e]. *)
Lemma nearest_value (s : bool) (n d : Z) :
  0 < n → 0 < d → Py.exponent n d ≤ 970 →
  Py.is_finite (Py.nearest s n d) = true ∧ Py.sign (Py.nearest s n d) = s ∧
  Py.num (Py.nearest s n d) * Py.shl 1 (- Py.exponent n d) =
  Py.rne (Py.shl n (- Py.exponent n d)) (Py.shl d (Py.exponent n d)) *
    Py.shl 1 (Py.exponent n d) * Py.den (Py.nearest s n d).
Proof.
  intros Hn Hd He. unfold Py.nearest.
  pose proof (rne_nonneg (Py.shl n (- Py.exponent n d)) (Py.shl d (Py.exponent n d))
                (shl_nonneg _ _ (Z.lt_le_incl _ _ Hn)) (shl_pos _ _ Hd)) as Hm.
  set (e := Py.exponent n d) in *. set (m := Py.rne _ _) in *.
  case_decide as H0; [rewrite H0; simpl; auto with zarith|].
  case_decide as H1.
  - destruct (finite_value s (2 ^ 52) (e + 1)) as (-> & -> & -> & ->); [lia..|].
    split; [reflexivity|]. split; [reflexivity|]. rewrite H1.
    pose proof (shl_shl e) as Hs. rewrite (shl_mul (2 ^ 52)).
    change (2 ^ 53) with (2 ^ 52 * 2). nia.
  - destruct (finite_value s m e) as (-> & -> & -> & ->); [lia..|].
    split; [reflexivity|]. split; [reflexivity|]. rewrite (shl_mul m). ring.
Qed.

Lemma nearest_error (s : bool) (n d E : Z) :
  0 ≤ n → 0 < d → -1074 ≤ E ≤ 0 → Py.below n d (E + 53) →
  Py.is_finite (Py.nearest s n d) = true ∧ Py.sign (Py.nearest s n d) = s ∧
  Z.abs (Py.num (Py.nearest s n d) * d - n * Py.den (Py.nearest s n d)) * 2 ^ (1 - E)
    ≤ d * Py.den (Py.nearest s n d).
Proof.
  intros Hn Hd HE Hlt.
  destruct (Z.eq_dec n 0) as [->|Hn0].
  { rewrite nearest_zero by assumption. simpl. auto with zarith. }
  pose proof (exponent_le n d E ltac:(lia) Hd ltac:(lia) Hlt) as He.
  destruct (nearest_value s n d) as (Hfin & Hsign & Hval); [lia..|].
  split; [assumption|]. split; [assumption|].
  pose proof (den_pos (Py.nearest s n d)) as Hden.
  revert Hval. generalize (Py.num (Py.nearest s n d)) (Py.den (Py.nearest s n d)) Hden.
  intros N D HD Hval.
  pose proof (rne_error (Py.shl n (- Py.exponent n d)) (Py.shl d (Py.exponent n d))
                (shl_pos _ _ Hd)) as Herr.
  revert Hval Herr. generalize (Py.rne (Py.shl n (- Py.exponent n d)) (Py.shl d (Py.exponent n d))).
  intros m. rewrite (shl_neg d), (shl_neg 1 (Py.exponent n d)) by lia.
  rewrite !(shl_nonneg_exp _ (- Py.exponent n d)) by lia.
  revert He. generalize (Py.exponent n d). intros e He Hval Herr.
  replace (1 - E) with ((e - E) + (1 - e))%Z by lia.
  assert (2 ^ (1 - e) = 2 * 2 ^ (- e)) as Hp.
  { replace (1 - e) with (1 + - e) by lia. rewrite Z.pow_add_r by lia. reflexivity. }
  assert (0 < 2 ^ (- e)) by (apply Z.pow_pos_nonneg; lia).
  assert (2 ^ (1 - E) ≤ 2 ^ (1 - e)) as Hle by (apply Z.pow_le_mono_r; lia).
  replace ((e - E) + (1 - e)) with (1 - E) by lia.
  assert (Z.abs (N * d - n * D) * 2 ^ (1 - e) ≤ d * D) as Hmain.
  { rewrite Hp.
    assert ((N * d - n * D) * 2 ^ (- e) = D * (m * d - n * 2 ^ (- e))) as Heq by nia.
    assert (Z.abs (N * d - n * D) * 2 ^ (- e) = D * Z.abs (m * d - n * 2 ^ (- e))) as Habs.
    { rewrite <- (Z.abs_eq (2 ^ (- e))) at 1 by lia. rewrite <- Z.abs_mul, Heq, Z.abs_mul.
      rewrite (Z.abs_eq D) by lia. reflexivity. }
    nia. }
  etransitivity; [|exact Hmain].
  apply Z.mul_le_mono_nonneg_l; [lia|assumption].
Qed.

Lemma nearest_upper (s : bool) (n d E K : Z) :
  0 ≤ n → 0 < d → -1074 ≤ E ≤ 0 → Py.below n d (E + 53) →
  2 ^ 52 ≤ K → 2 * n * 2 ^ (- E) < (2 * K + 1) * d →
  Py.num (Py.nearest s n d) * 2 ^ (- E) ≤ K * Py.den (Py.nearest s n d).
Proof.
  intros Hn Hd HE Hlt HK Hmid.
  destruct (Z.eq_dec n 0) as [->|Hn0].
  { rewrite nearest_zero by assumption. simpl. lia. }
  pose proof (exponent_le n d E ltac:(lia) Hd ltac:(lia) Hlt) as He.
  destruct (nearest_value s n d) as (_ & _ & Hval); [lia..|].
  pose proof (den_pos (Py.nearest s n d)) as Hden.
  pose proof (num_nonneg (Py.nearest s n d)) as Hnum.
  revert Hval. generalize dependent (Py.num (Py.nearest s n d)).
  generalize dependent (Py.den (Py.nearest s n d)). intros D HD N HN Hval.
  pose proof (mantissa_le n d ltac:(lia) Hd) as Hm53.
  pose proof (rne_nonneg (Py.shl n (- Py.exponent n d)) (Py.shl d (Py.exponent n d))
                (shl_nonneg _ _ Hn) (shl_pos _ _ Hd)) as Hm0.
  assert (Py.exponent n d = E →
          Py.rne (Py.shl n (- Py.exponent n d)) (Py.shl d (Py.exponent n d)) ≤ K) as HmK.
  { intros ->. apply rne_le; [apply shl_pos; assumption|].
    rewrite (shl_neg d), (shl_nonneg_exp n) by lia. lia. }
  revert Hval Hm53 Hm0 HmK.
  generalize (Py.rne (Py.shl n (- Py.exponent n d)) (Py.shl d (Py.exponent n d))).
  intros m. rewrite (shl_neg 1 (Py.exponent n d)), (shl_nonneg_exp 1 (- Py.exponent n d)) by lia.
  revert He. generalize (Py.exponent n d). intros e He Hval Hm53 Hm0 HmK.
  destruct (Z.eq_dec e E) as [->|Hne].
  - specialize (HmK eq_refl). nia.
  - assert (2 ^ (- e) = 2 ^ (- E) * 2 ^ (E - e)) as Hp.
    { rewrite <- Z.pow_add_r by lia. f_equal. lia. }
    assert (2 ≤ 2 ^ (E - e)) by (change 2 with (2 ^ 1) at 1; apply Z.pow_le_mono_r; lia).
    assert (0 < 2 ^ (- E)) by (apply Z.pow_pos_nonneg; lia).
    assert (N * 2 ^ (- E) * 2 ≤ 2 ^ 53 * D) by nia.
    change (2 ^ 53) with (2 ^ 52 * 2) in *. nia.
Qed.

Lemma below_pos (n d j : Z) : 0 ≤ j → n < d * 2 ^ j → Py.below n d j.
Proof.
  intros Hj H. unfold Py.below.
  rewrite (shl_neg n), (shl_nonneg_exp d) by lia. assumption.
Qed.

Lemma below_0 (n d : Z) : n < d → Py.below n d 0.
Proof. intros H. apply below_pos; [lia|]. change (2 ^ 0) with 1. lia. Qed.

(** A quotient below 2^1023 is in the range of the floats. *)
Lemma nearest_finite (s : bool) (n d : Z) :
  0 ≤ n → 0 < d → n < d * 2 ^ 1023 →
  Py.is_finite (Py.nearest s n d) = true ∧ Py.sign (Py.nearest s n d) = s.
Proof.
  intros Hn Hd Hlt. destruct (Z.eq_dec n 0) as [->|Hn0].
  { rewrite nearest_zero by assumption. auto. }
  destruct (nearest_value s n d) as (Hfin & Hsign & _); [lia|lia| |auto].
  apply exponent_le; [lia..|]. apply below_pos; [lia|assumption].
Qed.

(** A quotient of 1 is the float 1.0. *)
Lemma nearest_one (s : bool) (d : Z) :
  0 < d → Py.nearest s d d = S754_finite s (2 ^ 52) (-52).
Proof.
  intros Hd.
  assert (Py.exponent d d = -52) as He.
  { unfold Py.exponent. rewrite Z.sub_diag.
    change (0 - 53) with (-53). change (- -53) with 53.
    rewrite decide_True; [reflexivity|].
    rewrite (shl_neg d (-53)), (shl_nonneg_exp d 53) by lia. lia. }
  unfold Py.nearest. rewrite He. change (- -52) with 52.
  rewrite (shl_neg d (-52)), (shl_nonneg_exp d 52) by lia.
  rewrite Z.mul_comm, rne_exact by assumption. reflexivity.
Qed.

End Rounding.

(** The number a float stands for is within [1 / B] of [a / b]. *)
Lemma to_Q_close (x : Py.float) (a b : Z) (B : positive) :
  Py.sign x = false → (0 < b)%Z →
  (Z.abs (Py.num x * b - a * Py.den x) * Zpos B ≤ b * Py.den x)%Z →
  (Qabs (Py.to_Q x - inject_Z a / inject_Z b) <= 1 # B)%Q.
Proof.
  intros Hs Hb H. unfold Py.to_Q. rewrite Hs.
  pose proof (den_pos x) as Hden.
  destruct b as [|b|b]; try lia.
  rewrite <- (Qmake_Qdiv a b).
  unfold Qminus, Qplus, Qopp, Qabs, Qle. simpl.
  rewrite Z2Pos.id by assumption.
  rewrite Pos2Z.inj_mul, Z2Pos.id by assumption.
  replace (Py.num x * Z.pos b + - a * Py.den x)%Z
    with (Py.num x * Z.pos b - a * Py.den x)%Z by lia.
  lia.
Qed.

(** ** Progress updates *)

Lemma literal_100 : Py.literal 100 = S754_finite false (100 * 2 ^ 46) (-46).
Proof. vm_compute. reflexivity. Qed.

Lemma mul_int_100 (q : Py.float) :
  Py.mul_int q 100 = Py.Normal (Py.mul q (Py.literal 100)).
Proof.
  unfold Py.mul_int.
  assert (Py.float_of_int 100 = Py.Normal (Py.literal 100)) as ->
    by (vm_compute; reflexivity).
  reflexivity.
Qed.

Lemma update_progress_cases (slide_name : string) (current total : Z)
    (st : server) :
  update_progress slide_name current total st =
    match Py.truediv current total with
    | Py.Raise e => Py.Raise e
    | Py.Normal q =>
        Py.Normal
          (set_progress slide_name
             [("progress", Py.Float (Py.mul q (Py.literal 100)));
              ("status", Py.Str (if Py.lt_int (Py.mul q (Py.literal 100)) 100
                                 then "converting" else "complete"))]
             st)
    end.
Proof.
  unfold update_progress. destruct (Py.truediv current total); [|reflexivity].
  rewrite mul_int_100. reflexivity.
Qed.

Section Percentage.

#[local] Open Scope Z_scope.

Lemma mul_100 (q : Py.float) :
  Py.is_finite q = true →
  Py.mul q (Py.literal 100) =
    Py.nearest (Py.sign q) (Py.num q * (100 * 2 ^ 46)) (Py.den q * 2 ^ 46).
Proof.
  intros Hq. rewrite literal_100.
  destruct q; try discriminate; cbn [Py.mul Py.sign]; rewrite xorb_false_r;
    reflexivity.
Qed.

Lemma lt_int_finite (x : Py.float) (n : Z) :
  Py.is_finite x = true → Py.sign x = false →
  Py.lt_int x n = bool_decide (Py.num x < n * Py.den x).
Proof.
  intros Hx Hs. destruct x; try discriminate; unfold Py.lt_int; rewrite Hs;
    reflexivity.
Qed.

(** True division returns normally when the quotient is below 2^1023, and
    raises nothing but OverflowError when the divisor is not zero. *)
Lemma truediv_normal (a b : Z) :
  b ≠ 0 → Z.abs a < Z.abs b * 2 ^ 1023 →
  Py.truediv a b =
    Py.Normal (Py.nearest (xorb (bool_decide (a < 0)) (bool_decide (b < 0)))
                          (Z.abs a) (Z.abs b)).
Proof.
  intros Hb Hlt. unfold Py.truediv. rewrite decide_False by assumption.
  destruct (nearest_finite (xorb (bool_decide (a < 0)) (bool_decide (b < 0)))
              (Z.abs a) (Z.abs b)) as [Hfin _]; [lia..|].
  destruct (Py.nearest _ _ _); (reflexivity || discriminate).
Qed.

Lemma truediv_raise (a b : Z) (e : Py.exception) :
  b ≠ 0 → Py.truediv a b = Py.Raise e → e = Py.OverflowError.
Proof.
  intros Hb. unfold Py.truediv. rewrite decide_False by assumption.
  destruct (Py.nearest _ _ _); congruence.
Qed.

(** The percentage of [c] of [t] tiles, [c] below [t]: the quotient is at
    most 1 - 2^-53 and off by at most 2^-54, so that its product with 100 is
    at most 100 - 2^-46 and off by at most 2^-46. *)
Lemma progress_percentage (c t : Z) :
  0 < t ≤ 2 ^ 53 → 0 ≤ c < t →
  ∃ q, Py.truediv c t = Py.Normal q ∧
       Py.is_finite (Py.mul q (Py.literal 100)) = true ∧
       Py.sign (Py.mul q (Py.literal 100)) = false ∧
       Z.abs (Py.num (Py.mul q (Py.literal 100)) * t -
              100 * c * Py.den (Py.mul q (Py.literal 100))) * 2 ^ 46
         ≤ t * Py.den (Py.mul q (Py.literal 100)) ∧
       Py.num (Py.mul q (Py.literal 100))
         < 100 * Py.den (Py.mul q (Py.literal 100)).
Proof.
  intros Ht Hc. exists (Py.nearest false c t). split.
  { rewrite truediv_normal by lia.
    rewrite !bool_decide_eq_false_2, !Z.abs_eq by lia. reflexivity. }
  destruct (nearest_error false c t (-53)) as (Hqf & Hqs & Hqe);
    [lia|lia|lia|apply below_0; lia|].
  pose proof (nearest_upper false c t (-53) (2 ^ 53 - 1)) as Hqu.
  change (2 ^ (1 - -53)) with (2 ^ 54) in Hqe.
  change (2 ^ (- -53)) with (2 ^ 53) in Hqu.
  specialize (Hqu ltac:(lia) ltac:(lia) ltac:(lia) ltac:(apply below_0; lia)
                  ltac:(lia) ltac:(lia)).
  rewrite (mul_100 _ Hqf), Hqs.
  pose proof (num_nonneg (Py.nearest false c t)) as Hn.
  pose proof (den_pos (Py.nearest false c t)) as Hd.
  revert Hqe Hqu Hn Hd.
  generalize (Py.num (Py.nearest false c t)) (Py.den (Py.nearest false c t)).
  intros Qn Qd Hqe Hqu Hn Hd.
  assert (Py.below (Qn * (100 * 2 ^ 46)) (Qd * 2 ^ 46) (-46 + 53)) as Hlt
    by (apply below_pos; lia).
  destruct (nearest_error false (Qn * (100 * 2 ^ 46)) (Qd * 2 ^ 46) (-46))
    as (Hpf & Hps & Hpe); [lia|lia|lia|exact Hlt|].
  pose proof (nearest_upper false (Qn * (100 * 2 ^ 46)) (Qd * 2 ^ 46) (-46)
                (100 * 2 ^ 46 - 1)) as Hpu.
  change (2 ^ (1 - -46)) with (2 ^ 47) in Hpe.
  change (2 ^ (- -46)) with (2 ^ 46) in Hpu.
  specialize (Hpu ltac:(lia) ltac:(lia) ltac:(lia) Hlt ltac:(lia) ltac:(lia)).
  pose proof (num_nonneg (Py.nearest false (Qn * (100 * 2 ^ 46)) (Qd * 2 ^ 46)))
    as HPn.
  pose proof (den_pos (Py.nearest false (Qn * (100 * 2 ^ 46)) (Qd * 2 ^ 46)))
    as HPd.
  split; [assumption|]. split; [assumption|].
  revert Hpe Hpu HPn HPd.
  generalize (Py.num (Py.nearest false (Qn * (100 * 2 ^ 46)) (Qd * 2 ^ 46)))
             (Py.den (Py.nearest false (Qn * (100 * 2 ^ 46)) (Qd * 2 ^ 46))).
  intros P D Hpe Hpu HPn HPd. split; [|lia].
  assert (Z.abs (P * Qd - 100 * Qn * D) * 2 ^ 47 ≤ Qd * D) as HX.
  { replace (P * (Qd * 2 ^ 46) - Qn * (100 * 2 ^ 46) * D)
      with (2 ^ 46 * (P * Qd - 100 * Qn * D)) in Hpe by ring.
    rewrite Z.abs_mul, (Z.abs_eq (2 ^ 46)) in Hpe by lia. lia. }
  assert ((P * t - 100 * c * D) * Qd =
          t * (P * Qd - 100 * Qn * D) + 100 * D * (Qn * t - c * Qd)) as HZ by ring.
  assert (Z.abs (P * t - 100 * c * D) * Qd ≤
          t * Z.abs (P * Qd - 100 * Qn * D) + 100 * D * Z.abs (Qn * t - c * Qd))
    as Htri.
  { rewrite <- (Z.abs_eq Qd) at 1 by lia. rewrite <- Z.abs_mul, HZ.
    etransitivity; [apply Z.abs_triangle|].
    rewrite !Z.abs_mul, (Z.abs_eq t), (Z.abs_eq 100), (Z.abs_eq D) by lia. lia. }
  revert HX Hqe Htri.
  generalize (Z.abs (P * Qd - 100 * Qn * D)) (Z.abs (Qn * t - c * Qd))
             (Z.abs (P * t - 100 * c * D)).
  intros x y z HX HY Htri.
  assert (t * (x * 2 ^ 47) ≤ t * (Qd * D)) by (apply Z.mul_le_mono_nonneg_l; lia).
  assert (D * (y * 2 ^ 54) ≤ D * (t * Qd)) by (apply Z.mul_le_mono_nonneg_l; lia).
  assert (0 ≤ t * D * Qd) by (apply Z.mul_nonneg_nonneg; nia).
  apply Z.mul_le_mono_pos_r with (p := Qd); [assumption|]. lia.
Qed.

End Percentage.

(** The float model against the floats of the machine: on every pair of
    counts up to 32, the division and the multiplication by 100 give the
    very float that the hardware operations give. *)
Example percentage_as_machine :
  forallb
    (λ total,
       forallb
         (λ current,
            bool_decide
              (match Py.truediv current total with
               | Py.Normal q => Py.mul_int q 100
               | Py.Raise e => Py.Raise e
               end = Py.Normal (machine_percentage current total)))
         (Z.of_nat <$> seq 0 33))
    (Z.of_nat <$> seq 1 32) = true.
Proof. vm_compute. reflexivity. Qed.

(** The model where counts are out of the ordinary, as Python answers:
    the sign of a zero quotient, ties going to the even mantissa, the
    largest float and the first quotient out of range, the smallest
    subnormal number, and a product out of range. *)
Example float_edge_cases :
  Py.truediv 0 (-5) = Py.Normal (S754_zero true) ∧
  Py.truediv 1 3 = Py.Normal (Py.literal 0x1.5555555555555p-2) ∧
  Py.truediv (2 ^ 53 + 1) 1 = Py.Normal (Py.literal 0x1p+53) ∧
  Py.truediv (2 ^ 53 + 3) 1 = Py.Normal (Py.literal 0x1.0000000000002p+53) ∧
  Py.truediv (2 ^ 1024 - 2 ^ 970 - 1) 1 =
    Py.Normal (Py.literal 0x1.fffffffffffffp+1023) ∧
  Py.truediv (2 ^ 1024 - 2 ^ 970) 1 = Py.Raise Py.OverflowError ∧
  Py.truediv 1 (2 ^ 1075) = Py.Normal (S754_zero false) ∧
  Py.truediv 3 (2 ^ 1075) = Py.Normal (Py.literal 0x0.0000000000002p-1022) ∧
  Py.float_of_int (2 ^ 1024) = Py.Raise Py.OverflowError ∧
  Py.mul_int (Py.literal 0x1p+1023) 100 = Py.Normal (S754_infinity false) ∧
  Py.lt_int (S754_infinity false) 100 = false.
Proof. vm_compute. repeat split. Qed.

(** Beyond 2^53 tiles the quotient of fewer than all tiles can round to 1,
    and the update then reports all of them done. *)
Example update_progress_beyond_2_53 :
  update_progress "a" (2 ^ 60 - 1) (2 ^ 60) Sample.running =
    Py.Normal
      {| disk := disk Sample.running;
         conversion_progress := conversion_progress Sample.converted |}.
Proof. vm_compute. reflexivity. Qed.

Example update_progress_all_tiles :
  update_progress "a" 8 8 Sample.running =
    Py.Normal
      {| disk := disk Sample.running;
         conversion_progress := conversion_progress Sample.converted |}.
Proof. vm_compute. reflexivity. Qed.

(** A count too large for a float: the division raises OverflowError. *)
Example update_progress_overflow :
  update_progress "a" (10 ^ 400) 1 Sample.uploaded = Py.Raise Py.OverflowError.
Proof. vm_compute. reflexivity. Qed.

(** C9: [update_progress] divides by [total] unguarded. With [total = 0] it
    raises ZeroDivisionError, and so does the progress callback of a
    conversion task, without publishing anything. With any other [total]
    no division error is raised: an entry is published for the slide
    whenever the quotient is in the range of the floats (below 2^1023 in
    magnitude), and the only other outcome is the OverflowError of a
    quotient too large. A normal return implies that [total] is not 0. *)
Theorem update_progress_zero_total (slide_name : string) (current : Z)
    (st : server) :
  update_progress slide_name current 0 st = Py.Raise Py.ZeroDivisionError ∧
  progress_callback slide_name current 0 st = Py.Raise Py.ZeroDivisionError ∧
  (∀ total, total ≠ 0 →
     ((Z.abs current < Z.abs total * 2 ^ 1023)%Z →
      ∃ st', update_progress slide_name current total st = Py.Normal st' ∧
             is_Some (conversion_progress st' !! slide_name)) ∧
     (∀ e, update_progress slide_name current total st = Py.Raise e →
           e = Py.OverflowError)) ∧
  (∀ total st',
     update_progress slide_name current total st = Py.Normal st' →
     total ≠ 0 ∧ is_Some (conversion_progress st' !! slide_name)).
Proof.
  split; [reflexivity|]. split; [reflexivity|]. split.
  - intros total Hne. split.
    + intros Hlt. rewrite update_progress_cases, truediv_normal by assumption.
      eexists. split; [reflexivity|]. simpl. rewrite lookup_insert_eq. eauto.
    + intros e. rewrite update_progress_cases.
      destruct (Py.truediv current total) eqn:Hq; [discriminate|].
      intros [= <-]. exact (truediv_raise _ _ _ Hne Hq).
  - intros total st'. rewrite update_progress_cases.
    destruct (Py.truediv current total) eqn:Hq; [|discriminate].
    intros [= <-]. split.
    + intros ->. discriminate.
    + simpl. rewrite lookup_insert_eq. eauto.
Qed.

Lemma update_progress_zero_total_witness :
  update_progress "a" 0 0 Sample.uploaded = Py.Raise Py.ZeroDivisionError ∧
  (∃ st', update_progress "a" 3 8 Sample.uploaded = Py.Normal st' ∧
          is_Some (conversion_progress st' !! "a")).
Proof.
  split.
  - exact (proj1 (update_progress_zero_total "a" 0 Sample.uploaded)).
  - refine (proj1 (proj1 (proj2 (proj2 (update_progress_zero_total
                                          "a" 3 Sample.uploaded)))
                     8 _) _); lia.
Defined.

(** C6, as stated, fails: with 7 of 25 tiles done the published progress is
    the float 28.000000000000004, which is 28 + 2^-48 and not 28, the value
    of 100 × 7 / 25. *)
Lemma update_progress_rounds :
  ∃ st' percentage,
    update_progress "a" 7 25 Sample.uploaded = Py.Normal st' ∧
    conversion_progress st' !! "a" =
      Some [("progress", Py.Float percentage); ("status", Py.Str "converting")] ∧
    (100 * 7 = 28 * 25)%Z ∧
    percentage = Py.literal 0x1.c000000000001p+4 ∧
    percentage ≠ Py.literal 28 ∧
    (Py.to_Q percentage == 28 + (1 # 2 ^ 48))%Q.
Proof.
  exists (set_progress "a"
            [("progress", Py.Float (Py.literal 0x1.c000000000001p+4));
             ("status", Py.Str "converting")]
            Sample.uploaded), (Py.literal 0x1.c000000000001p+4).
  split; [vm_compute; reflexivity|].
  split; [apply lookup_insert_eq|].
  split; [reflexivity|]. split; [reflexivity|].
  split; [vm_compute; discriminate|]. vm_compute. reflexivity.
Qed.

(** C6, amended: for every progress update published during a conversion
    run with tilesTotal > 0 (and 0 ≤ tilesCompleted ≤ tilesTotal ≤ 2^53),
    the published progress is a double-precision float that equals
    100 × tilesCompleted / tilesTotal up to rounding: it lies within 2^-46
    of it, and is exactly 100 when all tiles are done. The published status
    is [converting] while that float is below 100, which is exactly while
    tilesCompleted is below tilesTotal, and [complete] otherwise. Nothing
    else of the state changes. *)
Theorem update_progress_publishes (slide_name : string) (current total : Z)
    (st : server) :
  (0 < total ≤ 2 ^ 53)%Z →
  (0 ≤ current ≤ total)%Z →
  ∃ st' percentage,
    update_progress slide_name current total st = Py.Normal st' ∧
    conversion_progress st' !! slide_name =
      Some [("progress", Py.Float percentage);
            ("status", Py.Str (if Py.lt_int percentage 100
                               then "converting" else "complete"))] ∧
    Py.is_finite percentage = true ∧
    (Qabs (Py.to_Q percentage - inject_Z (100 * current) / inject_Z total)
       <= 1 # 2 ^ 46)%Q ∧
    (Py.lt_int percentage 100 = true ↔ (current < total)%Z) ∧
    (current = total → percentage = Py.literal 100) ∧
    (∀ other, other ≠ slide_name →
       conversion_progress st' !! other = conversion_progress st !! other) ∧
    disk st' = disk st.
Proof.
  intros Ht Hc.
  assert (∃ q, Py.truediv current total = Py.Normal q ∧
               Py.is_finite (Py.mul q (Py.literal 100)) = true ∧
               (Qabs (Py.to_Q (Py.mul q (Py.literal 100)) -
                      inject_Z (100 * current) / inject_Z total)
                  <= 1 # 2 ^ 46)%Q ∧
               (Py.lt_int (Py.mul q (Py.literal 100)) 100 = true ↔
                (current < total)%Z) ∧
               (current = total → Py.mul q (Py.literal 100) = Py.literal 100))
    as (q & Hq & Hfin & Hclose & Hlt & Hall).
  { destruct (decide (current < total)%Z) as [Hless|Hall].
    - destruct (progress_percentage current total) as (q & Hq & Hf & Hs & He & Hl);
        [lia..|].
      exists q. split; [assumption|]. split; [assumption|]. split.
      + apply to_Q_close; [assumption|lia|exact He].
      + split; [|lia]. rewrite lt_int_finite by assumption.
        rewrite bool_decide_eq_true. tauto.
    - assert (current = total) as -> by lia.
      exists (S754_finite false (2 ^ 52) (-52)).
      split.
      { rewrite truediv_normal by lia.
        rewrite bool_decide_eq_false_2, Z.abs_eq by lia.
        rewrite nearest_one by lia. reflexivity. }
      assert (Py.mul (S754_finite false (2 ^ 52) (-52)) (Py.literal 100) =
              Py.literal 100) as -> by (vm_compute; reflexivity).
      split; [reflexivity|]. split.
      + apply to_Q_close; [reflexivity|lia|].
        rewrite literal_100.
        change (Py.num (S754_finite false (100 * 2 ^ 46) (-46)))
          with (100 * 2 ^ 46)%Z.
        change (Py.den (S754_finite false (100 * 2 ^ 46) (-46)))
          with (2 ^ 46)%Z.
        lia.
      + split; [|reflexivity]. split; [|lia]. vm_compute. discriminate. }
  exists (set_progress slide_name
            [("progress", Py.Float (Py.mul q (Py.literal 100)));
             ("status", Py.Str (if Py.lt_int (Py.mul q (Py.literal 100)) 100
                                then "converting" else "complete"))]
            st), (Py.mul q (Py.literal 100)).
  rewrite update_progress_cases, Hq. split; [reflexivity|].
  split; [apply lookup_insert_eq|]. split; [assumption|].
  split; [assumption|]. split; [assumption|]. split; [assumption|].
  split; [|reflexivity].
  intros other Hne. apply lookup_insert_ne. congruence.
Qed.

Lemma update_progress_publishes_witness :
  ∃ st' percentage,
    update_progress "a" 3 8 Sample.uploaded = Py.Normal st' ∧
    conversion_progress st' !! "a" =
      Some [("progress", Py.Float percentage);
            ("status", Py.Str (if Py.lt_int percentage 100
                               then "converting" else "complete"))] ∧
    Py.is_finite percentage = true ∧
    (Qabs (Py.to_Q percentage - inject_Z (100 * 3) / inject_Z 8)
       <= 1 # 2 ^ 46)%Q ∧
    (Py.lt_int percentage 100 = true ↔ (3 < 8)%Z) ∧
    (3 = 8 → percentage = Py.literal 100) ∧
    (∀ other, other ≠ "a" →
       conversion_progress st' !! other =
       conversion_progress Sample.uploaded !! other) ∧
    disk st' = disk Sample.uploaded.
Proof.
  apply (update_progress_publishes "a" 3 8 Sample.uploaded); lia.
Defined.


(** * Further properties *)

(** ** File names and extensions *)

Lemma lower_char_dot (c : ascii) :
  Ascii.eqb (Py.lower_char c) "." = Ascii.eqb c ".".
Proof. destruct c as [[] [] [] [] [] [] [] []]; reflexivity. Qed.

Lemma lower_char_idem (c : ascii) :
  Py.lower_char (Py.lower_char c) = Py.lower_char c.
Proof. destruct c as [[] [] [] [] [] [] [] []]; reflexivity. Qed.

Lemma lower_idem (s : string) : Py.lower (Py.lower s) = Py.lower s.
Proof.
  induction s as [|c s IH]; simpl; [reflexivity|].
  rewrite lower_char_idem, IH. reflexivity.
Qed.

Lemma contains_lower (s : string) :
  Py.contains "." (Py.lower s) = Py.contains "." s.
Proof.
  induction s as [|c s IH]; simpl; [reflexivity|].
  rewrite lower_char_dot, IH. reflexivity.
Qed.

Lemma rcut_lower (s : string) :
  Py.rcut "." (Py.lower s) =
  (λ ab, (Py.lower ab.1, Py.lower ab.2)) <$> Py.rcut "." s.
Proof.
  induction s as [|c s IH]; simpl; [reflexivity|].
  rewrite IH, lower_char_dot.
  destruct (Py.rcut "." s) as [[a b]|]; simpl; [reflexivity|].
  destruct (Ascii.eqb c "."); reflexivity.
Qed.

Lemma rcut_None (sep : ascii) (s : string) :
  Py.rcut sep s = None ↔ Py.contains sep s = false.
Proof.
  induction s as [|c s IH]; simpl; [tauto|].
  destruct (Py.rcut sep s) as [[a b]|].
  - assert (Py.contains sep s = true) as ->.
    { destruct (Py.contains sep s); [reflexivity|].
      destruct IH as [_ IH]. discriminate (IH eq_refl). }
    rewrite orb_true_r. split; discriminate.
  - destruct IH as [IH _]. rewrite (IH eq_refl), orb_false_r.
    destruct (Ascii.eqb c sep); split; congruence.
Qed.

Lemma rcut_Some (sep : ascii) (s a b : string) :
  Py.rcut sep s = Some (a, b) ↔
  s = a +:+ String sep b ∧ Py.contains sep b = false.
Proof.
  revert a. induction s as [|c s IH]; intros a; simpl.
  - split; [discriminate|]. intros [H _]. destruct a; discriminate.
  - destruct (Py.rcut sep s) as [[a' b']|] eqn:E.
    + split.
      * intros [= <- <-]. destruct (proj1 (IH a') eq_refl) as [-> Hb].
        auto.
      * intros [Hs Hb]. destruct a as [|c' a]; simpl in Hs.
        -- injection Hs as -> ->. apply rcut_None in Hb. congruence.
        -- injection Hs as <- Hs.
           pose proof (proj2 (IH a) (conj Hs Hb)) as [= -> ->]. reflexivity.
    + apply rcut_None in E. split.
      * destruct (Ascii.eqb_spec c sep) as [->|Hne]; [|discriminate].
        intros [= <- <-]. auto.
      * intros [Hs Hb]. destruct a as [|c' a]; simpl in Hs.
        -- injection Hs as -> ->. rewrite Ascii.eqb_refl. reflexivity.
        -- injection Hs as <- Hs. exfalso. subst s.
           revert E. clear. induction a as [|x a IH]; simpl.
           ++ rewrite Ascii.eqb_refl. discriminate.
           ++ intros H. apply orb_false_elim in H as [_ H]. auto.
Qed.

Lemma contains_app (sep : ascii) (a b : string) :
  Py.contains sep (a +:+ b) = Py.contains sep a || Py.contains sep b.
Proof.
  induction a as [|c a IH]; simpl; [reflexivity|].
  rewrite IH, orb_assoc. reflexivity.
Qed.

Lemma allowed_file_split (a ext : string) :
  Py.contains "." ext = false →
  allowed_file (a +:+ "." +:+ ext) =
    bool_decide (Py.lower ext ∈ ALLOWED_EXTENSIONS).
Proof.
  intros Hext. change (a +:+ "." +:+ ext) with (a +:+ String "." ext).
  unfold allowed_file, Py.rsplit1.
  rewrite contains_app, (proj2 (rcut_Some "." (a +:+ String "." ext) a ext))
    by auto.
  simpl. rewrite orb_true_r. reflexivity.
Qed.

Lemma allowed_file_inv (filename : string) :
  allowed_file filename = true →
  ∃ a ext,
    filename = a +:+ "." +:+ ext ∧
    Py.contains "." ext = false ∧
    Py.lower ext ∈ ALLOWED_EXTENSIONS.
Proof.
  unfold allowed_file, Py.rsplit1.
  destruct (Py.contains "." filename); [|discriminate]. simpl.
  destruct (Py.rcut "." filename) as [[a ext]|] eqn:E; [|discriminate].
  simpl. intros Hext. apply bool_decide_eq_true in Hext.
  apply rcut_Some in E as [-> Hdot]. eauto.
Qed.

Lemma stem_split (a ext : string) :
  Py.contains "." ext = false → a ≠ "" → ext ≠ "" →
  Fs.stem (a +:+ "." +:+ ext) = a.
Proof.
  intros Hdot Ha Hext. unfold Fs.stem.
  change (a +:+ "." +:+ ext) with (a +:+ String "." ext).
  rewrite (proj2 (rcut_Some "." (a +:+ String "." ext) a ext)) by auto.
  destruct a; [congruence|]. destruct ext; [congruence|]. reflexivity.
Qed.

Lemma allowed_extension_not_empty (ext : string) :
  Py.lower ext ∈ ALLOWED_EXTENSIONS → ext ≠ "".
Proof.
  intros Hext ->.
  assert (bool_decide (Py.lower "" ∈ ALLOWED_EXTENSIONS) = false) as Hno
    by (vm_compute; reflexivity).
  apply bool_decide_eq_false in Hno. exact (Hno Hext).
Qed.

(** X1: only the text after the last dot of a file name decides whether the
    file is accepted, and it is compared without regard to case. *)
Theorem allowed_file_last_extension (a ext : string) :
  Py.contains "." ext = false →
  (allowed_file (a +:+ "." +:+ ext) = true ↔
   Py.lower ext ∈ ALLOWED_EXTENSIONS).
Proof.
  intros Hext. rewrite (allowed_file_split a ext Hext).
  apply bool_decide_eq_true.
Qed.

Lemma allowed_file_last_extension_witness :
  allowed_file ("slide.svs" +:+ "." +:+ "TIFF") = true ∧
  ¬ allowed_file ("slide.svs" +:+ "." +:+ "txt") = true.
Proof.
  split.
  - apply (allowed_file_last_extension "slide.svs" "TIFF"); [reflexivity|].
    vm_compute. reflexivity.
  - intros H.
    apply (allowed_file_last_extension "slide.svs" "txt") in H; [|reflexivity].
    assert (bool_decide (Py.lower "txt" ∈ ALLOWED_EXTENSIONS) = false) as Hno
      by (vm_compute; reflexivity).
    apply bool_decide_eq_false in Hno. exact (Hno H).
Defined.

Lemma allowed_file_lower (filename : string) :
  allowed_file (Py.lower filename) = allowed_file filename.
Proof.
  unfold allowed_file, Py.rsplit1. rewrite contains_lower, rcut_lower.
  destruct (Py.contains "." filename) eqn:Hdot; [|reflexivity]. simpl.
  destruct (Py.rcut "." filename) as [[a b]|] eqn:E; simpl.
  - rewrite lower_idem. reflexivity.
  - apply rcut_None in E. congruence.
Qed.

(** X2: two file names that differ only in the case of their letters are
    both accepted or both refused. *)
Theorem allowed_file_case_insensitive (filename filename' : string) :
  Py.lower filename = Py.lower filename' →
  allowed_file filename = allowed_file filename'.
Proof.
  intros H.
  rewrite <- (allowed_file_lower filename), <- (allowed_file_lower filename'), H.
  reflexivity.
Qed.

Lemma allowed_file_case_insensitive_witness :
  allowed_file "Scan.NDPI" = allowed_file "scan.ndpi".
Proof.
  apply (allowed_file_case_insensitive "Scan.NDPI" "scan.ndpi"). reflexivity.
Defined.

(** X3: an accepted file name ends in a dot and an extension that is free of
    dots, not empty and, in lower case, one of the allowed ones. The slide
    name derived from it ([Path.stem]) is the text before that dot, except
    for a name that starts with its only dot: that one is its own stem. *)
Theorem allowed_file_shape (filename : string) :
  allowed_file filename = true →
  ∃ a ext,
    filename = a +:+ "." +:+ ext ∧
    Py.contains "." ext = false ∧
    ext ≠ "" ∧
    Py.lower ext ∈ ALLOWED_EXTENSIONS ∧
    Fs.stem filename = (if bool_decide (a = "") then filename else a).
Proof.
  unfold allowed_file, Py.rsplit1, Fs.stem.
  destruct (Py.contains "." filename); [|discriminate]. simpl.
  destruct (Py.rcut "." filename) as [[a ext]|] eqn:E; [|discriminate].
  simpl. intros Hext. apply bool_decide_eq_true in Hext.
  apply rcut_Some in E as [-> Hdot].
  exists a, ext. split; [reflexivity|]. split; [exact Hdot|].
  assert (ext ≠ "") as Hne.
  { intros ->.
    assert (bool_decide (Py.lower "" ∈ ALLOWED_EXTENSIONS) = false) as Hno
      by (vm_compute; reflexivity).
    apply bool_decide_eq_false in Hno. exact (Hno Hext). }
  split; [exact Hne|]. split; [exact Hext|].
  destruct a as [|c a]; [reflexivity|].
  destruct ext as [|d ext]; [congruence|]. reflexivity.
Qed.

Lemma allowed_file_shape_witness :
  ∃ a ext,
    "a.b.svs" = a +:+ "." +:+ ext ∧
    Py.contains "." ext = false ∧
    ext ≠ "" ∧
    Py.lower ext ∈ ALLOWED_EXTENSIONS ∧
    Fs.stem "a.b.svs" = (if bool_decide (a = "") then "a.b.svs" else a).
Proof. apply (allowed_file_shape "a.b.svs"). reflexivity. Defined.

(** ** Directory listings *)

Lemma child_name_Some (dir p : list string) (name : string) :
  Fs.child_name dir p = Some name ↔ p = Fs.div dir name.
Proof.
  unfold Fs.div. revert p. induction dir as [|d dir IH]; intros p; simpl.
  - destruct p as [|c [|c' p]]; split; try discriminate; congruence.
  - destruct p as [|c p]; [split; discriminate|].
    destruct (decide (d = c)) as [->|Hne].
    + rewrite IH. split; congruence.
    + split; [discriminate|]. congruence.
Qed.

Lemma child_name_div (dir : list string) (name : string) :
  Fs.child_name dir (Fs.div dir name) = Some name.
Proof. apply child_name_Some. reflexivity. Qed.

Lemma elem_of_iterdir (dir : list string) (fs : gmap (list string) string)
    (name content : string) :
  (name, content) ∈ Fs.iterdir dir fs ↔ fs !! Fs.div dir name = Some content.
Proof.
  unfold Fs.iterdir. rewrite list_elem_of_omap. split.
  - intros [[p c] [Hin Hname]]. apply elem_of_map_to_list in Hin. simpl in Hname.
    destruct (Fs.child_name dir p) as [n|] eqn:E; [|discriminate].
    injection Hname as -> ->. apply child_name_Some in E. congruence.
  - intros Hfile. exists (Fs.div dir name, content). split.
    + apply elem_of_map_to_list. exact Hfile.
    + simpl. rewrite child_name_div. reflexivity.
Qed.

Lemma elem_of_glob (fnmatch : string → string → bool) (dir : list string)
    (pattern : string) (fs : gmap (list string) string) (p : list string) :
  p ∈ Fs.glob fnmatch dir pattern fs ↔
  is_Some (fs !! p) ∧
  ∃ name, p = Fs.div dir name ∧ fnmatch pattern name = true.
Proof.
  unfold Fs.glob. rewrite list_elem_of_In, filter_In, <- list_elem_of_In.
  rewrite list_elem_of_fmap. split.
  - intros [[[q c] [-> Hin]] Hm]. apply elem_of_map_to_list in Hin. simpl in *.
    split; [eauto|].
    destruct (Fs.child_name dir q) as [n|] eqn:E; [|discriminate].
    exists n. split; [apply child_name_Some; exact E|exact Hm].
  - intros [[c Hfile] [name [-> Hm]]]. split.
    + exists (Fs.div dir name, c). split; [reflexivity|].
      apply elem_of_map_to_list. exact Hfile.
    + rewrite child_name_div. exact Hm.
Qed.

Lemma list_slides_lists (filename content : string) (st : server) :
  disk st !! Fs.div [UPLOAD_FOLDER] filename = Some content →
  allowed_file filename = true →
  ∃ slides entry,
    list_slides st = Return slides ∧ entry ∈ slides ∧
    Py.item "name" entry = Some (Py.Str (Fs.stem filename)) ∧
    Py.item "filename" entry = Some (Py.Str filename) ∧
    Py.item "size" entry = Some (Py.Int (Z.of_nat (String.length content))).
Proof.
  intros Hfile Hok. do 2 eexists. split; [reflexivity|]. split.
  - apply list_elem_of_omap. exists (filename, content).
    split; [apply elem_of_iterdir; exact Hfile|].
    simpl. rewrite Hok. reflexivity.
  - repeat split.
Qed.

Lemma NoDup_omap_inj {A B : Type} (f : A → option B) (l : list A) :
  (∀ x y b, x ∈ l → y ∈ l → f x = Some b → f y = Some b → x = y) →
  NoDup l → NoDup (omap f l).
Proof.
  intros Hinj Hl. induction Hl as [|x l Hx Hl IH]; simpl; [constructor|].
  assert (NoDup (omap f l)) as IH'.
  { apply IH. intros y z b Hy Hz. apply Hinj; constructor; assumption. }
  destruct (f x) as [b|] eqn:Hfx; [|exact IH'].
  constructor; [|exact IH'].
  intros Hin. apply list_elem_of_omap in Hin as (y & Hy & Hfy).
  assert (x = y) as ->; [|contradiction].
  apply (Hinj x y b); [left|right; exact Hy|exact Hfx|exact Hfy].
Qed.

(** [iterdir] yields every file of the directory once. *)
Lemma NoDup_iterdir (dir : list string) (fs : gmap (list string) string) :
  NoDup (Fs.iterdir dir fs).
Proof.
  unfold Fs.iterdir. apply NoDup_omap_inj; [|apply NoDup_map_to_list].
  intros [p c] [p' c'] [name content] _ _. simpl. intros Hp Hp'.
  destruct (Fs.child_name dir p) as [n|] eqn:E; [|discriminate].
  destruct (Fs.child_name dir p') as [n'|] eqn:E'; [|discriminate].
  injection Hp as -> ->. injection Hp' as -> ->.
  apply child_name_Some in E, E'. congruence.
Qed.

(** X4: the slide list has exactly one entry per file that lies directly in
    the upload folder and has an allowed name, and no other entry: no two
    entries carry the same file name, and the entries are those of the
    allowed files; an entry carries the file's name, its stem as the slide
    name, its size and the two flags of that stem. *)
Theorem list_slides_entries (st : server) :
  ∃ slides,
    list_slides st = Return slides ∧
    NoDup ((λ entry, Py.item "filename" entry) <$> slides) ∧
    ∀ entry,
      entry ∈ slides ↔
      ∃ filename content,
        disk st !! Fs.div [UPLOAD_FOLDER] filename = Some content ∧
        allowed_file filename = true ∧
        entry =
          [("name", Py.Str (Fs.stem filename));
           ("filename", Py.Str filename);
           ("size", Py.Int (Z.of_nat (String.length content)));
           ("converted",
            Py.Bool (WSIConverter.is_converted (Fs.stem filename) (disk st)));
           ("viewable",
            Py.Bool (WSIConverter.is_viewable (Fs.stem filename) (disk st)))].
Proof.
  eexists. split; [reflexivity|].
  assert (∀ entry,
            entry ∈ omap
              (λ file : string * string,
                 if allowed_file file.1 then
                   Some [("name", Py.Str (Fs.stem file.1));
                         ("filename", Py.Str file.1);
                         ("size", Py.Int (Z.of_nat (String.length file.2)));
                         ("converted",
                          Py.Bool (WSIConverter.is_converted (Fs.stem file.1)
                                     (disk st)));
                         ("viewable",
                          Py.Bool (WSIConverter.is_viewable (Fs.stem file.1)
                                     (disk st)))]
                 else None)
              (Fs.iterdir [UPLOAD_FOLDER] (disk st)) ↔
            ∃ filename content,
              disk st !! Fs.div [UPLOAD_FOLDER] filename = Some content ∧
              allowed_file filename = true ∧
              entry =
                [("name", Py.Str (Fs.stem filename));
                 ("filename", Py.Str filename);
                 ("size", Py.Int (Z.of_nat (String.length content)));
                 ("converted",
                  Py.Bool (WSIConverter.is_converted (Fs.stem filename) (disk st)));
                 ("viewable",
                  Py.Bool (WSIConverter.is_viewable (Fs.stem filename) (disk st)))])
    as Hentries.
  { intros entry. rewrite list_elem_of_omap. split.
    - intros [[name content] [Hin Hentry]]. simpl in Hentry.
      apply elem_of_iterdir in Hin.
      destruct (allowed_file name) eqn:Hok; [|discriminate].
      injection Hentry as <-. exists name, content. auto.
    - intros (filename & content & Hfile & Hok & ->).
      exists (filename, content). split; [apply elem_of_iterdir; exact Hfile|].
      simpl. rewrite Hok. reflexivity. }
  split; [|exact Hentries].
  apply NoDup_fmap_2_strong.
  - intros entry entry' Hin Hin' Hname.
    apply Hentries in Hin as (filename & content & Hfile & _ & ->).
    apply Hentries in Hin' as (filename' & content' & Hfile' & _ & ->).
    cbn in Hname. injection Hname as <-.
    rewrite Hfile in Hfile'. injection Hfile' as <-. reflexivity.
  - apply NoDup_omap_inj; [|apply NoDup_iterdir].
    intros [name content] [name' content'] entry Hin Hin'. simpl.
    apply elem_of_iterdir in Hin, Hin'.
    destruct (allowed_file name); [|discriminate].
    destruct (allowed_file name'); [|discriminate].
    intros Hentry Hentry'. assert (name = name') as <- by congruence.
    rewrite Hin in Hin'. congruence.
Qed.

(** ** Uploads *)

Section Upload.

Variable slide_info : list string → gmap (list string) string → string + Py.dict.

Lemma upload_file_accepted (filename content : string) (st : server) :
  filename ≠ "" →
  allowed_file filename = true →
  upload_file slide_info filename content st =
    let st' :=
      {| disk := <[Fs.div [UPLOAD_FOLDER] filename := content]> (disk st);
         conversion_progress := conversion_progress st |} in
    (match slide_info (Fs.div [UPLOAD_FOLDER] filename) (disk st') with
     | inl e => HTTPException 500 e
     | inr details =>
         Return {| fields := [("success", Py.Bool true);
                              ("filename", Py.Str filename);
                              ("name", Py.Str (Fs.stem filename))];
                   info := details |}
     end, st').
Proof.
  intros Hne Hok. unfold upload_file.
  rewrite bool_decide_eq_false_2 by exact Hne. rewrite Hok. simpl.
  destruct (slide_info _ _); reflexivity.
Qed.

End Upload.

(** X5: an upload without a file name or with a name that is not allowed is
    refused with status 400 and changes nothing, neither on disk nor in
    the progress dictionary. *)
Theorem upload_file_refused
    (slide_info : list string → gmap (list string) string → string + Py.dict)
    (filename content : string) (st : server) :
  filename = "" ∨ allowed_file filename = false →
  ∃ detail,
    upload_file slide_info filename content st = (HTTPException 400 detail, st).
Proof.
  unfold upload_file. intros [->|Hbad].
  - eexists. reflexivity.
  - destruct (bool_decide (filename = "")); [eexists; reflexivity|].
    rewrite Hbad. eexists. reflexivity.
Qed.

Lemma upload_file_refused_witness :
  ∃ detail,
    upload_file (λ _ _, inr []) "notes.txt" "text" Sample.uploaded =
      (HTTPException 400 detail, Sample.uploaded).
Proof.
  apply (upload_file_refused (λ _ _, inr []) "notes.txt" "text" Sample.uploaded).
  right. reflexivity.
Defined.

(** X6: an upload with an allowed name (free of directory separators) stores
    the content under that name in the upload folder, replacing whatever was
    there, also when reading the slide's metadata fails and the request
    ends with status 500. No other file and no progress entry is touched:
    in particular the cached descriptor and tiles of a slide of that name
    stay as they are. *)
Theorem upload_file_stores
    (slide_info : list string → gmap (list string) string → string + Py.dict)
    (filename content : string) (st : server) :
  filename ≠ "" →
  Py.contains "/" filename = false →
  allowed_file filename = true →
  ∃ reply st',
    upload_file slide_info filename content st = (reply, st') ∧
    (∀ e, slide_info (Fs.div [UPLOAD_FOLDER] filename) (disk st') = inl e →
          reply = HTTPException 500 e) ∧
    (∀ details,
       slide_info (Fs.div [UPLOAD_FOLDER] filename) (disk st') = inr details →
       reply = Return {| fields := [("success", Py.Bool true);
                                    ("filename", Py.Str filename);
                                    ("name", Py.Str (Fs.stem filename))];
                         info := details |}) ∧
    disk st' !! Fs.div [UPLOAD_FOLDER] filename = Some content ∧
    (∀ p, p ≠ Fs.div [UPLOAD_FOLDER] filename → disk st' !! p = disk st !! p) ∧
    (∀ slide_name,
       WSIConverter.is_converted slide_name (disk st') =
       WSIConverter.is_converted slide_name (disk st)) ∧
    conversion_progress st' = conversion_progress st.
Proof.
  intros Hne _ Hok. do 2 eexists.
  split; [apply (upload_file_accepted slide_info _ _ _ Hne Hok)|]. simpl.
  split; [intros e ->; reflexivity|].
  split; [intros details ->; reflexivity|].
  split; [apply lookup_insert_eq|].
  split; [intros p Hp; apply lookup_insert_ne; congruence|].
  split; [|reflexivity].
  intros slide_name. unfold WSIConverter.is_converted, Fs.exists_.
  rewrite lookup_insert_ne; [reflexivity|].
  unfold Fs.div, WSIConverter.descriptor, Fs.div. simpl. discriminate.
Qed.

Lemma upload_file_stores_witness :
  ∃ reply st',
    upload_file (λ _ _, inl "unsupported or missing image file") "a.svs" "new"
      Sample.converted = (reply, st') ∧
    reply = HTTPException 500 "unsupported or missing image file" ∧
    disk st' !! Fs.div [UPLOAD_FOLDER] "a.svs" = Some "new" ∧
    WSIConverter.is_converted "a" (disk st') = true.
Proof.
  destruct (upload_file_stores
              (λ _ _, inl "unsupported or missing image file") "a.svs" "new"
              Sample.converted)
    as (reply & st' & Hrun & Hfail & _ & Hfile & _ & Hdzi & _);
    [discriminate|reflexivity|reflexivity|].
  exists reply, st'. split; [exact Hrun|]. split; [apply Hfail; reflexivity|].
  split; [exact Hfile|]. rewrite Hdzi. vm_compute. reflexivity.
Defined.

(** X7: after an upload with an allowed name the slide list has an entry for
    that file, with the size of the uploaded content and the stem of the
    name as slide name, whether or not the upload request itself ended in an
    error of the metadata reader. *)
Theorem upload_file_listed
    (slide_info : list string → gmap (list string) string → string + Py.dict)
    (filename content : string) (st : server) :
  filename ≠ "" →
  Py.contains "/" filename = false →
  allowed_file filename = true →
  ∃ reply st' slides entry,
    upload_file slide_info filename content st = (reply, st') ∧
    list_slides st' = Return slides ∧
    entry ∈ slides ∧
    Py.item "filename" entry = Some (Py.Str filename) ∧
    Py.item "name" entry = Some (Py.Str (Fs.stem filename)) ∧
    Py.item "size" entry = Some (Py.Int (Z.of_nat (String.length content))).
Proof.
  intros Hne _ Hok.
  pose proof (upload_file_accepted slide_info filename content st Hne Hok)
    as Hrun. cbv zeta in Hrun.
  destruct (list_slides_lists filename content
              {| disk := <[Fs.div [UPLOAD_FOLDER] filename := content]> (disk st);
                 conversion_progress := conversion_progress st |})
    as (slides & entry & Hlist & Hin & Hname & Hfilename & Hsize);
    [apply lookup_insert_eq|exact Hok|].
  do 2 eexists. exists slides, entry. split; [exact Hrun|]. auto.
Qed.

Lemma upload_file_listed_witness :
  ∃ reply st' slides entry,
    upload_file (λ _ _, inr []) "b.tif" "12345678" Sample.uploaded = (reply, st') ∧
    list_slides st' = Return slides ∧
    entry ∈ slides ∧
    Py.item "filename" entry = Some (Py.Str "b.tif") ∧
    Py.item "name" entry = Some (Py.Str (Fs.stem "b.tif")) ∧
    Py.item "size" entry = Some (Py.Int (Z.of_nat (String.length "12345678"))).
Proof.
  apply (upload_file_listed (λ _ _, inr []) "b.tif" "12345678" Sample.uploaded);
    [discriminate|reflexivity|reflexivity].
Defined.

(** ** Deleting, again *)

Lemma unlink_all_lookup (found : list (list string))
    (fs : gmap (list string) string) (p : list string) :
  foldl (λ fs slide_file, Fs.unlink slide_file fs) fs found !! p =
  if decide (p ∈ found) then None else fs !! p.
Proof.
  revert fs. induction found as [|f found IH]; intros fs.
  - destruct (decide (p ∈ [])) as [Hin|_]; [|reflexivity].
    apply not_elem_of_nil in Hin. contradiction.
  - change (foldl (λ fs slide_file, Fs.unlink slide_file fs) fs (f :: found))
      with (foldl (λ fs slide_file, Fs.unlink slide_file fs) (Fs.unlink f fs) found).
    rewrite IH. unfold Fs.unlink.
    destruct (decide (p ∈ found)) as [Hin|Hout];
      destruct (decide (p ∈ f :: found)) as [Hin'|Hout']; try reflexivity.
    + exfalso. apply Hout'. right. exact Hin.
    + apply elem_of_cons in Hin' as [->|Hin']; [|contradiction].
      apply lookup_delete_eq.
    + apply lookup_delete_ne. intros ->. apply Hout'. left.
Qed.

Lemma delete_slide_disk_lookup (fnmatch : string → string → bool)
    (slide_name : string) (st st' : server) (body : Py.dict) (p : list string) :
  delete_slide fnmatch slide_name st = (Return body, st') →
  disk st' !! p =
    if WSIConverter.cached_for slide_name p then None
    else if decide (p ∈ slide_files fnmatch slide_name st) then None
    else disk st !! p.
Proof.
  intros Hdel. pose proof (delete_slide_returns _ _ _ _ _ Hdel) as Hfound.
  rewrite (delete_slide_found _ _ _ Hfound) in Hdel.
  injection Hdel as _ <-. simpl.
  rewrite cleanup_cache_lookup, unlink_all_lookup. reflexivity.
Qed.

(** X8: once a delete request has succeeded, no upload matches the slide
    name any more: a second delete request, a conversion request and a
    metadata request for that name all fail with 404 and change nothing. *)
Theorem delete_slide_then_not_found
    (fnmatch : string → string → bool) (slide_name : string)
    (st st' : server) (body : Py.dict) :
  delete_slide fnmatch slide_name st = (Return body, st') →
  slide_files fnmatch slide_name st' = [] ∧
  delete_slide fnmatch slide_name st' =
    (HTTPException 404 "Slide not found", st') ∧
  (∀ background_tasks,
     convert_slide fnmatch slide_name background_tasks st' =
       (HTTPException 404 "Slide not found", background_tasks, st')) ∧
  (∀ slide_info,
     get_slide_info slide_info fnmatch slide_name st' =
       HTTPException 404 "Slide not found").
Proof.
  intros Hdel.
  assert (slide_files fnmatch slide_name st' = []) as Hnone.
  { apply elem_of_nil_inv. intros p Hin.
    pose proof Hin as Hp. unfold slide_files in Hp.
    apply elem_of_glob in Hp as [[content Hfile] Hmatch].
    rewrite (delete_slide_disk_lookup _ _ _ _ _ p Hdel) in Hfile.
    destruct (WSIConverter.cached_for slide_name p); [discriminate|].
    destruct (decide (p ∈ slide_files fnmatch slide_name st)) as [|Hout];
      [discriminate|].
    apply Hout. unfold slide_files. apply elem_of_glob. eauto. }
  split; [exact Hnone|].
  split; [unfold delete_slide; rewrite Hnone; reflexivity|].
  split; [intros bt; apply convert_slide_missing; exact Hnone|].
  intros slide_info. unfold get_slide_info. rewrite Hnone. reflexivity.
Qed.

Lemma delete_slide_then_not_found_witness :
  ∃ body st',
    delete_slide Fs.wildcard "a" Sample.converted = (Return body, st') ∧
    slide_files Fs.wildcard "a" st' = [] ∧
    delete_slide Fs.wildcard "a" st' =
      (HTTPException 404 "Slide not found", st').
Proof.
  assert (slide_files Fs.wildcard "a" Sample.converted ≠ []) as Hfound
    by (vm_compute; discriminate).
  pose proof (delete_slide_found Fs.wildcard "a" Sample.converted Hfound) as Hdel.
  destruct (delete_slide_then_not_found Fs.wildcard "a" Sample.converted _ _ Hdel)
    as (Hnone & Hagain & _).
  do 2 eexists. split; [exact Hdel|]. split; [exact Hnone|exact Hagain].
Defined.

(** X9: the conversion, metadata and delete requests agree on which slides
    exist: each of them answers 404 exactly when no file of the upload
    folder matches the slide name, and then leaves the state alone. *)
Theorem slide_not_found_agree
    (fnmatch : string → string → bool)
    (slide_info : list string → gmap (list string) string → string + Py.dict)
    (slide_name : string) (background_tasks : list task) (st : server) :
  (slide_files fnmatch slide_name st = [] ↔
   convert_slide fnmatch slide_name background_tasks st =
     (HTTPException 404 "Slide not found", background_tasks, st)) ∧
  (slide_files fnmatch slide_name st = [] ↔
   ∃ detail, get_slide_info slide_info fnmatch slide_name st =
               HTTPException 404 detail) ∧
  (slide_files fnmatch slide_name st = [] ↔
   delete_slide fnmatch slide_name st =
     (HTTPException 404 "Slide not found", st)).
Proof.
  unfold convert_slide, get_slide_info, delete_slide.
  destruct (slide_files fnmatch slide_name st) as [|slide_path found].
  - repeat split; eauto.
  - split; [|split]; (split; [discriminate|]).
    + destruct (WSIConverter.is_converted slide_name (disk st)); discriminate.
    + intros [detail H]. destruct (slide_info slide_path (disk st)); discriminate.
    + discriminate.
Qed.

(** ** Which uploads a slide name finds *)

Lemma wildcard_star_cons (pattern name : string) :
  Fs.wildcard (String "*" pattern) name =
  Fs.wildcard pattern name ||
  match name with
  | EmptyString => false
  | String _ name' => Fs.wildcard (String "*" pattern) name'
  end.
Proof. destruct name; reflexivity. Qed.

Lemma wildcard_literal_cons (c : ascii) (pattern name : string) :
  Ascii.eqb c "*" = false →
  Fs.wildcard (String c pattern) name =
  match name with
  | EmptyString => false
  | String d name' =>
      (Ascii.eqb c "?" || Ascii.eqb c d) && Fs.wildcard pattern name'
  end.
Proof. intros Hc. simpl. rewrite Hc. reflexivity. Qed.

Lemma wildcard_star_any (name : string) : Fs.wildcard "*" name = true.
Proof.
  induction name as [|c name IH]; [reflexivity|].
  rewrite wildcard_star_cons, IH. apply orb_true_r.
Qed.

Lemma plain_cons (c : ascii) (s : string) :
  Fs.plain (String c s) = true →
  Ascii.eqb c "*" = false ∧ Ascii.eqb c "?" = false ∧ Fs.plain s = true.
Proof.
  unfold Fs.plain. simpl.
  rewrite !andb_true_iff, !negb_true_iff, !orb_false_iff. tauto.
Qed.

(** A pattern made of a plain name and [.*] matches the names that start
    with that name and a dot, and only those. *)
Lemma wildcard_plain_prefix (s name : string) :
  Fs.plain s = true →
  Fs.wildcard (s +:+ ".*") name = true ↔ ∃ rest, name = s +:+ "." +:+ rest.
Proof.
  intros Hplain. revert name. induction s as [|c s IH]; intros name.
  - change ("" +:+ ".*") with (String "." "*").
    rewrite wildcard_literal_cons by reflexivity.
    destruct name as [|d name]; [split; [discriminate|intros [rest H]; discriminate]|].
    change (Ascii.eqb "." "?" || Ascii.eqb "." d) with (Ascii.eqb "." d).
    rewrite wildcard_star_any, andb_true_r.
    split.
    + intros H. apply Ascii.eqb_eq in H as <-. exists name. reflexivity.
    + intros [rest [= <- _]]. apply Ascii.eqb_refl.
  - apply plain_cons in Hplain as (Hstar & Hq & Hplain).
    change (String c s +:+ ".*") with (String c (s +:+ ".*")).
    rewrite wildcard_literal_cons by exact Hstar. rewrite Hq. simpl orb.
    destruct name as [|d name]; [split; [discriminate|intros [rest H]; discriminate]|].
    rewrite andb_true_iff, (IH Hplain name), Ascii.eqb_eq. split.
    + intros [<- [rest ->]]. exists rest. reflexivity.
    + intros [rest [= <- ->]]. eauto.
Qed.

(** X10: a conversion, metadata or delete request for a slide name without
    glob characters finds exactly the files of the upload folder whose name
    is the slide name followed by a dot and anything, whatever their
    extension and however many further dots they contain. *)
Theorem slide_files_by_prefix (slide_name : string) (st : server)
    (p : list string) :
  Fs.plain slide_name = true →
  (p ∈ slide_files Fs.wildcard slide_name st ↔
   is_Some (disk st !! p) ∧
   ∃ rest, p = Fs.div [UPLOAD_FOLDER] (slide_name +:+ "." +:+ rest)).
Proof.
  intros Hplain. unfold slide_files. rewrite elem_of_glob. split.
  - intros [Hfile (name & -> & Hmatch)]. split; [exact Hfile|].
    apply (wildcard_plain_prefix _ _ Hplain) in Hmatch as [rest ->]. eauto.
  - intros [Hfile [rest ->]]. split; [exact Hfile|].
    eexists. split; [reflexivity|].
    apply (wildcard_plain_prefix _ _ Hplain). eauto.
Qed.

Lemma slide_files_by_prefix_witness :
  Fs.div [UPLOAD_FOLDER] ("a" +:+ "." +:+ "svs") ∈
    slide_files Fs.wildcard "a" Sample.uploaded ∧
  ¬ Sample.tile ∈ slide_files Fs.wildcard "a" Sample.converted.
Proof.
  split.
  - apply (slide_files_by_prefix "a" Sample.uploaded); [reflexivity|].
    split; [vm_compute; eauto|]. exists "svs". reflexivity.
  - intros Hin.
    apply (slide_files_by_prefix "a" Sample.converted) in Hin
      as [_ [rest Hrest]]; [|reflexivity].
    discriminate.
Defined.

(** X11: a successful delete request for a plain slide name removes every
    upload whose name starts with the slide name and a dot, so also the
    source file of another slide whose own name merely begins that way (the
    file [a.b.svs] of slide [a.b] when slide [a] is deleted); and it can
    succeed only if such an upload exists. *)
Theorem delete_slide_removes_prefixed (slide_name rest : string) (st : server) :
  Fs.plain slide_name = true →
  is_Some (disk st !! Fs.div [UPLOAD_FOLDER] (slide_name +:+ "." +:+ rest)) →
  ∃ body st',
    delete_slide Fs.wildcard slide_name st = (Return body, st') ∧
    ∀ rest', disk st' !! Fs.div [UPLOAD_FOLDER] (slide_name +:+ "." +:+ rest') = None.
Proof.
  intros Hplain Hfile.
  assert (∀ rest',
            is_Some (disk st !! Fs.div [UPLOAD_FOLDER]
                                  (slide_name +:+ "." +:+ rest')) →
            Fs.div [UPLOAD_FOLDER] (slide_name +:+ "." +:+ rest') ∈
              slide_files Fs.wildcard slide_name st) as Hmatch.
  { intros rest' Hfile'. unfold slide_files. apply elem_of_glob.
    split; [exact Hfile'|]. eexists. split; [reflexivity|].
    apply (wildcard_plain_prefix _ _ Hplain). eauto. }
  assert (slide_files Fs.wildcard slide_name st ≠ []) as Hfound.
  { intros Hnone. pose proof (Hmatch rest Hfile) as Hin.
    rewrite Hnone in Hin. apply not_elem_of_nil in Hin. exact Hin. }
  pose proof (delete_slide_found Fs.wildcard slide_name st Hfound) as Hdel.
  do 2 eexists. split; [exact Hdel|]. intros rest'.
  rewrite (delete_slide_disk_lookup _ _ _ _ _ _ Hdel).
  destruct (WSIConverter.cached_for slide_name _); [reflexivity|].
  destruct (decide (_ ∈ slide_files Fs.wildcard slide_name st)) as [|Hout];
    [reflexivity|].
  destruct (disk st !! Fs.div [UPLOAD_FOLDER] (slide_name +:+ "." +:+ rest'))
    as [content|] eqn:E; [|reflexivity].
  exfalso. apply Hout. apply Hmatch. rewrite E. eauto.
Qed.

Lemma delete_slide_removes_prefixed_witness :
  ∃ body st',
    delete_slide Fs.wildcard "a"
      {| disk := {[ ["uploads"; "a.svs"] := "slide";
                    ["uploads"; "a.b.svs"] := "another slide" ]};
         conversion_progress := ∅ |} = (Return body, st') ∧
    ∀ rest', disk st' !! Fs.div [UPLOAD_FOLDER] ("a" +:+ "." +:+ rest') = None.
Proof.
  apply (delete_slide_removes_prefixed "a" "b.svs"); [reflexivity|].
  vm_compute. eauto.
Defined.

(** X12: after an upload with an allowed, plain name that does not start
    with its only dot, a conversion request for the slide name the upload
    reply announces (the stem of the file name) finds a source file: it
    never answers 404. *)
Theorem upload_file_then_convert
    (slide_info : list string → gmap (list string) string → string + Py.dict)
    (filename content : string) (background_tasks : list task) (st : server) :
  Py.contains "/" filename = false →
  Fs.plain filename = true →
  allowed_file filename = true →
  Fs.stem filename ≠ filename →
  ∃ reply st' body background_tasks' st'',
    upload_file slide_info filename content st = (reply, st') ∧
    convert_slide Fs.wildcard (Fs.stem filename) background_tasks st' =
      (Return body, background_tasks', st'').
Proof.
  intros _ Hplain Hok Hstem.
  destruct (allowed_file_inv filename Hok) as (a & ext & Hname & Hdot & Hext).
  pose proof (allowed_extension_not_empty ext Hext) as Hext_ne.
  assert (Fs.stem filename = a) as Ha.
  { destruct a as [|c a].
    - exfalso. apply Hstem. rewrite Hname. unfold Fs.stem.
      change ("" +:+ "." +:+ ext) with ("" +:+ String "." ext).
      rewrite (proj2 (rcut_Some "." ("" +:+ String "." ext) "" ext)) by auto.
      reflexivity.
    - rewrite Hname. apply stem_split; [exact Hdot|discriminate|exact Hext_ne]. }
  assert (filename ≠ "") as Hne by (intros ->; discriminate).
  pose proof (upload_file_accepted slide_info filename content st Hne Hok)
    as Hrun. cbv zeta in Hrun.
  set (st' := {| disk := <[Fs.div [UPLOAD_FOLDER] filename := content]> (disk st);
                 conversion_progress := conversion_progress st |}) in *.
  set (reply := match slide_info _ _ with inl e => _ | inr d => _ end) in Hrun.
  assert (disk st' !! Fs.div [UPLOAD_FOLDER] filename = Some content) as Hfile
    by apply lookup_insert_eq.
  assert (Fs.plain a = true) as Hplain_a.
  { revert Hplain. rewrite Hname. unfold Fs.plain. rewrite !contains_app.
    rewrite !andb_true_iff, !negb_true_iff, !orb_false_iff. tauto. }
  assert (Fs.div [UPLOAD_FOLDER] filename ∈ slide_files Fs.wildcard a st') as Hin.
  { unfold slide_files. apply elem_of_glob. split; [eauto|].
    exists filename. split; [reflexivity|].
    apply (wildcard_plain_prefix _ _ Hplain_a). eauto. }
  exists reply, st'. rewrite Ha. unfold convert_slide.
  destruct (slide_files Fs.wildcard a st') as [|slide_path found];
    [apply not_elem_of_nil in Hin; contradiction|].
  destruct (WSIConverter.is_converted a (disk st')); do 3 eexists;
    (split; [exact Hrun|reflexivity]).
Qed.

Lemma upload_file_then_convert_witness :
  ∃ reply st' body background_tasks' st'',
    upload_file (λ _ _, inr []) "b.tif" "12345678" Sample.uploaded = (reply, st') ∧
    convert_slide Fs.wildcard (Fs.stem "b.tif") [] st' =
      (Return body, background_tasks', st'').
Proof.
  apply (upload_file_then_convert (λ _ _, inr []) "b.tif" "12345678" []
           Sample.uploaded); try reflexivity.
  vm_compute. discriminate.
Defined.

Lemma wildcard_plain_self (s : string) :
  Fs.plain s = true → Fs.wildcard (s +:+ ".*") s = false.
Proof.
  intros Hplain. apply not_true_iff_false. intros Hmatch.
  apply (wildcard_plain_prefix _ _ Hplain) in Hmatch as [rest Hrest].
  apply (f_equal String.length) in Hrest. revert Hrest. clear.
  induction s as [|c s IH]; simpl; [discriminate|].
  intros [= H]. auto.
Qed.

(** X13: a file whose name starts with its only dot (such as [.svs]) is
    accepted as an upload and listed with its whole name as slide name;
    but a conversion, metadata or delete request for that slide name never
    finds the file itself. *)
Theorem dot_file_listed_not_found (filename content : string) (st : server) :
  allowed_file filename = true →
  Fs.plain filename = true →
  Fs.stem filename = filename →
  disk st !! Fs.div [UPLOAD_FOLDER] filename = Some content →
  (∃ slides entry,
     list_slides st = Return slides ∧ entry ∈ slides ∧
     Py.item "name" entry = Some (Py.Str filename) ∧
     Py.item "filename" entry = Some (Py.Str filename)) ∧
  Fs.div [UPLOAD_FOLDER] filename ∉ slide_files Fs.wildcard filename st.
Proof.
  intros Hok Hplain Hstem Hfile. split.
  - destruct (list_slides_lists filename content st Hfile Hok)
      as (slides & entry & Hlist & Hin & Hname & Hfilename & _).
    exists slides, entry. rewrite Hstem in Hname. auto.
  - unfold slide_files. rewrite elem_of_glob. intros [_ (name & Hname & Hmatch)].
    unfold Fs.div in Hname. simpl in Hname. injection Hname as <-.
    rewrite (wildcard_plain_self _ Hplain) in Hmatch. discriminate.
Qed.

Lemma dot_file_listed_not_found_witness :
  (∃ slides entry,
     list_slides {| disk := {[ ["uploads"; ".svs"] := "slide" ]};
                    conversion_progress := ∅ |} = Return slides ∧
     entry ∈ slides ∧
     Py.item "name" entry = Some (Py.Str ".svs") ∧
     Py.item "filename" entry = Some (Py.Str ".svs")) ∧
  Fs.div [UPLOAD_FOLDER] ".svs" ∉
    slide_files Fs.wildcard ".svs"
      {| disk := {[ ["uploads"; ".svs"] := "slide" ]}; conversion_progress := ∅ |}.
Proof.
  apply (dot_file_listed_not_found ".svs" "slide"); reflexivity.
Defined.

(** ** What the progress query can report *)

Lemma server_eta (st : server) :
  {| disk := disk st; conversion_progress := conversion_progress st |} = st.
Proof. destruct st. reflexivity. Qed.

(** Delete and upload requests are disk steps. *)
Lemma delete_slide_step (fnmatch : string → string → bool)
    (slide_name : string) (st st' : server) (reply : response Py.dict) :
  delete_slide fnmatch slide_name st = (reply, st') → step fnmatch st st'.
Proof.
  unfold delete_slide.
  destruct (slide_files fnmatch slide_name st); intros [= _ <-].
  - rewrite <- (server_eta st) at 2. apply step_disk.
  - apply step_disk.
Qed.

Lemma upload_file_step (fnmatch : string → string → bool)
    (slide_info : list string → gmap (list string) string → string + Py.dict)
    (filename content : string) (st st' : server)
    (reply : response upload_reply) :
  upload_file slide_info filename content st = (reply, st') → step fnmatch st st'.
Proof.
  unfold upload_file.
  destruct (bool_decide (filename = ""));
    [intros [= _ <-]; rewrite <- (server_eta st) at 2; apply step_disk|].
  destruct (negb (allowed_file filename));
    [intros [= _ <-]; rewrite <- (server_eta st) at 2; apply step_disk|].
  simpl. destruct (slide_info _ _); intros [= _ <-]; apply step_disk.
Qed.

Lemma step_tracked (fnmatch : string → string → bool) (st st' : server) :
  step fnmatch st st' →
  (∀ slide_name entry,
     conversion_progress st !! slide_name = Some entry → tracked entry) →
  ∀ slide_name entry,
    conversion_progress st' !! slide_name = Some entry → tracked entry.
Proof.
  intros Hstep Hinv.
  destruct Hstep as [s bt reply bt' st st' Hrun|s current total st st' Hrun|st fs].
  - unfold convert_slide in Hrun.
    destruct (slide_files fnmatch s st); [injection Hrun as _ _ <-; exact Hinv|].
    destruct (WSIConverter.is_converted s (disk st));
      injection Hrun as _ _ <-; [exact Hinv|].
    intros slide_name entry. simpl. rewrite lookup_insert.
    destruct (decide (s = slide_name)); [|apply Hinv].
    intros [= <-]. do 2 eexists. split; [reflexivity|]. left.
  - unfold progress_callback in Hrun. rewrite update_progress_cases in Hrun.
    destruct (Py.truediv current total) as [q|]; [|discriminate].
    injection Hrun as <-. intros slide_name entry. simpl. rewrite lookup_insert.
    destruct (decide (s = slide_name)); [|apply Hinv].
    intros [= <-]. do 2 eexists. split; [reflexivity|].
    destruct (Py.lt_int _ _); [right; left|right; right; left].
  - exact Hinv.
Qed.

Lemma run_tracked (fnmatch : string → string → bool) (st0 st : server) :
  rtc (step fnmatch) st0 st →
  (∀ slide_name entry,
     conversion_progress st0 !! slide_name = Some entry → tracked entry) →
  ∀ slide_name entry,
    conversion_progress st !! slide_name = Some entry → tracked entry.
Proof.
  induction 1 as [st|st st' st'' Hstep _ IH]; [auto|].
  intros Hinv. apply IH. exact (step_tracked fnmatch st st' Hstep Hinv).
Qed.

(** X14: from a server started with an empty progress dictionary, after any
    sequence of conversion requests, progress callbacks and changes on disk
    (uploads and deletes included), the progress query answers, for every
    slide name, with a dictionary of exactly the keys [progress] and
    [status], and the status is one of idle, starting, converting and
    complete: the status error is never reported. *)
Theorem get_progress_status_values (fnmatch : string → string → bool)
    (st0 st : server) (slide_name : string) :
  conversion_progress st0 = ∅ →
  rtc (step fnmatch) st0 st →
  ∃ progress status,
    get_progress slide_name st =
      [("progress", progress); ("status", Py.Str status)] ∧
    status ∈ ["idle"; "starting"; "converting"; "complete"] ∧
    status ≠ "error".
Proof.
  intros Hempty Hrun.
  assert (∃ progress status,
            get_progress slide_name st =
              [("progress", progress); ("status", Py.Str status)] ∧
            status ∈ ["idle"; "starting"; "converting"; "complete"])
    as (progress & status & Hget & Hin).
  { unfold get_progress.
    destruct (conversion_progress st !! slide_name) as [entry|] eqn:E.
    - destruct (run_tracked fnmatch st0 st Hrun) with (2 := E)
        as (progress & status & -> & Hin).
      + intros s e. rewrite Hempty, lookup_empty. discriminate.
      + exists progress, status. split; [reflexivity|]. right. exact Hin.
    - destruct (WSIConverter.is_converted slide_name (disk st));
        [|destruct (WSIConverter.is_viewable slide_name (disk st))];
        do 2 eexists; (split; [reflexivity|]).
      + do 3 right. left.
      + do 2 right. left.
      + left. }
  exists progress, status. split; [exact Hget|]. split; [exact Hin|].
  intros ->.
  repeat (apply elem_of_cons in Hin as [Hin|Hin]; [discriminate|]).
  apply not_elem_of_nil in Hin. exact Hin.
Qed.

Lemma get_progress_status_values_witness :
  ∃ progress status,
    get_progress "a" Sample.running =
      [("progress", progress); ("status", Py.Str status)] ∧
    status ∈ ["idle"; "starting"; "converting"; "complete"] ∧
    status ≠ "error".
Proof.
  apply (get_progress_status_values Fs.wildcard Sample.uploaded Sample.running "a").
  - reflexivity.
  - eapply rtc_l.
    + eapply (step_convert Fs.wildcard "a" []). vm_compute. reflexivity.
    + eapply rtc_l; [|apply rtc_refl].
      eapply (step_callback Fs.wildcard "a" 3 8). vm_compute. reflexivity.
Defined.

(** X15: conversion requests and progress updates for one slide leave what
    the progress query reports for every other slide unchanged. *)
Theorem get_progress_other_slide (fnmatch : string → string → bool)
    (slide_name other : string) (st : server) :
  other ≠ slide_name →
  (∀ current total st',
     update_progress slide_name current total st = Py.Normal st' →
     get_progress other st' = get_progress other st) ∧
  (∀ background_tasks reply background_tasks' st',
     convert_slide fnmatch slide_name background_tasks st =
       (reply, background_tasks', st') →
     get_progress other st' = get_progress other st).
Proof.
  intros Hne. split.
  - intros current total st' Hrun. rewrite update_progress_cases in Hrun.
    destruct (Py.truediv current total); [|discriminate].
    injection Hrun as <-. unfold get_progress. simpl.
    rewrite lookup_insert_ne by congruence. reflexivity.
  - intros bt reply bt' st' Hrun. unfold convert_slide in Hrun.
    destruct (slide_files fnmatch slide_name st); [congruence|].
    destruct (WSIConverter.is_converted slide_name (disk st)); [congruence|].
    injection Hrun as _ _ <-. unfold get_progress. simpl.
    rewrite lookup_insert_ne by congruence. reflexivity.
Qed.

Lemma get_progress_other_slide_witness :
  ∃ st',
    update_progress "a" 8 8 Sample.running = Py.Normal st' ∧
    get_progress "b" st' = get_progress "b" Sample.running.
Proof.
  eexists. split; [exact update_progress_all_tiles|].
  refine (proj1 (get_progress_other_slide Fs.wildcard "a" "b" Sample.running _)
            8 8 _ _); [discriminate|].
  exact update_progress_all_tiles.
Defined.

(** ** One file per tile *)

Lemma append_cancel_r (s s' t : string) : s +:+ t = s' +:+ t → s = s'.
Proof.
  assert (∀ u v, String.length (u +:+ v) = (String.length u + String.length v)%nat)
    as Hlen by (induction u as [|c u IH]; intros v; simpl; [|rewrite IH]; reflexivity).
  revert s'. induction s as [|c s IH]; intros [|c' s'] Heq; simpl in Heq.
  - reflexivity.
  - apply (f_equal String.length) in Heq. rewrite !Hlen in Heq. simpl in Heq. lia.
  - apply (f_equal String.length) in Heq. rewrite !Hlen in Heq. simpl in Heq. lia.
  - injection Heq as -> Heq. rewrite (IH s' Heq). reflexivity.
Qed.

(** X16: two tile requests are served from the same cache file only if they
    name the same slide, level, column, row and format: no tile of one slide
    or position is ever handed out for another. *)
Theorem serve_tile_one_file_per_key
    (slide_name slide_name' : string) (level col row level' col' row' : Z)
    (format format' : string) (st : server) (r r' : FileResponse) :
  serve_tile slide_name level col row format st = Return r →
  serve_tile slide_name' level' col' row' format' st = Return r' →
  path r = path r' →
  slide_name = slide_name' ∧ level = level' ∧ col = col' ∧ row = row' ∧
  format = format'.
Proof.
  rewrite !serve_tile_cases. intros Hr Hr' Hpath.
  destruct (disk st !! tile_path slide_name level col row format);
    [|discriminate].
  destruct (disk st !! tile_path slide_name' level' col' row' format');
    [|discriminate].
  injection Hr as <-. injection Hr' as <-. cbn [path] in Hpath.
  assert (slide_name = slide_name') as <-.
  { unfold tile_path, Fs.div in Hpath. cbn [app] in Hpath.
    injection Hpath as Hdir _ _. exact (append_cancel_r _ _ _ Hdir). }
  apply tile_path_inj in Hpath. tauto.
Qed.

Lemma serve_tile_one_file_per_key_witness :
  ∃ r,
    serve_tile "a" 0 0 0 "jpeg" Sample.converted = Return r ∧
    ("a" = "a" ∧ 0 = 0 ∧ 0 = 0 ∧ 0 = 0 ∧ "jpeg" = "jpeg").
Proof.
  assert (serve_tile "a" 0 0 0 "jpeg" Sample.converted =
            Return {| path := tile_path "a" 0 0 0 "jpeg";
                      media_type := "image/jpeg" |}) as Hr
    by (vm_compute; reflexivity).
  eexists. split; [exact Hr|].
  exact (serve_tile_one_file_per_key "a" "a" 0 0 0 0 0 0 "jpeg" "jpeg"
           Sample.converted _ _ Hr Hr eq_refl).
Defined.

(** ** Splitting strings *)

Lemma append_assoc (a b c : string) : (a +:+ b) +:+ c = a +:+ b +:+ c.
Proof.
  induction a as [|x a IH]; [reflexivity|].
  change (String x ((a +:+ b) +:+ c) = String x (a +:+ b +:+ c)).
  rewrite IH. reflexivity.
Qed.

Lemma append_nil_r (a : string) : a +:+ "" = a.
Proof.
  induction a as [|x a IH]; [reflexivity|].
  change (String x (a +:+ "") = String x a). rewrite IH. reflexivity.
Qed.

Lemma prefix_cons (a b : ascii) (s1 s2 : string) :
  String.prefix (String a s1) (String b s2) =
  if ascii_dec a b then String.prefix s1 s2 else false.
Proof. reflexivity. Qed.

Lemma prefix_nil (s : string) : String.prefix "" s = true.
Proof. destruct s; reflexivity. Qed.

Lemma prefix_app (a b : string) : String.prefix a (a +:+ b) = true.
Proof.
  induction a as [|c a IH]; simpl; [apply prefix_nil|].
  destruct (ascii_dec c c); [exact IH|contradiction].
Qed.

Lemma prefix_app_app (a b c : string) :
  String.prefix a ((a +:+ b) +:+ c) = true.
Proof.
  induction a as [|x a IH]; simpl; [apply prefix_nil|].
  destruct (ascii_dec x x); [exact IH|contradiction].
Qed.

Lemma prefix_inv (a s : string) :
  String.prefix a s = true → ∃ rest, s = a +:+ rest.
Proof.
  revert s. induction a as [|c a IH]; intros s H; [exists s; reflexivity|].
  destruct s as [|d s]; [discriminate|]. simpl in H.
  destruct (ascii_dec c d) as [->|]; [|discriminate].
  destruct (IH s H) as [rest ->]. exists rest. reflexivity.
Qed.

Lemma drop_app (a b : string) : Py.drop (String.length a) (a +:+ b) = b.
Proof. induction a as [|c a IH]; simpl; [destruct b; reflexivity|exact IH]. Qed.

Lemma split_go_skip (sep : string) (k : nat) (s : string) :
  Py.split_go sep k s = Py.split_go sep 0 (Py.drop k s).
Proof.
  revert s. induction k as [|k IH]; intros s; [destruct s; reflexivity|].
  destruct s as [|c s]; [reflexivity|]. simpl. apply IH.
Qed.

Lemma split_go_not_nil (sep : string) (k : nat) (s : string) :
  Py.split_go sep k s ≠ [].
Proof.
  revert k. induction s as [|c s IH]; intros k; [discriminate|].
  destruct k as [|k]; cbn [Py.split_go]; [|apply IH].
  destruct (String.prefix sep (String c s)); [discriminate|].
  destruct (Py.split_go sep 0 s); discriminate.
Qed.

(** Without an occurrence of the separator nothing is cut. *)
Lemma split_without (sep s : string) :
  sep ≠ "" → Py.has sep s = false → Py.split sep s = [s].
Proof.
  intros Hsep. unfold Py.split. induction s as [|c s IH]; [reflexivity|].
  intros H. apply orb_false_elim in H as [Hhere Hlater].
  cbn [Py.split_go]. rewrite Hhere, (IH Hlater). reflexivity.
Qed.

(** At the first occurrence of the separator the string is cut into the
    text before it, which has no occurrence, and the split of the rest. *)
Lemma split_with (sep s : string) :
  sep ≠ "" → Py.has sep s = true →
  ∃ a rest,
    s = a +:+ sep +:+ rest ∧ Py.has sep a = false ∧
    Py.split sep s = a :: Py.split sep rest.
Proof.
  intros Hsep. unfold Py.split. induction s as [|c s IH]; intros H.
  - destruct sep; [congruence|discriminate].
  - destruct (String.prefix sep (String c s)) eqn:Hhere.
    + exists "". destruct (prefix_inv _ _ Hhere) as [rest Hrest].
      exists rest. split; [exact Hrest|]. split.
      { destruct sep; [congruence|reflexivity]. }
      cbn [Py.split_go]. rewrite Hhere. f_equal.
      rewrite split_go_skip. f_equal.
      destruct sep as [|d sep]; [congruence|].
      simpl in Hrest. injection Hrest as _ ->.
      simpl. rewrite Nat.sub_0_r. apply drop_app.
    + cbn [Py.has] in H. rewrite Hhere, orb_false_l in H.
      destruct (IH H) as (a & rest & -> & Ha & Hsplit).
      exists (String c a), rest. split; [reflexivity|]. split.
      * cbn [Py.has]. rewrite Ha, orb_false_r.
        destruct (String.prefix sep (String c a)) eqn:Hp; [|reflexivity].
        destruct (prefix_inv _ _ Hp) as [x Hx].
        rewrite <- Hhere. change (String c (a +:+ sep +:+ rest))
          with (String c a +:+ sep +:+ rest).
        rewrite Hx. symmetry. apply prefix_app_app.
      * cbn [Py.split_go]. rewrite Hhere, Hsplit. reflexivity.
Qed.

Lemma split_more (sep s : string) :
  sep ≠ "" → ((1 <? length (Py.split sep s))%nat = Py.has sep s).
Proof.
  intros Hsep. destruct (Py.has sep s) eqn:H.
  - destruct (split_with sep s Hsep H) as (a & rest & _ & _ & ->).
    unfold Py.split. pose proof (split_go_not_nil sep 0 rest).
    destruct (Py.split_go sep 0 rest); [contradiction|reflexivity].
  - rewrite (split_without sep s Hsep H). reflexivity.
Qed.

Lemma has_false_prefix (sub s : string) :
  Py.has sub s = false → Py.startswith sub s = false.
Proof.
  unfold Py.startswith. destruct s; cbn [Py.has]; intros H;
    apply orb_false_elim in H as [H _]; exact H.
Qed.

Lemma bucket_prefix_not_empty (bucket : string) : bucket +:+ "/" ≠ "".
Proof. destruct bucket; discriminate. Qed.

(** ** Blob paths *)

(** The extra branch that the signed-URL request has for a URL that does
    not split never changes the path. *)
Lemma resolve_blob_path_signed_same (bucket blob_path : string) :
  resolve_blob_path_signed bucket blob_path = resolve_blob_path bucket blob_path.
Proof.
  unfold resolve_blob_path_signed, resolve_blob_path.
  destruct (Py.startswith "http" blob_path); [|reflexivity].
  destruct (Py.has "storage.cloud.google.com" blob_path ||
            Py.has "storage.googleapis.com" blob_path); [|reflexivity].
  rewrite (split_more _ blob_path (bucket_prefix_not_empty bucket)).
  destruct (Py.has (bucket +:+ "/") blob_path); reflexivity.
Qed.

(** X18: a path given with the bucket name in front resolves to the path
    without it; the bucket name is removed once only, and a path that
    neither is a URL nor starts with the bucket name is taken as it is. *)
Theorem resolve_blob_path_bucket_prefix (bucket blob_path : string) :
  Py.startswith "http" (bucket +:+ "/" +:+ blob_path) = false →
  resolve_blob_path bucket (bucket +:+ "/" +:+ blob_path) = blob_path ∧
  (Py.startswith "http" blob_path = false →
   Py.startswith (bucket +:+ "/") blob_path = false →
   resolve_blob_path bucket blob_path = blob_path).
Proof.
  intros Hurl. unfold resolve_blob_path. split.
  - rewrite Hurl. cbv zeta.
    rewrite <- (append_assoc bucket "/" blob_path).
    unfold Py.startswith. rewrite prefix_app. apply drop_app.
  - intros -> ->. reflexivity.
Qed.

Lemma resolve_blob_path_bucket_prefix_witness :
  resolve_blob_path "wsi_bucket53" ("wsi_bucket53" +:+ "/" +:+ "processed/f.svs") =
    "processed/f.svs" ∧
  resolve_blob_path "wsi_bucket53" "processed/f.svs" = "processed/f.svs".
Proof.
  split.
  - refine (proj1 (resolve_blob_path_bucket_prefix
                     "wsi_bucket53" "processed/f.svs" _)).
    reflexivity.
  - refine (proj2 (resolve_blob_path_bucket_prefix
                     "wsi_bucket53" "processed/f.svs" _) _ _);
      reflexivity.
Defined.

(** X19: a storage URL that contains the bucket name and a slash resolves
    to the text between the first occurrence of that marker and the next
    one: whatever follows a second occurrence of the bucket name in the
    object path is dropped. *)
Theorem resolve_blob_path_url (bucket url : string) :
  Py.startswith "http" url = true →
  Py.has "storage.cloud.google.com" url || Py.has "storage.googleapis.com" url
    = true →
  Py.has (bucket +:+ "/") url = true →
  ∃ before object_path after,
    url = before +:+ (bucket +:+ "/") +:+ object_path +:+ after ∧
    Py.has (bucket +:+ "/") before = false ∧
    Py.has (bucket +:+ "/") object_path = false ∧
    (after = "" ∨ Py.startswith (bucket +:+ "/") after = true) ∧
    resolve_blob_path bucket url = object_path.
Proof.
  intros Hhttp Hhost Hhas. unfold resolve_blob_path.
  rewrite Hhttp, Hhost, (split_more _ url (bucket_prefix_not_empty bucket)), Hhas.
  destruct (split_with _ url (bucket_prefix_not_empty bucket) Hhas)
    as (before & rest & -> & Hbefore & ->).
  exists before.
  destruct (Py.has (bucket +:+ "/") rest) eqn:Hrest.
  - destruct (split_with _ rest (bucket_prefix_not_empty bucket) Hrest)
      as (object_path & after & -> & Hobj & ->).
    exists object_path, ((bucket +:+ "/") +:+ after). simpl.
    split; [reflexivity|]. split; [exact Hbefore|]. split; [exact Hobj|].
    split; [right; apply prefix_app|].
    rewrite (has_false_prefix _ _ Hobj). reflexivity.
  - rewrite (split_without _ rest (bucket_prefix_not_empty bucket) Hrest).
    exists rest, "". simpl.
    split; [|split; [exact Hbefore|split; [exact Hrest|split; [left; reflexivity|]]]].
    + rewrite append_nil_r. reflexivity.
    + rewrite (has_false_prefix _ _ Hrest). reflexivity.
Qed.

Lemma resolve_blob_path_url_witness :
  ∃ before object_path after,
    "https://storage.googleapis.com/wsi/a/wsi/f.svs" =
      before +:+ ("wsi" +:+ "/") +:+ object_path +:+ after ∧
    Py.has ("wsi" +:+ "/") before = false ∧
    Py.has ("wsi" +:+ "/") object_path = false ∧
    (after = "" ∨ Py.startswith ("wsi" +:+ "/") after = true) ∧
    resolve_blob_path "wsi" "https://storage.googleapis.com/wsi/a/wsi/f.svs" =
      object_path.
Proof.
  apply (resolve_blob_path_url "wsi" "https://storage.googleapis.com/wsi/a/wsi/f.svs");
    reflexivity.
Defined.

(** ** Storage status and availability *)

(** X20: the storage status reports [available] exactly when the client
    library is installed, the service account file exists right now and the
    client is initialised; an error message is given exactly when it is not
    available; and the credentials count as found only with the library
    installed. *)
Theorem get_gcs_status_available (g : Gcs.state) :
  (Gcs.available (get_gcs_status g) = true ↔
   Gcs.GCS_AVAILABLE g = true ∧ Gcs.credentials_exist g = true ∧
   is_Some (Gcs.gcs_client g)) ∧
  (Gcs.error (get_gcs_status g) = None ↔
   Gcs.available (get_gcs_status g) = true) ∧
  (Gcs.credentials_found (get_gcs_status g) = true →
   Gcs.library_installed (get_gcs_status g) = true).
Proof.
  unfold get_gcs_status.
  destruct (Gcs.GCS_AVAILABLE g), (Gcs.credentials_exist g),
    (Gcs.gcs_client g) as [bucket|]; simpl;
    repeat split; intros; try discriminate; try tauto; eauto;
    try (destruct H as (? & ? & [? ?])); try discriminate.
Qed.

(** X21: the download, proxy, listing and signed-URL requests answer 503
    exactly when the client library is missing or the client is not
    initialised, whether or not the service account file still exists; so
    none of them answers 503 while the status reports [available]. *)
Theorem gcs_unavailable_503 {datetime : Type}
    (expiration_after : Z → string + datetime) (isoformat : datetime → string)
    (generate_signed_url : string → datetime → string + string)
    (blob_path : string) (prefix : option string) (hours : Z)
    (g : Gcs.state) (st : server) :
  let unavailable := Gcs.GCS_AVAILABLE g = false ∨ Gcs.gcs_client g = None in
  ((∃ detail, download_gcs_file blob_path g st = (HTTPException 503 detail, st))
   ↔ unavailable) ∧
  ((∃ detail, proxy_gcs_file blob_path g = HTTPException 503 detail)
   ↔ unavailable) ∧
  ((∃ detail, list_gcs_files prefix g = HTTPException 503 detail)
   ↔ unavailable) ∧
  ((∃ detail, get_gcs_signed_url expiration_after isoformat generate_signed_url
                blob_path hours g
              = HTTPException 503 detail)
   ↔ unavailable) ∧
  (Gcs.available (get_gcs_status g) = true → ¬ unavailable).
Proof.
  unfold download_gcs_file, proxy_gcs_file, list_gcs_files, get_gcs_signed_url,
    get_gcs_status.
  destruct (Gcs.GCS_AVAILABLE g); simpl.
  - destruct (Gcs.gcs_client g) as [bucket|]; simpl.
    + repeat split; try (intros [?|?]; discriminate).
      * intros [detail H].
        destruct (bucket !! _); [|discriminate].
        destruct (_ || _); discriminate.
      * intros [detail H]. destruct (bucket !! _); discriminate.
      * intros [detail H]. discriminate.
      * intros [detail H]. destruct (bucket !! _); [|discriminate].
        destruct (expiration_after hours); [discriminate|].
        destruct (generate_signed_url _ _); discriminate.
      * intros _ [?|?]; discriminate.
    + repeat split; eauto.
      destruct (Gcs.credentials_exist g); discriminate.
  - repeat split; eauto. discriminate.
Qed.

Lemma contains_slash_lower (s : string) :
  Py.contains "/" (Py.lower s) = Py.contains "/" s.
Proof.
  induction s as [|c s IH]; [reflexivity|]. cbn [Py.lower Py.contains].
  rewrite IH. f_equal. destruct c as [[] [] [] [] [] [] [] []]; reflexivity.
Qed.

Lemma allowed_extension_plain (ext : string) :
  Py.lower ext ∈ ALLOWED_EXTENSIONS → Py.contains "/" ext = false.
Proof.
  intros Hin. rewrite <- contains_slash_lower.
  unfold ALLOWED_EXTENSIONS in Hin. apply elem_of_list_to_set in Hin.
  repeat (apply elem_of_cons in Hin as [->|Hin]; [reflexivity|]).
  apply not_elem_of_nil in Hin. contradiction.
Qed.

(** The last component of a path is what follows its last slash. *)
Lemma blob_filename_rcut (s : string) :
  blob_filename s =
  match Py.rcut "/" s with
  | Some (_, b) => b
  | None => s
  end.
Proof.
  unfold blob_filename, Py.split.
  assert (match Py.rcut "/" s with
          | Some (_, b) =>
              ∃ part parts, Py.split_go "/" 0 s = part :: parts ∧
                            last parts = Some b
          | None => Py.split_go "/" 0 s = [s]
          end) as H.
  { induction s as [|c s IH]; [reflexivity|].
    cbn [Py.rcut Py.split_go].
    destruct (Ascii.eqb_spec c "/") as [->|Hc].
    - rewrite prefix_cons. destruct (ascii_dec "/" "/"); [|contradiction].
      rewrite prefix_nil. change (String.length "/" - 1)%nat with 0%nat.
      destruct (Py.rcut "/" s) as [[a b]|].
      + destruct IH as (part & parts & -> & Hlast).
        exists "", (part :: parts). split; [reflexivity|].
        destruct parts; [discriminate|exact Hlast].
      + rewrite IH. exists "", [s]. split; reflexivity.
    - assert (String.prefix "/" (String c s) = false) as ->.
      { rewrite prefix_cons. destruct (ascii_dec "/" c); [congruence|reflexivity]. }
      destruct (Py.rcut "/" s) as [[a b]|].
      + destruct IH as (part & parts & -> & Hlast). eauto.
      + rewrite IH. reflexivity. }
  destruct (Py.rcut "/" s) as [[a b]|].
  - destruct H as (part & parts & -> & Hlast).
    destruct parts; [discriminate|]. simpl in *. rewrite Hlast. reflexivity.
  - rewrite H. reflexivity.
Qed.

Lemma blob_filename_plain (s : string) :
  Py.contains "/" (blob_filename s) = false.
Proof.
  rewrite blob_filename_rcut.
  destruct (Py.rcut "/" s) as [[a b]|] eqn:E.
  - apply rcut_Some in E as [_ Hb]. exact Hb.
  - apply rcut_None. exact E.
Qed.

Lemma allowed_file_blob_filename (blob_name : string) :
  allowed_file blob_name = true → allowed_file (blob_filename blob_name) = true.
Proof.
  intros Hok.
  destruct (allowed_file_inv _ Hok) as (a & ext & -> & Hdot & Hext).
  pose proof (allowed_extension_plain ext Hext) as Hslash.
  rewrite blob_filename_rcut.
  destruct (Py.rcut "/" a) as [[dir base]|] eqn:E.
  - apply rcut_Some in E as [-> Hbase].
    rewrite (proj2 (rcut_Some "/" ((dir +:+ String "/" base) +:+ "." +:+ ext)
                      dir (base +:+ "." +:+ ext))).
    + rewrite (allowed_file_split _ _ Hdot). apply bool_decide_eq_true.
      exact Hext.
    + split.
      * rewrite append_assoc. reflexivity.
      * rewrite contains_app, Hbase.
        change (Py.contains "/" ("." +:+ ext)) with (Py.contains "/" ext).
        rewrite Hslash. reflexivity.
  - apply rcut_None in E.
    rewrite (proj2 (rcut_None "/" (a +:+ "." +:+ ext))); [exact Hok|].
    rewrite contains_app, E.
    change (Py.contains "/" ("." +:+ ext)) with (Py.contains "/" ext).
    rewrite Hslash. reflexivity.
Qed.

(** ** Downloads from the bucket *)

Lemma child_regular (dir : list string) (name : string) :
  Fs.child dir name ≠ dir → Fs.child dir name = Fs.div dir name.
Proof.
  unfold Fs.child. destruct (_ || _); [congruence|reflexivity].
Qed.

Lemma exists_entry_file (p : list string) (fs : gmap (list string) string)
    (c : string) :
  fs !! p = Some c → Fs.exists_entry p fs = true.
Proof.
  intros H. unfold Fs.exists_entry, Fs.exists_.
  rewrite bool_decide_eq_true_2 by eauto. reflexivity.
Qed.

Lemma exists_entry_false (p : list string) (fs : gmap (list string) string) :
  Fs.exists_entry p fs = false → fs !! p = None.
Proof.
  unfold Fs.exists_entry, Fs.exists_. intros H.
  apply orb_false_elim in H as [H _]. apply bool_decide_eq_false in H.
  apply eq_None_not_Some. exact H.
Qed.

(** The three ways a download request for an existing blob can go. *)
Lemma download_gcs_file_cases (blob_path : string) (g : Gcs.state) (st : server)
    (body : Py.dict) (st' : server) :
  download_gcs_file blob_path g st = (Return body, st') →
  ∃ bucket blob,
    Gcs.GCS_AVAILABLE g = true ∧ Gcs.gcs_client g = Some bucket ∧
    bucket !! resolve_blob_path (Gcs.GCS_BUCKET_NAME g) blob_path = Some blob ∧
    let filename :=
      blob_filename (resolve_blob_path (Gcs.GCS_BUCKET_NAME g) blob_path) in
    (st' = st ∧ Py.item "downloaded" body = Some (Py.Bool false) ∧
     (bool_decide (Fs.child [UPLOAD_FOLDER] filename = [UPLOAD_FOLDER]) ||
      bool_decide (filename = "..") ||
      Fs.exists_entry (Fs.child [UPLOAD_FOLDER] filename) (disk st) = true)) ∨
    (Py.item "downloaded" body = Some (Py.Bool true) ∧
     Py.item "filename" body = Some (Py.Str filename) ∧
     Py.item "size" body =
       Some (Py.Int (Z.of_nat (String.length (Gcs.content blob)))) ∧
     disk st !! Fs.div [UPLOAD_FOLDER] filename = None ∧
     st' = {| disk := <[Fs.div [UPLOAD_FOLDER] filename := Gcs.content blob]>
                        (disk st);
              conversion_progress := conversion_progress st |}).
Proof.
  unfold download_gcs_file.
  destruct (Gcs.GCS_AVAILABLE g); [|discriminate]. simpl.
  destruct (Gcs.gcs_client g) as [bucket|]; [|discriminate].
  destruct (bucket !! _) as [blob|] eqn:Hblob; [|discriminate].
  intros Hrun. exists bucket, blob.
  split; [reflexivity|]. split; [reflexivity|]. split; [exact Hblob|].
  cbv zeta. set (filename := blob_filename _) in *.
  destruct (bool_decide (Fs.child [UPLOAD_FOLDER] filename = [UPLOAD_FOLDER]))
    eqn:Hdir; simpl in Hrun |- *.
  { left. injection Hrun as <- <-. auto. }
  destruct (bool_decide (filename = "..")) eqn:Hup; simpl in Hrun |- *.
  { left. injection Hrun as <- <-. auto. }
  apply bool_decide_eq_false in Hdir.
  rewrite (child_regular _ _ Hdir) in *.
  destruct (Fs.exists_entry (Fs.div [UPLOAD_FOLDER] filename) (disk st)) eqn:Hex.
  { left. injection Hrun as <- <-. auto. }
  right. injection Hrun as <- <-. repeat split.
  apply exists_entry_false. exact Hex.
Qed.

(** X22: a successful download request never replaces or removes a file
    that is already on disk and never touches the progress dictionary; and
    repeating the request right away downloads nothing more: it answers
    that the file exists locally and leaves the state as it is. *)
Theorem download_gcs_file_idempotent (blob_path : string) (g : Gcs.state)
    (st st' : server) (body : Py.dict) :
  download_gcs_file blob_path g st = (Return body, st') →
  (∀ p c, disk st !! p = Some c → disk st' !! p = Some c) ∧
  conversion_progress st' = conversion_progress st ∧
  ∃ body',
    download_gcs_file blob_path g st' = (Return body', st') ∧
    Py.item "downloaded" body' = Some (Py.Bool false).
Proof.
  intros Hrun.
  destruct (download_gcs_file_cases _ _ _ _ _ Hrun)
    as (bucket & blob & Hlib & Hclient & Hblob & [(-> & Hflag & Hex)|Hnew]).
  - split; [auto|]. split; [reflexivity|].
    exists body. split; [exact Hrun|exact Hflag].
  - destruct Hnew as (_ & _ & _ & Hfresh & ->). simpl.
    split.
    { intros p c Hp. rewrite lookup_insert_ne; [exact Hp|]. congruence. }
    split; [reflexivity|].
    unfold download_gcs_file. rewrite Hlib, Hclient. simpl. rewrite Hblob.
    set (filename := blob_filename _) in *.
    assert (Fs.child [UPLOAD_FOLDER] filename = Fs.div [UPLOAD_FOLDER] filename)
      as Hchild.
    { unfold download_gcs_file in Hrun. rewrite Hlib, Hclient in Hrun.
      simpl in Hrun. rewrite Hblob in Hrun. fold filename in Hrun.
      destruct (bool_decide (Fs.child [UPLOAD_FOLDER] filename = [UPLOAD_FOLDER]))
        eqn:Hdir.
      - simpl in Hrun. injection Hrun as _ Hst.
        apply (f_equal disk) in Hst. simpl in Hst.
        apply (f_equal (λ m, m !! Fs.div [UPLOAD_FOLDER] filename)) in Hst.
        rewrite lookup_insert_eq, Hfresh in Hst. discriminate.
      - apply bool_decide_eq_false in Hdir. apply child_regular. exact Hdir. }
    rewrite Hchild.
    rewrite (exists_entry_file (Fs.div [UPLOAD_FOLDER] filename) _
               (Gcs.content blob)) by apply lookup_insert_eq.
    rewrite !orb_true_r. eexists. split; reflexivity.
Qed.

(** X23: what the download request stores is what the proxy request sends:
    when the proxy answers with a blob's bytes, the download request for the
    same path succeeds too, and if it reports that it downloaded the file,
    the file under the blob's last path component in the upload folder holds
    exactly those bytes. *)
Theorem download_gcs_file_proxy_same (blob_path : string) (g : Gcs.state)
    (st : server) (r : Gcs.proxied) :
  proxy_gcs_file blob_path g = Return r →
  ∃ body st',
    download_gcs_file blob_path g st = (Return body, st') ∧
    (Py.item "downloaded" body = Some (Py.Bool true) →
     disk st' !! Fs.div [UPLOAD_FOLDER]
                   (blob_filename
                      (resolve_blob_path (Gcs.GCS_BUCKET_NAME g) blob_path)) =
       Some (Gcs.body r) ∧
     Py.item "size" body = Some (Py.Int (Z.of_nat (String.length (Gcs.body r))))).
Proof.
  unfold proxy_gcs_file, download_gcs_file.
  destruct (Gcs.GCS_AVAILABLE g); [|destruct (Gcs.gcs_client g); discriminate].
  destruct (Gcs.gcs_client g) as [bucket|]; [|discriminate]. simpl.
  destruct (bucket !! _) as [blob|]; [|discriminate].
  intros [= <-]. simpl.
  set (filename := blob_filename _).
  destruct (bool_decide (Fs.child [UPLOAD_FOLDER] filename = [UPLOAD_FOLDER]))
    eqn:Hdir; simpl.
  { do 2 eexists. split; [reflexivity|]. discriminate. }
  destruct (bool_decide (filename = "..")); simpl.
  { do 2 eexists. split; [reflexivity|]. discriminate. }
  apply bool_decide_eq_false in Hdir. rewrite (child_regular _ _ Hdir).
  destruct (Fs.exists_entry _ _).
  { do 2 eexists. split; [reflexivity|]. discriminate. }
  do 2 eexists. split; [reflexivity|]. intros _. simpl.
  split; [apply lookup_insert_eq|reflexivity].
Qed.

Lemma download_gcs_file_idempotent_witness :
  ∃ body st' body',
    download_gcs_file "wsi_bucket53/processed/b.svs" SampleGcs.ready
      Sample.uploaded = (Return body, st') ∧
    disk st' !! Sample.slide_file = Some "slide" ∧
    download_gcs_file "wsi_bucket53/processed/b.svs" SampleGcs.ready st' =
      (Return body', st') ∧
    Py.item "downloaded" body' = Some (Py.Bool false).
Proof.
  destruct (download_gcs_file "wsi_bucket53/processed/b.svs" SampleGcs.ready
              Sample.uploaded) as [reply st'] eqn:Hrun.
  assert (∃ body, reply = Return body) as [body ->].
  { revert Hrun. vm_compute. intros [= <- _]. eauto. }
  destruct (download_gcs_file_idempotent _ _ _ _ _ Hrun)
    as (Hkept & _ & body' & Hagain & Hflag).
  exists body, st', body'. split; [reflexivity|].
  split; [apply Hkept; vm_compute; reflexivity|]. split; assumption.
Defined.

Lemma download_gcs_file_proxy_same_witness :
  ∃ r body st',
    proxy_gcs_file "processed/b.svs" SampleGcs.ready = Return r ∧
    download_gcs_file "processed/b.svs" SampleGcs.ready Sample.uploaded =
      (Return body, st') ∧
    disk st' !! Fs.div [UPLOAD_FOLDER] "b.svs" = Some (Gcs.body r).
Proof.
  destruct (proxy_gcs_file "processed/b.svs" SampleGcs.ready) as [r|] eqn:Hproxy;
    [|revert Hproxy; vm_compute; discriminate].
  destruct (download_gcs_file_proxy_same _ _ Sample.uploaded _ Hproxy)
    as (body & st' & Hrun & Hstored).
  exists r, body, st'. split; [reflexivity|]. split; [exact Hrun|].
  apply Hstored. revert Hrun. vm_compute. intros [= <- _]. reflexivity.
Defined.

(** ** Listing the bucket *)

Lemma allowed_file_inline (blob_name : string) :
  Py.contains "." blob_name &&
  bool_decide (Py.lower (default "" (Py.rsplit1 "." blob_name !! 1%nat))
               ∈ ALLOWED_EXTENSIONS) =
  allowed_file blob_name.
Proof.
  unfold allowed_file, Py.rsplit1.
  destruct (Py.contains "." blob_name) eqn:Hdot; [|reflexivity].
  destruct (Py.rcut "." blob_name) as [[a b]|] eqn:E; [reflexivity|].
  apply rcut_None in E. congruence.
Qed.

(** X24: the bucket listing consists of exactly the blobs whose name starts
    with the requested prefix, if one is given, and which the upload request
    would accept by name ([allowed_file] of the whole blob name); each is
    listed with the last component of its name, its full name and its
    size. *)
Theorem list_gcs_files_entries (prefix : option string) (g : Gcs.state)
    (bucket : gmap string Gcs.blob) :
  Gcs.GCS_AVAILABLE g = true →
  Gcs.gcs_client g = Some bucket →
  ∃ files,
    list_gcs_files prefix g = Return files ∧
    ∀ f,
      f ∈ files ↔
      ∃ blob_name blob,
        bucket !! blob_name = Some blob ∧
        match prefix with
        | Some prefix => Py.startswith prefix blob_name = true
        | None => True
        end ∧
        allowed_file blob_name = true ∧
        f = {| Gcs.name := blob_filename blob_name;
               Gcs.path := blob_name;
               Gcs.size := Z.of_nat (String.length (Gcs.content blob));
               Gcs.file_updated := Gcs.updated blob |}.
Proof.
  intros Hlib Hclient. unfold list_gcs_files. rewrite Hlib, Hclient.
  eexists. split; [reflexivity|]. intros f.
  rewrite list_elem_of_omap. split.
  - intros [[blob_name blob] [Hin Hentry]].
    apply list_elem_of_In, filter_In in Hin as [Hin Hprefix].
    apply list_elem_of_In, elem_of_map_to_list in Hin. simpl in Hentry, Hprefix.
    pose proof (allowed_file_inline blob_name) as Hinline.
    destruct (Py.contains "." blob_name); [|discriminate].
    destruct (bool_decide _); [|discriminate].
    injection Hentry as <-. exists blob_name, blob.
    split; [exact Hin|]. split; [destruct prefix; [exact Hprefix|exact I]|].
    split; [symmetry; exact Hinline|reflexivity].
  - intros (blob_name & blob & Hblob & Hprefix & Hok & ->).
    exists (blob_name, blob). split.
    + apply list_elem_of_In, filter_In. split.
      * apply list_elem_of_In, elem_of_map_to_list. exact Hblob.
      * simpl. destruct prefix; [exact Hprefix|reflexivity].
    + simpl. rewrite <- allowed_file_inline in Hok.
      apply andb_prop in Hok as [-> ->]. reflexivity.
Qed.

Lemma list_gcs_files_entries_witness :
  ∃ files,
    list_gcs_files (Some "processed/") SampleGcs.ready = Return files ∧
    {| Gcs.name := "b.svs"; Gcs.path := "processed/b.svs"; Gcs.size := 5;
       Gcs.file_updated := Some "2024-01-01T00:00:00+00:00" |} ∈ files.
Proof.
  destruct (list_gcs_files_entries (Some "processed/") SampleGcs.ready _
              eq_refl eq_refl) as (files & Hlist & Hfiles).
  exists files. split; [exact Hlist|]. apply Hfiles.
  exists "processed/b.svs", SampleGcs.slide.
  split; [vm_compute; reflexivity|]. repeat split.
Defined.

(** X25: every file of the bucket listing whose full name neither looks
    like a URL nor starts with the bucket name can be downloaded by the path
    the listing gives, the name it lands under is one the upload request
    accepts, and once downloaded it appears in the local slide list with
    the listed size. *)
Theorem list_gcs_files_download (prefix : option string) (g : Gcs.state)
    (files : list Gcs.file) (f : Gcs.file) (st : server) :
  list_gcs_files prefix g = Return files →
  f ∈ files →
  Py.startswith "http" (Gcs.path f) = false →
  Py.startswith (Gcs.GCS_BUCKET_NAME g +:+ "/") (Gcs.path f) = false →
  allowed_file (Gcs.name f) = true ∧
  ∃ body st',
    download_gcs_file (Gcs.path f) g st = (Return body, st') ∧
    (Py.item "downloaded" body = Some (Py.Bool true) →
     ∃ slides entry,
       list_slides st' = Return slides ∧ entry ∈ slides ∧
       Py.item "filename" entry = Some (Py.Str (Gcs.name f)) ∧
       Py.item "size" entry = Some (Py.Int (Gcs.size f))).
Proof.
  intros Hlist Hin Hurl Hbucket.
  assert (∃ bucket blob,
            Gcs.GCS_AVAILABLE g = true ∧ Gcs.gcs_client g = Some bucket ∧
            bucket !! Gcs.path f = Some blob ∧
            allowed_file (Gcs.path f) = true ∧
            Gcs.name f = blob_filename (Gcs.path f) ∧
            Gcs.size f = Z.of_nat (String.length (Gcs.content blob)))
    as (bucket & blob & Hlib & Hclient & Hblob & Hok & Hname & Hsize).
  { unfold list_gcs_files in Hlist.
    destruct (Gcs.GCS_AVAILABLE g); [|discriminate].
    destruct (Gcs.gcs_client g) as [bucket|]; [|discriminate].
    injection Hlist as <-.
    apply list_elem_of_omap in Hin as [[blob_name blob] [Hin Hentry]].
    apply list_elem_of_In, filter_In in Hin as [Hin _].
    apply list_elem_of_In, elem_of_map_to_list in Hin. simpl in Hentry.
    pose proof (allowed_file_inline blob_name) as Hinline.
    destruct (Py.contains "." blob_name); [|discriminate].
    destruct (bool_decide _); [|discriminate].
    injection Hentry as <-. exists bucket, blob. simpl. auto 10. }
  assert (resolve_blob_path (Gcs.GCS_BUCKET_NAME g) (Gcs.path f) = Gcs.path f)
    as Hresolve.
  { unfold resolve_blob_path. rewrite Hurl, Hbucket. reflexivity. }
  pose proof (allowed_file_blob_filename _ Hok) as Hok'.
  rewrite Hname. split; [exact Hok'|].
  destruct (download_gcs_file (Gcs.path f) g st) as [reply st'] eqn:Hrun.
  assert (∃ body, reply = Return body) as [body ->].
  { revert Hrun. unfold download_gcs_file.
    rewrite Hlib, Hclient, Hresolve, Hblob. simpl.
    destruct (_ || _); intros [= <- _]; eauto. }
  exists body, st'. split; [reflexivity|]. intros Hflag.
  destruct (download_gcs_file_cases _ _ _ _ _ Hrun)
    as (bucket' & blob' & _ & Hclient' & Hblob' & Hcases).
  rewrite Hclient in Hclient'. injection Hclient' as <-.
  rewrite Hresolve, Hblob in Hblob'. injection Hblob' as <-.
  rewrite Hresolve in Hcases.
  destruct Hcases as [(_ & Hno & _)|(_ & _ & _ & _ & ->)]; [congruence|].
  destruct (list_slides_lists (blob_filename (Gcs.path f)) (Gcs.content blob)
              {| disk := <[Fs.div [UPLOAD_FOLDER] (blob_filename (Gcs.path f))
                            := Gcs.content blob]> (disk st);
                 conversion_progress := conversion_progress st |})
    as (slides & entry & Hslides & Hentry & _ & Hfilename & Hlen);
    [apply lookup_insert_eq|exact Hok'|].
  exists slides, entry. rewrite Hsize. auto.
Qed.

Lemma list_gcs_files_download_witness :
  ∃ files f body st',
    list_gcs_files None SampleGcs.ready = Return files ∧ f ∈ files ∧
    allowed_file (Gcs.name f) = true ∧
    download_gcs_file (Gcs.path f) SampleGcs.ready Sample.uploaded =
      (Return body, st').
Proof.
  pose (f := {| Gcs.name := "b.svs"; Gcs.path := "processed/b.svs";
                Gcs.size := 5;
                Gcs.file_updated := Some "2024-01-01T00:00:00+00:00" |}).
  assert (list_gcs_files None SampleGcs.ready = Return [f]) as Hlist
    by (vm_compute; reflexivity).
  assert (f ∈ [f]) as Hin by left.
  destruct (list_gcs_files_download None SampleGcs.ready [f] f Sample.uploaded
              Hlist Hin eq_refl eq_refl) as (Hok & body & st' & Hrun & _).
  exists [f], f, body, st'.
  split; [exact Hlist|]. split; [exact Hin|]. split; [exact Hok|exact Hrun].
Defined.

(** ** Directly viewable files *)

(** X26: a file that the signed-URL reply flags as directly viewable has a
    name that the upload request accepts. *)
Theorem is_directly_viewable_allowed (filename : string) :
  is_directly_viewable filename = true → allowed_file filename = true.
Proof.
  unfold is_directly_viewable, Fs.suffix. intros H.
  apply bool_decide_eq_true in H.
  destruct (Py.rcut "." filename) as [[[|c a] [|d b]]|] eqn:E;
    try (repeat (apply elem_of_cons in H as [H|H]; [discriminate|]);
         apply not_elem_of_nil in H; contradiction).
  apply rcut_Some in E as [-> Hdot].
  change (String c a +:+ String "." (String d b))
    with (String c a +:+ "." +:+ String d b).
  rewrite (allowed_file_split _ _ Hdot). apply bool_decide_eq_true.
  change (Py.lower (String "." (String d b)))
    with (String "." (Py.lower (String d b))) in H.
  change (Py.lower (String d b))
    with (String (Py.lower_char d) (Py.lower b)).
  repeat (apply elem_of_cons in H as [H|H];
          [injection H as -> ->; unfold ALLOWED_EXTENSIONS;
           apply elem_of_list_to_set; repeat constructor|]).
  apply not_elem_of_nil in H. contradiction.
Qed.

Lemma is_directly_viewable_allowed_witness : allowed_file "scan.TIF" = true.
Proof. apply (is_directly_viewable_allowed "scan.TIF"). reflexivity. Defined.

(** ** Signed URLs *)

(** X17: the signed-URL request resolves its [blob_path] argument to the
    same blob as the proxy and download requests do (the extra branch it has
    for a URL that does not split changes nothing). It fails with 404
    exactly when the proxy request does, with the same message. A reply
    of it implies that the proxy request succeeds, and names the file of
    that blob. Where the proxy request succeeds, the signed-URL request
    returns a reply unless the expiry time or the signing raises, which
    ends in 500. *)
Theorem get_gcs_signed_url_same_blob {datetime : Type}
    (expiration_after : Z → string + datetime) (isoformat : datetime → string)
    (generate_signed_url : string → datetime → string + string)
    (blob_path : string) (hours : Z) (g : Gcs.state) :
  let signed :=
    get_gcs_signed_url expiration_after isoformat generate_signed_url
      blob_path hours g in
  let blob := resolve_blob_path (Gcs.GCS_BUCKET_NAME g) blob_path in
  (∀ detail,
     signed = HTTPException 404 detail ↔
     proxy_gcs_file blob_path g = HTTPException 404 detail) ∧
  (∀ reply,
     signed = Return reply →
     (∃ r, proxy_gcs_file blob_path g = Return r) ∧
     Py.item "filename" reply = Some (Py.Str (blob_filename blob)) ∧
     ∃ expiration signed_url,
       expiration_after hours = inr expiration ∧
       generate_signed_url blob expiration = inr signed_url ∧
       Py.item "signed_url" reply = Some (Py.Str signed_url) ∧
       Py.item "expires_at" reply = Some (Py.Str (isoformat expiration))) ∧
  (∀ r,
     proxy_gcs_file blob_path g = Return r →
     (∃ reply, signed = Return reply) ∨
     (∃ e, signed = HTTPException 500 ("Failed to generate signed URL: " +:+ e) ∧
           (expiration_after hours = inl e ∨
            ∃ expiration, expiration_after hours = inr expiration ∧
                          generate_signed_url blob expiration = inl e))).
Proof.
  unfold get_gcs_signed_url, proxy_gcs_file.
  rewrite resolve_blob_path_signed_same.
  destruct (Gcs.GCS_AVAILABLE g); simpl.
  - destruct (Gcs.gcs_client g) as [bucket|].
    + destruct (bucket !! _) as [b|].
      * destruct (expiration_after hours) as [e|expiration] eqn:He.
        { split; [intros detail; split; discriminate|].
          split; [discriminate|]. intros r _. right. exists e. auto. }
        destruct (generate_signed_url _ expiration) as [e|signed_url] eqn:Hs.
        { split; [intros detail; split; discriminate|].
          split; [discriminate|]. intros r _. right. exists e.
          split; [reflexivity|]. right. eauto. }
        split; [intros detail; split; discriminate|]. split.
        -- intros reply [= <-]. split; [eauto|]. split; [reflexivity|].
           exists expiration, signed_url. auto.
        -- intros r _. left. eauto.
      * split; [intros detail; split; intros [= <-]; reflexivity|].
        split; discriminate.
    + split; [intros detail; split; discriminate|]. split; discriminate.
  - split; [intros detail; split; [discriminate|]|].
    + destruct (Gcs.gcs_client g); discriminate.
    + split; [discriminate|]. intros r. destruct (Gcs.gcs_client g); discriminate.
Qed.

(** ** The cache after a delete *)

Lemma below_tiles_dir (slide_name : string) (level col row : Z)
    (format : string) :
  Fs.below (WSIConverter.tiles_dir slide_name)
           (tile_path slide_name level col row format) = true.
Proof.
  unfold WSIConverter.tiles_dir, tile_path, Fs.div. cbn [app Fs.below].
  repeat (case_bool_decide; [|congruence]). reflexivity.
Qed.

(** X27: after a successful delete request the descriptor route answers 404
    for the slide's descriptor and the tile route answers 404 for every
    level, column, row and format of the slide (with the converter's cache
    clean-up removing the descriptor and the tile directory, as its
    contract says). *)
Theorem delete_slide_then_cache_not_found
    (fnmatch : string → string → bool) (slide_name : string)
    (st st' : server) (body : Py.dict) :
  delete_slide fnmatch slide_name st = (Return body, st') →
  serve_dzi (slide_name +:+ ".dzi") st' = HTTPException 404 "DZI file not found" ∧
  ∀ level col row format,
    serve_tile slide_name level col row format st' =
      HTTPException 404 "Tile not found".
Proof.
  intros Hdel. split.
  - assert (disk st' !! Fs.div [CACHE_FOLDER] (slide_name +:+ ".dzi") = None)
      as Hnone.
    { rewrite (delete_slide_disk_lookup _ _ _ _ _ _ Hdel).
      unfold WSIConverter.cached_for, WSIConverter.descriptor.
      case_bool_decide; [reflexivity|congruence]. }
    unfold serve_dzi, Fs.exists_. rewrite Hnone.
    case_bool_decide as Hsome; [destruct Hsome; discriminate|reflexivity].
  - intros level col row format. rewrite serve_tile_cases.
    rewrite (delete_slide_disk_lookup _ _ _ _ _ _ Hdel).
    unfold WSIConverter.cached_for. rewrite below_tiles_dir, orb_true_r.
    reflexivity.
Qed.

Lemma delete_slide_then_cache_not_found_witness :
  ∃ body st',
    delete_slide Fs.wildcard "a" Sample.converted = (Return body, st') ∧
    serve_dzi ("a" +:+ ".dzi") st' = HTTPException 404 "DZI file not found" ∧
    serve_tile "a" 0 0 0 "jpeg" st' = HTTPException 404 "Tile not found".
Proof.
  assert (slide_files Fs.wildcard "a" Sample.converted ≠ []) as Hfound
    by (vm_compute; discriminate).
  pose proof (delete_slide_found Fs.wildcard "a" Sample.converted Hfound) as Hdel.
  destruct (delete_slide_then_cache_not_found Fs.wildcard "a" Sample.converted
              _ _ Hdel) as [Hdzi Htile].
  do 2 eexists. split; [exact Hdel|]. split; [exact Hdzi|apply Htile].
Defined.
